(** * sol-stake-forge: the staking hooks, embedded and checked against their specification

    The development follows the TypeScript sources:

    - [JS]             the ECMAScript [number] type (IEEE-754 binary64, round
                       to nearest, ties to even) as far as the hooks use it;
    - [Anchor]         values exchanged with the cluster: accounts,
                       instructions, [BN] conversions;
    - [Runtime]        the effect model shared by the hooks: React state
                       setters, toasts, remote calls that may throw,
                       try/catch/finally;
    - [StakeProgram]   the hook [useStakeProgram] (account decoding, live
                       accrual, claim with payout);
    - [AnchorLib]      the reads of [lib/anchor.ts];
    - [StakingCommon]  the state and the fetchers of the hook [useStaking];
    - [Utils]          [solToLamports] of [lib/utils.ts];
    - [Staking]        [useStaking] of [src/hooks/useStaking.ts];
    - [StakingGuarded] the [useStaking] variant with the in-flight gate and
                       the local unstake check;
    - [StakingMock]    the mock [useStaking] variant;
    - [Discipline]     what a callback may be known to do: the events it
                       adds, whether it returns, what it throws.

    The modules of facts follow the modules of definitions. *)

From Stdlib Require Import ZArith QArith Qround Qcanon Lia List String Bool.
From Stdlib Require Import Floats.SpecFloat.
Import ListNotations.

Local Open Scope Z_scope.

(* ================================================================== *)
(** ** ECMAScript numbers *)
(* ================================================================== *)

Module JS.

(** A [number] is NaN, an infinity or a finite value.  Finite values are kept
    as exact rationals; every arithmetic operation rounds its exact result to
    binary64.  The sign of zero is not tracked: the hooks never divide by a
    variable and never observe [-0]. *)
Inductive number : Type :=
| NaN
| Inf (negative : bool)
| Fin (q : Q).

Definition of_Z (z : Z) : number := Fin (inject_Z z).

(** [n / d * 2^(-e)] as a fraction of integers. *)
Definition scale (n d e : Z) : Z * Z :=
  if 0 <=? e then (n, d * 2 ^ e) else (n * 2 ^ (- e), d).

(** Exponent of the unit in the last place of [n / d] (for [n, d > 0]): the
    [e] with [2^52 <= n / d * 2^(-e) < 2^53], clamped below at the exponent
    [-1074] of the subnormals. *)
Definition ulp_exp (n d : Z) : Z :=
  let e0 := Z.log2 n - Z.log2 d - 53 in
  let '(a, b) := scale n d e0 in
  Z.max (if a / b <? 2 ^ 53 then e0 else e0 + 1) (-1074).

(** Nearest integer to [a / b], ties to even. *)
Definition round_even (a b : Z) : Z :=
  let m := a / b in
  match 2 * (a mod b) ?= b with
  | Lt => m
  | Gt => m + 1
  | Eq => if Z.even m then m else m + 1
  end.

(** The rational [m * 2^e], in lowest terms. *)
Definition dyadic (m e : Z) : Q :=
  Qred (if 0 <=? e then inject_Z (m * 2 ^ e) else Qmake m (Z.to_pos (2 ^ (- e)))).

(** Rounding of a positive rational [n / d] to binary64: [None] is overflow. *)
Definition round_pos (n d : Z) : option Q :=
  let e := ulp_exp n d in
  let '(a, b) := scale n d e in
  let m := round_even a b in
  if (0 <? e) && (2 ^ 1024 <=? m * 2 ^ e) then None else Some (dyadic m e).

Definition round (q : Q) : number :=
  match Qnum q with
  | Z0 => Fin 0
  | Zpos n =>
      match round_pos (Zpos n) (Zpos (Qden q)) with
      | Some r => Fin r
      | None => Inf false
      end
  | Zneg n =>
      match round_pos (Zpos n) (Zpos (Qden q)) with
      | Some r => Fin (Qopp r)
      | None => Inf true
      end
  end.

Definition is_zero (q : Q) : bool := Qnum q =? 0.
Definition is_neg (q : Q) : bool := Qnum q <? 0.

(** [x * y] *)
Definition mul (x y : number) : number :=
  match x, y with
  | NaN, _ | _, NaN => NaN
  | Inf s, Inf t => Inf (xorb s t)
  | Inf s, Fin q | Fin q, Inf s =>
      if is_zero q then NaN else Inf (xorb s (is_neg q))
  | Fin p, Fin q => round (p * q)
  end.

(** [x / y] *)
Definition div (x y : number) : number :=
  match x, y with
  | NaN, _ | _, NaN => NaN
  | Inf _, Inf _ => NaN
  | Inf s, Fin q => Inf (xorb s (is_neg q))
  | Fin _, Inf _ => Fin 0
  | Fin p, Fin q =>
      if is_zero q then (if is_zero p then NaN else Inf (is_neg p))
      else round (p / q)
  end.

(** [x + y] *)
Definition add (x y : number) : number :=
  match x, y with
  | NaN, _ | _, NaN => NaN
  | Inf s, Inf t => if Bool.eqb s t then Inf s else NaN
  | Inf s, Fin _ | Fin _, Inf s => Inf s
  | Fin p, Fin q => round (p + q)
  end.

(** [- x] *)
Definition neg (x : number) : number :=
  match x with
  | NaN => NaN
  | Inf s => Inf (negb s)
  | Fin q => Fin (Qopp q)
  end.

(** [x - y] *)
Definition sub (x y : number) : number := add x (neg y).

(** [Math.floor(x)] *)
Definition floor (x : number) : number :=
  match x with
  | Fin q => of_Z (Qfloor q)
  | other => other
  end.

(** [x < y] *)
Definition lt (x y : number) : bool :=
  match x, y with
  | NaN, _ | _, NaN => false
  | Inf s, Inf t => s && negb t
  | Inf s, Fin _ => s
  | Fin _, Inf t => negb t
  | Fin p, Fin q => negb (Qle_bool q p)
  end.

(** [x <= y] *)
Definition le (x y : number) : bool :=
  match x, y with
  | NaN, _ | _, NaN => false
  | Inf s, Inf t => s || negb t
  | Inf s, Fin _ => s
  | Fin _, Inf t => negb t
  | Fin p, Fin q => Qle_bool p q
  end.

(** [x > y] *)
Definition gt (x y : number) : bool := lt y x.

(** [!x]: a number is falsy when it is zero or NaN. *)
Definition falsy (x : number) : bool :=
  match x with
  | NaN => true
  | Inf _ => false
  | Fin q => is_zero q
  end.

(** The integer a finite integral number denotes. *)
Definition to_Z (x : number) : option Z :=
  match x with
  | Fin q => if Qeq_bool q (inject_Z (Qfloor q)) then Some (Qfloor q) else None
  | _ => None
  end.

End JS.

(* ================================================================== *)
(** ** [JS] against the Standard Library's binary64 *)
(* ================================================================== *)

Module Binary64.

(** Binary64 values through the Standard Library's specification of IEEE-754
    arithmetic ([SpecFloat], precision 53, maximal exponent 1024), to compare
    [JS] with on concrete inputs. *)
Definition binary64_of_Z (z : Z) : spec_float :=
  binary_normalize 53 1024 z 0 false.

Definition number_of_binary64 (x : spec_float) : JS.number :=
  match x with
  | S754_zero _ => JS.of_Z 0
  | S754_infinity s => JS.Inf s
  | S754_nan => JS.NaN
  | S754_finite s m e => JS.Fin (JS.dyadic (if s then Z.neg m else Z.pos m) e)
  end.

Definition same (x y : JS.number) : bool :=
  match x, y with
  | JS.NaN, JS.NaN => true
  | JS.Inf s, JS.Inf t => Bool.eqb s t
  | JS.Fin p, JS.Fin q => (Qnum p =? Qnum q) && (Qden p =? Qden q)%positive
  | _, _ => false
  end.

(** An operation of [JS] and its [SpecFloat] counterpart agree on the binary64
    values [a * 2^i] and [b * 2^j]. *)
Definition agree
  (js : JS.number -> JS.number -> JS.number)
  (sf : spec_float -> spec_float -> spec_float) (a i b j : Z) : bool :=
  let x := binary64_of_Z (a * 2 ^ i) in
  let y := binary64_of_Z (b * 2 ^ j) in
  same (js (number_of_binary64 x) (number_of_binary64 y))
       (number_of_binary64 (sf x y)).

(** Pseudo-random integers of every bit length up to 53. *)
Fixpoint samples (n : nat) (seed : Z) : list Z :=
  match n with
  | O => []
  | S n' =>
      let next :=
        (seed * 6364136223846793005 + 1442695040888963407) mod 2 ^ 64 in
      (1 + next mod 2 ^ (1 + (next / 2 ^ 58) mod 53)) :: samples n' next
  end.

Definition pairs : list (Z * Z) :=
  let l := samples 300 42 in combine l (rev l).

Definition sweep (n : nat)
  (js : JS.number -> JS.number -> JS.number)
  (sf : spec_float -> spec_float -> spec_float) (i j : Z) : bool :=
  forallb (fun p => agree js sf (fst p) i (snd p) j
                    && agree js sf (- fst p) i (snd p) j) (firstn n pairs).

End Binary64.

(* ================================================================== *)
(** ** Values exchanged with the cluster and the wallet *)
(* ================================================================== *)

Module Anchor.

Definition Pubkey := list Byte.byte.

(** [StakeAccount] of [@/lib/anchor] as the [useStaking] hooks read it: the
    integer fields are [BN] values (arbitrary-precision integers). *)
Record StakeAccount : Type := {
  owner : Pubkey;
  stakedAmount : Z;
  totalPoints : Z;
  lastUpdatedTime : Z;
  bump : Z
}.

(** Instructions a transaction may carry. *)
Inductive Instruction : Type :=
| createPdaAccountIx
| stakeIx (lamports : Z)
| unstakeIx (lamports : Z)
| claimPointsIx
| transferToPlatformIx (lamports : JS.number)
| transferFromPointsAccountIx (lamports : JS.number).

(** [BN.prototype.toNumber]: bn.js refuses values that need more than 53 bits
    ("Number can only safely store up to 53 bits"). *)
Definition BN_toNumber (z : Z) : option JS.number :=
  if Z.abs z <? 2 ^ 53 then Some (JS.of_Z z) else None.

(** [new BN(n)] for a number: the constructor of bn.js runs
    [_init(n || 0, ...)], so NaN becomes zero; the fraction of a number is
    dropped by the bit operations that fill the words; and [_initNumber]
    asserts that the magnitude is below [2^53], which fails for the
    infinities as well. *)
Definition BN_ofNumber (x : JS.number) : option Z :=
  match x with
  | JS.NaN => Some 0
  | JS.Inf _ => None
  | JS.Fin q =>
      let z := Z.quot (Qnum q) (Z.pos (Qden q)) in
      if Z.abs z <? 2 ^ 53 then Some z else None
  end.

(** The number of decimal digits of a positive integer. *)
Fixpoint decimalDigits (fuel : nat) (z : Z) : nat :=
  match fuel with
  | O => O
  | S fuel' => if z <? 10 then 1%nat else S (decimalDigits fuel' (z / 10))
  end.

(** The integer [c] reads back as the number whose value is [z]. *)
Definition readsBackAs (z c : Z) : bool :=
  match JS.to_Z (JS.round (inject_Z c)) with
  | Some r => r =? z
  | None => false
  end.

(** The digits [Number.prototype.toString] prints for the number whose value
    is the positive integer [z]: the multiple of the largest power of ten
    [10^j] that reads back as [z]; where the multiple below [z] and the one
    above both do, the closer one, and the even one on a tie. *)
Fixpoint shortestFrom (j : nat) (z : Z) : Z :=
  let p := 10 ^ Z.of_nat j in
  let lo := z / p * p in
  let hi := lo + p in
  let pick :=
    match readsBackAs z lo, readsBackAs z hi with
    | true, true =>
        if z - lo <? hi - z then Some lo
        else if hi - z <? z - lo then Some hi
        else if Z.even (z / p) then Some lo else Some hi
    | true, false => Some lo
    | false, true => Some hi
    | false, false => None
    end in
  match pick with
  | Some c => c
  | None =>
      match j with
      | O => z
      | S j' => shortestFrom j' z
      end
  end.

(** The integer that the decimal string of an integral number denotes.  An
    integer below [2^53] prints as itself; from there on the shortest digits
    that read back as the number are printed, followed by zeros. *)
Definition printedInteger (z : Z) : Z :=
  if Z.abs z <? 2 ^ 53 then z
  else Z.sgn z * shortestFrom (decimalDigits 25 (Z.abs z) - 1) (Z.abs z).

(** [new BN(n.toString())]: decimal digits parse, whereas the strings "NaN",
    "Infinity" and the exponent notation of numbers from [1e21] on are
    refused. *)
Definition BN_ofNumberString (x : JS.number) : option Z :=
  match JS.to_Z x with
  | Some z => if Z.abs z <? 10 ^ 21 then Some (printedInteger z) else None
  | None => None
  end.

(** Borsh encoding of a [u64] argument. *)
Definition fits_u64 (z : Z) : bool := (0 <=? z) && (z <? 2 ^ 64).

(** [SystemProgram.transfer] converts its [lamports] with [BigInt], which
    refuses what is not an integer, and writes them as a [u64]. *)
Definition transferable (lamports : JS.number) : bool :=
  match JS.to_Z lamports with
  | Some z => fits_u64 z
  | None => false
  end.

End Anchor.

(* ================================================================== *)
(** ** Effects of a hook callback *)
(* ================================================================== *)

Module Runtime.
Import Anchor.

(** A thrown value: its [message], when it has one, and whether it has a
    [getLogs] method. *)
Record Error : Type := { message : option string; hasGetLogs : bool }.

Definition plainError (msg : string) : Error :=
  {| message := Some msg; hasGetLogs := false |}.

(** What [error.message.includes(...)] throws on a value without message. *)
Definition noMessageError : Error :=
  plainError "Cannot read properties of undefined (reading 'includes')".

(** Requests that leave the page: RPC calls to the cluster and calls into the
    wallet adapter. *)
Inductive Remote : Type :=
| getAccountInfo
| getBalance
| getLatestBlockhash
| walletSendTransaction (tx : list Instruction)
| walletSignTransaction (tx : list Instruction)
| sendRawTransaction (tx : list Instruction)
| confirmTransaction
| getLogs.

(** A piece of a template string. *)
Inductive Part : Type :=
| Str (s : string)
| Num (x : JS.number)
| Big (z : Z).

Inductive Event : Type :=
| Toast (title : string) (description : list Part) (destructive : bool)
| SetLoading (b : bool)
| Built (ix : Instruction)
| Call (r : Remote).

(** The world outside the hook.  The [k]-th remote request of a run throws
    [fails k] when that is [Some]; otherwise it returns the entry [k] of the
    stream of its result type.  [seconds k] is [Math.floor(Date.now() / 1000)]
    once [k] requests have completed. *)
Record Env : Type := {
  fails : nat -> option Error;
  accountData : nat -> option (list Byte.byte);
  lamportsOf : nat -> JS.number;
  seconds : nat -> Z
}.

Inductive Outcome (A : Type) : Type :=
| Done (a : A)
| Thrown (e : Error).
Arguments Done {A} a.
Arguments Thrown {A} e.

Section Monad.
Context {St : Type}.

(** React state written so far, the events so far, the requests so far. *)
Record World : Type := { state : St; events : list Event; requests : nat }.

Definition M (A : Type) : Type := Env -> World -> Outcome A * World.

Definition ret {A} (a : A) : M A := fun _ w => (Done a, w).

Definition bind {A B} (m : M A) (k : A -> M B) : M B :=
  fun env w =>
    match m env w with
    | (Done a, w') => k a env w'
    | (Thrown e, w') => (Thrown e, w')
    end.

Definition throw {A} (e : Error) : M A := fun _ w => (Thrown e, w).

Definition emit (ev : Event) : M unit :=
  fun _ w => (Done tt, {| state := state w; events := events w ++ [ev];
                          requests := requests w |}).

Definition set (f : St -> St) : M unit :=
  fun _ w => (Done tt, {| state := f (state w); events := events w;
                          requests := requests w |}).

(** [await] of a remote request whose result is read with [result]. *)
Definition await {A} (r : Remote) (result : Env -> nat -> A) : M A :=
  fun env w =>
    let k := requests w in
    let w' := {| state := state w; events := events w ++ [Call r];
                 requests := S k |} in
    match fails env k with
    | Some e => (Thrown e, w')
    | None => (Done (result env k), w')
    end.

Definition unit_result : Env -> nat -> unit := fun _ _ => tt.

(** [Math.floor(Date.now() / 1000)] *)
Definition now : M JS.number :=
  fun env w => (Done (JS.of_Z (seconds env (requests w))), w).

(** [try { body } catch (error) { handler }] *)
Definition try_catch {A} (body : M A) (handler : Error -> M A) : M A :=
  fun env w =>
    match body env w with
    | (Done a, w') => (Done a, w')
    | (Thrown e, w') => handler e env w'
    end.

(** [try { body } finally { cleanup }] *)
Definition try_finally {A} (body : M A) (cleanup : M unit) : M A :=
  fun env w =>
    match body env w with
    | (r, w') =>
        match cleanup env w' with
        | (Done _, w'') => (r, w'')
        | (Thrown e, w'') => (Thrown e, w'')
        end
    end.

Definition run {A} (m : M A) (env : Env) (s : St) : Outcome A * World :=
  m env {| state := s; events := []; requests := 0 |}.

End Monad.
Arguments World St : clear implicits.
Arguments M St A : clear implicits.

Notation "x <- m ;; k" := (bind m (fun x => k))
  (at level 61, m at next level, right associativity).
Notation "m ;; k" := (bind m (fun _ => k))
  (at level 61, right associativity).

(** [haystack.includes(needle)] *)
Definition includes (haystack needle : string) : bool :=
  match String.index 0 needle haystack with
  | Some _ => true
  | None => false
  end.

(** [message || fallback] *)
Definition orDefault (msg fallback : string) : string :=
  match msg with
  | EmptyString => fallback
  | _ => msg
  end.

(** [error.message || fallback]: a missing message is falsy as well. *)
Definition messageOr (error : Error) (fallback : string) : string :=
  match message error with
  | Some msg => orDefault msg fallback
  | None => fallback
  end.

(** [error.message] inside a template string. *)
Definition messageText (error : Error) : string :=
  match message error with
  | Some msg => msg
  | None => "undefined"
  end.

Definition isRemote (ev : Event) : bool :=
  match ev with
  | Call _ => true
  | _ => false
  end.

Definition isBuilt (ev : Event) : bool :=
  match ev with
  | Built _ => true
  | _ => false
  end.

(** Nothing was built, signed or sent. *)
Definition local_only (evs : list Event) : bool :=
  forallb (fun ev => negb (isRemote ev || isBuilt ev)) evs.

(** An environment in which no request fails. *)
Definition calm (data : option (list Byte.byte)) (t : Z) : Env :=
  {| fails := fun _ => None;
     accountData := fun _ => data;
     lamportsOf := fun _ => JS.of_Z 0;
     seconds := fun _ => t |}.

(** The same with [lamports] in the wallet and no stake account yet. *)
Definition funded (lamports : Z) : Env :=
  {| fails := fun _ => None;
     accountData := fun _ => None;
     lamportsOf := fun _ => JS.of_Z lamports;
     seconds := fun _ => 0 |}.

End Runtime.

(* ================================================================== *)
(** ** The hook [useStakeProgram] *)
(* ================================================================== *)

Module StakeProgram.
Import Runtime.

(** 100000 points = 1 SOL *)
Definition POINTS_PER_SOL : JS.number := JS.of_Z 100000.

(** [LAMPORTS_PER_SOL] of [@solana/web3.js]. *)
Definition LAMPORTS_PER_SOL : JS.number := JS.of_Z 1000000000.

(** The account as [fetchStakeAccount] stores it: every integer field went
    through [toNumber]. *)
Record StakeAccount : Type := {
  owner : Anchor.Pubkey;
  stakedAmount : JS.number;
  totalPoints : JS.number;
  lastUpdatedTime : JS.number;
  bump : Byte.byte
}.

(** The [useState] cells of the hook. *)
Record State : Type := {
  stakeAccount : option StakeAccount;
  walletBalance : JS.number;
  loading : bool;
  refreshing : bool;
  calculatedPoints : JS.number
}.

(** What the callbacks close over besides the state: the wallet adapter, the
    connected key and the key pair parsed from the environment variable. *)
Record Deps : Type := {
  wallet : bool;
  publicKey : option Anchor.Pubkey;
  pointsAccountKeypair : option Anchor.Pubkey
}.

Definition connected (d : Deps) : bool :=
  match publicKey d with
  | Some _ => true
  | None => false
  end.

(** [program] is built from [provider], which needs [wallet && publicKey];
    [pdaAccount] is derived from [publicKey]. *)
Definition program (d : Deps) : bool := wallet d && connected d.
Definition pdaAccount (d : Deps) : bool := connected d.

Definition setStakeAccount (v : option StakeAccount) : M State unit :=
  set (fun s => {| stakeAccount := v; walletBalance := walletBalance s;
                   loading := loading s; refreshing := refreshing s;
                   calculatedPoints := calculatedPoints s |}).

Definition setWalletBalance (v : JS.number) : M State unit :=
  set (fun s => {| stakeAccount := stakeAccount s; walletBalance := v;
                   loading := loading s; refreshing := refreshing s;
                   calculatedPoints := calculatedPoints s |}).

Definition setLoading (v : bool) : M State unit :=
  set (fun s => {| stakeAccount := stakeAccount s;
                   walletBalance := walletBalance s;
                   loading := v; refreshing := refreshing s;
                   calculatedPoints := calculatedPoints s |}) ;;
  emit (SetLoading v).

Definition setRefreshing (v : bool) : M State unit :=
  set (fun s => {| stakeAccount := stakeAccount s;
                   walletBalance := walletBalance s;
                   loading := loading s; refreshing := v;
                   calculatedPoints := calculatedPoints s |}).

Definition setCalculatedPoints (v : JS.number) : M State unit :=
  set (fun s => {| stakeAccount := stakeAccount s;
                   walletBalance := walletBalance s;
                   loading := loading s; refreshing := refreshing s;
                   calculatedPoints := v |}).

(** The helper [calculatePoints]; [now] is its reading of the clock,
    [Math.floor(Date.now() / 1000)]. *)
Definition calculatePoints
  (stakedAmount lastUpdatedTime totalPoints now : JS.number) : JS.number :=
  if JS.falsy stakedAmount || JS.falsy lastUpdatedTime then totalPoints
  else
    let timeElapsed := JS.sub now lastUpdatedTime in
    let pointsEarned :=
      JS.floor (JS.div (JS.mul stakedAmount timeElapsed) LAMPORTS_PER_SOL) in
    JS.add totalPoints pointsEarned.

(** The accrual written out in [fetchStakeAccount] (and again in the
    30-second interval of the hook's effect). *)
Definition totalClaimablePoints
  (stakedAmount lastUpdatedTime totalPoints now : JS.number) : JS.number :=
  let timeElapsed := JS.sub now lastUpdatedTime in
  let pointsEarned :=
    if JS.gt stakedAmount (JS.of_Z 0) && JS.gt timeElapsed (JS.of_Z 0)
    then JS.floor (JS.div (JS.mul stakedAmount timeElapsed) LAMPORTS_PER_SOL)
    else JS.of_Z 0 in
  JS.add totalPoints pointsEarned.

(** [data.slice(from, to)] *)
Definition slice (data : list Byte.byte) (from to : nat) : list Byte.byte :=
  firstn (to - from) (skipn from data).

(** The integer a little-endian byte string denotes: [new BN(bytes, 'le')]. *)
Definition BN_le (bytes : list Byte.byte) : Z :=
  fold_right (fun b acc => Z.of_N (Byte.to_N b) + 256 * acc) 0 bytes.

(** [new BN(data.slice(offset, offset + 8), 'le').toNumber()] *)
Definition readU64 (data : list Byte.byte) (offset : nat) : option JS.number :=
  Anchor.BN_toNumber (BN_le (slice data offset (offset + 8))).

(** The field reads of [fetchStakeAccount]; [None] when a [toNumber] throws.
    The first eight bytes are skipped. *)
Definition decodeFields (data : list Byte.byte) : option StakeAccount :=
  let offset := 8%nat in
  let owner := slice data offset (offset + 32) in
  let offset := (offset + 32)%nat in
  match readU64 data offset with
  | None => None
  | Some stakedAmount =>
      let offset := (offset + 8)%nat in
      match readU64 data offset with
      | None => None
      | Some totalPoints =>
          let offset := (offset + 8)%nat in
          match readU64 data offset with
          | None => None
          | Some lastUpdatedTime =>
              let offset := (offset + 8)%nat in
              Some {| owner := owner; stakedAmount := stakedAmount;
                      totalPoints := totalPoints;
                      lastUpdatedTime := lastUpdatedTime;
                      bump := nth offset data Byte.x00 |}
          end
      end
  end.

Definition notInitialized : M State unit :=
  setStakeAccount None ;; setCalculatedPoints (JS.of_Z 0).

Definition fetchStakeAccount (d : Deps) : M State unit :=
  if negb (pdaAccount d && connected d && program d) then ret tt
  else
    setRefreshing true ;;
    try_finally
      (try_catch
         (accountInfo <- await getAccountInfo accountData ;;
          match accountInfo with
          | Some data =>
              if (0 <? List.length data)%nat then
                if (8 + 32 + 8 + 8 + 8 + 1 <=? List.length data)%nat then
                  match decodeFields data with
                  | Some acc =>
                      t <- now ;;
                      setCalculatedPoints
                        (totalClaimablePoints (stakedAmount acc)
                           (lastUpdatedTime acc) (totalPoints acc) t) ;;
                      setStakeAccount (Some acc)
                  | None =>
                      throw (plainError
                               "Number can only safely store up to 53 bits")
                  end
                else notInitialized
              else notInitialized
          | None => notInitialized
          end)
         (fun _ => notInitialized))
      (setRefreshing false).

Definition fetchWalletBalance (d : Deps) : M State unit :=
  if negb (connected d) then ret tt
  else
    try_catch
      (balance <- await getBalance lamportsOf ;;
       setWalletBalance (JS.div balance LAMPORTS_PER_SOL))
      (fun _ => setWalletBalance (JS.of_Z 0)).

Definition staleBlockhash (errorMsg : string) : bool :=
  includes errorMsg "This transaction has already been processed"
  || includes errorMsg
       "Transaction simulation failed: This transaction has already been processed".

(** The two toasts that turn a claim down. *)
Definition belowMinimum : Event :=
  Toast "Error" [Str "You need at least 50000 points to claim."] true.

Definition belowOneSol : Event :=
  Toast "Error" [Str "You need at least 100000 points to claim 1 SOL."] true.

(** [claimPoints]; [s] is the state of the render the callback closes over.
    The [return] in the branch of a zero payout leaves the [try] block, so
    only the two refreshes after it are skipped. *)
Definition claimPoints (s : State) (d : Deps) : M State unit :=
  if negb (program d && connected d && pdaAccount d) then ret tt
  else
    match pointsAccountKeypair d with
    | None =>
        emit (Toast "Error"
                [Str "Points account private key not configured."] true)
    | Some _ =>
        let points := JS.floor (calculatedPoints s) in
        if JS.lt points (JS.of_Z 50000) then emit belowMinimum
        else
          setLoading true ;;
          try_finally
            (try_catch
               (await getLatestBlockhash unit_result ;;
                emit (Built Anchor.claimPointsIx) ;;
                await (walletSendTransaction [Anchor.claimPointsIx])
                  unit_result ;;
                await confirmTransaction unit_result ;;
                let solToClaim := JS.floor (JS.div points POINTS_PER_SOL) in
                if JS.gt solToClaim (JS.of_Z 0) then
                  let lamportsToSend := JS.mul solToClaim LAMPORTS_PER_SOL in
                  await getLatestBlockhash unit_result ;;
                  (if Anchor.transferable lamportsToSend
                   then emit (Built (Anchor.transferFromPointsAccountIx
                                       lamportsToSend))
                   else throw (plainError
                                 "The number cannot be converted to a BigInt")) ;;
                  await (sendRawTransaction
                           [Anchor.transferFromPointsAccountIx lamportsToSend])
                    unit_result ;;
                  await confirmTransaction unit_result ;;
                  emit (Toast "Points Claimed"
                          [Str "Claimed "; Num solToClaim; Str " SOL for ";
                           Num (JS.mul solToClaim POINTS_PER_SOL);
                           Str " points successfully!"] false) ;;
                  fetchStakeAccount d ;;
                  fetchWalletBalance d
                else emit belowOneSol)
               (fun error =>
                  let errorMsg := messageOr error "Failed to claim points" in
                  let errorMsg :=
                    if staleBlockhash errorMsg
                    then "Please try again. A new blockhash is required for each request."%string
                    else errorMsg in
                  emit (Toast "Error" [Str errorMsg] true)))
            (setLoading false)
    end.

(** The state of the first render: the initial values of the [useState]
    cells. *)
Definition initialState : State :=
  {| stakeAccount := None; walletBalance := JS.of_Z 0; loading := false;
     refreshing := false; calculatedPoints := JS.of_Z 0 |}.

(** A connected wallet with the points key pair configured. *)
Definition readyDeps : Deps :=
  {| wallet := true; publicKey := Some []; pointsAccountKeypair := Some [] |}.

(** The render in which [calculatedPoints] holds [points]. *)
Definition withPoints (points : Z) : State :=
  {| stakeAccount := None; walletBalance := JS.of_Z 0; loading := false;
     refreshing := false; calculatedPoints := JS.of_Z points |}.

(** Account data as the cluster returns it, for building inputs: eight
    discriminator bytes, the owner, three little-endian [u64] fields, the
    bump. *)
Definition byteOf (z : Z) : Byte.byte :=
  match Byte.of_N (Z.to_N (z mod 256)) with
  | Some b => b
  | None => Byte.x00
  end.

Definition le8 (z : Z) : list Byte.byte :=
  map (fun i => byteOf (z / 256 ^ i)) [0; 1; 2; 3; 4; 5; 6; 7].

Definition accountBytes (staked points checkpoint : Z) : list Byte.byte :=
  repeat Byte.x00 8 ++ repeat Byte.x01 32
    ++ le8 staked ++ le8 points ++ le8 checkpoint ++ [Byte.xff].

Definition sampleAccount (staked points checkpoint : Z) : StakeAccount :=
  {| owner := repeat Byte.x01 32; stakedAmount := JS.of_Z staked;
     totalPoints := JS.of_Z points; lastUpdatedTime := JS.of_Z checkpoint;
     bump := Byte.xff |}.

(** The read accepted the account data. *)
Definition accepted (data : list Byte.byte) : Prop :=
  exists account,
    stakeAccount
      (state (snd (run (fetchStakeAccount readyDeps) (calm (Some data) 0)
                     initialState)))
    = Some account.

End StakeProgram.

(* ================================================================== *)
(** ** [lib/anchor.ts]: the reads the [useStaking] hooks import *)
(* ================================================================== *)

Module AnchorLib.
Import Runtime.

(** The decoding of [getStakeAccount]: the discriminator is skipped, the
    fields are read by position, and the integers stay [BN] values. *)
Definition parseStakeAccount (data : list Byte.byte)
  : option Anchor.StakeAccount :=
  if (List.length data <? 8)%nat then None
  else
    let accountData := skipn 8 data in
    if (List.length accountData <? 57)%nat then None
    else
      Some {| Anchor.owner := StakeProgram.slice accountData 0 32;
              Anchor.stakedAmount :=
                StakeProgram.BN_le (StakeProgram.slice accountData 32 40);
              Anchor.totalPoints :=
                StakeProgram.BN_le (StakeProgram.slice accountData 40 48);
              Anchor.lastUpdatedTime :=
                StakeProgram.BN_le (StakeProgram.slice accountData 48 56);
              Anchor.bump :=
                Z.of_N (Byte.to_N (nth 56 accountData Byte.x00)) |}.

Section Reads.
Context {St : Type}.

(** [checkPDAExists]: a failed request is logged and answered [false]. *)
Definition checkPDAExists : M St bool :=
  try_catch
    (accountInfo <- await getAccountInfo accountData ;;
     ret (match accountInfo with
          | Some _ => true
          | None => false
          end))
    (fun _ => ret false).

(** [getStakeAccount]: a failed request is logged and answered [null]. *)
Definition getStakeAccount : M St (option Anchor.StakeAccount) :=
  try_catch
    (accountInfo <- await getAccountInfo accountData ;;
     ret (match accountInfo with
          | Some data => parseStakeAccount data
          | None => None
          end))
    (fun _ => ret None).

End Reads.

End AnchorLib.

(* ================================================================== *)
(** ** The hook [useStaking]: what its three variants share *)
(* ================================================================== *)

Module StakingCommon.
Import Runtime.

Definition LAMPORTS_PER_SOL : JS.number := JS.of_Z 1000000000.

(** The [useState] cells of [useStaking]. *)
Record State : Type := {
  loading : bool;
  balance : JS.number;
  stakeAccount : option Anchor.StakeAccount;
  pdaExists : bool
}.

(** What the callbacks close over besides the state: the connected key, the
    two capabilities of the wallet adapter, and whether
    [VITE_PLATFORM_PRIVATE_KEY] parses to a key pair. *)
Record Deps : Type := {
  publicKey : option Anchor.Pubkey;
  sendTransaction : bool;
  signTransaction : bool;
  platformKeypair : bool
}.

Definition connected (d : Deps) : bool :=
  match publicKey d with
  | Some _ => true
  | None => false
  end.

Definition setLoading (v : bool) : M State unit :=
  set (fun s => {| loading := v; balance := balance s;
                   stakeAccount := stakeAccount s;
                   pdaExists := pdaExists s |}) ;;
  emit (SetLoading v).

Definition setBalance (v : JS.number) : M State unit :=
  set (fun s => {| loading := loading s; balance := v;
                   stakeAccount := stakeAccount s;
                   pdaExists := pdaExists s |}).

Definition setStakeAccount (v : option Anchor.StakeAccount) : M State unit :=
  set (fun s => {| loading := loading s; balance := balance s;
                   stakeAccount := v; pdaExists := pdaExists s |}).

Definition setPdaExists (v : bool) : M State unit :=
  set (fun s => {| loading := loading s; balance := balance s;
                   stakeAccount := stakeAccount s; pdaExists := v |}).

(** [toast({ title: "Error", description, variant: "destructive" })] *)
Definition toastError (description : list Part) : M State unit :=
  emit (Toast "Error" description true).

(** [toast({ title: "Success", description })] *)
Definition toastSuccess (description : list Part) : M State unit :=
  emit (Toast "Success" description false).

(** [fetchBalance], the same in the two variants that talk to the cluster. *)
Definition fetchBalance (d : Deps) : M State unit :=
  if negb (connected d) then ret tt
  else
    try_catch
      (balanceLamports <- await getBalance lamportsOf ;;
       setBalance (JS.div balanceLamports LAMPORTS_PER_SOL))
      (fun _ => toastError [Str "Failed to fetch wallet balance"]).

(** The body of [fetchStakeAccount]; the variants differ in the toast of the
    [catch] block only. *)
Definition fetchStakeAccountWith (onError : M State unit) (d : Deps)
  : M State unit :=
  if negb (connected d) then ret tt
  else
    try_catch
      (exists_ <- AnchorLib.checkPDAExists ;;
       setPdaExists exists_ ;;
       if exists_ then
         account <- AnchorLib.getStakeAccount ;;
         setStakeAccount account
       else setStakeAccount None)
      (fun _ => onError).

Definition fetchStakeAccount : Deps -> M State unit :=
  fetchStakeAccountWith (toastError [Str "Failed to fetch stake account"]).

Definition noPointsToClaim : Event :=
  Toast "Error" [Str "No points to claim"] true.

(** A connected wallet that can sign and send, with the platform key set. *)
Definition walletDeps : Deps :=
  {| publicKey := Some []; sendTransaction := true; signTransaction := true;
     platformKeypair := true |}.

Definition position (staked points checkpoint : Z) : Anchor.StakeAccount :=
  {| Anchor.owner := []; Anchor.stakedAmount := staked;
     Anchor.totalPoints := points; Anchor.lastUpdatedTime := checkpoint;
     Anchor.bump := 255 |}.

(** A render with an existing account and two SOL in the wallet. *)
Definition render (inFlight : bool) (account : Anchor.StakeAccount) : State :=
  {| loading := inFlight; balance := JS.of_Z 2;
     stakeAccount := Some account; pdaExists := true |}.

(** The first render of a connected wallet: nothing fetched yet. *)
Definition firstRender : State :=
  {| loading := false; balance := JS.of_Z 0; stakeAccount := None;
     pdaExists := false |}.

End StakingCommon.

(* ================================================================== *)
(** ** [lib/utils.ts] *)
(* ================================================================== *)

Module Utils.
Import Runtime.

(** [solToLamports]: [new BN(Math.floor(sol * LAMPORTS_PER_SOL))], or the
    failed assertion of the constructor. *)
Definition solToLamports (sol : JS.number) : Outcome Z :=
  match Anchor.BN_ofNumber
          (JS.floor (JS.mul sol StakingCommon.LAMPORTS_PER_SOL)) with
  | Some z => Done z
  | None => Thrown (plainError "Assertion failed")
  end.

End Utils.

(* ================================================================== *)
(** ** [useStaking] of [src/hooks/useStaking.ts] *)
(* ================================================================== *)

Module Staking.
Import Runtime StakingCommon.

Section WithUtils.

(** [solToLamports] of [@/lib/utils]: the lamports as a [BN], or the value it
    throws. *)
Variable solToLamports : JS.number -> Outcome Z.

Definition lamportsOfSol (amount : JS.number) : M State Z :=
  match solToLamports amount with
  | Done z => ret z
  | Thrown e => throw e
  end.

(** Building an instruction with a [u64] argument. *)
Definition build (ix : Z -> Anchor.Instruction) (lamports : Z) : M State unit :=
  if Anchor.fits_u64 lamports then emit (Built (ix lamports))
  else throw (plainError "byte array longer than desired length").

Definition createPdaAccount (d : Deps) : M State bool :=
  if negb (connected d && sendTransaction d) then
    toastError [Str "Wallet not connected"] ;; ret false
  else
    setLoading true ;;
    try_finally
      (try_catch
         (emit (Built Anchor.createPdaAccountIx) ;;
          await (walletSendTransaction [Anchor.createPdaAccountIx])
            unit_result ;;
          await confirmTransaction unit_result ;;
          toastSuccess [Str "Account created successfully"] ;;
          setPdaExists true ;;
          ret true)
         (fun error =>
            toastError [Str "Failed to create account: ";
                        Str (messageText error)] ;;
            ret false))
      (setLoading false).

(** [error.message.includes] throws on a value without message. *)
Definition stakeFailure (error : Error) : M State unit :=
  match message error with
  | None => throw noMessageError
  | Some msg =>
      if includes msg "6000" then
        toastError [Str "Amount must be greater than 0"]
      else if includes msg "6001" then
        toastError [Str "Insufficient staked amount"]
      else if includes msg "6002" then
        toastError [Str "Unauthorized access"]
      else if includes msg "6003" then
        toastError [Str "Arithmetic overflow"]
      else toastError [Str "Staking failed: "; Str msg]
  end.

Definition stake (s : State) (d : Deps) (amount : JS.number) : M State unit :=
  if negb (connected d && sendTransaction d) then
    toastError [Str "Wallet not connected"]
  else if JS.le amount (JS.of_Z 0) then
    toastError [Str "Amount must be greater than 0"]
  else if JS.gt amount (balance s) then
    toastError [Str "Insufficient balance"]
  else
    setLoading true ;;
    try_finally
      (try_catch
         (created <- (if negb (pdaExists s) then createPdaAccount d
                      else ret true) ;;
          if negb created then ret tt
          else
            lamports <- lamportsOfSol amount ;;
            build Anchor.stakeIx lamports ;;
            await (walletSendTransaction [Anchor.stakeIx lamports])
              unit_result ;;
            await confirmTransaction unit_result ;;
            toastSuccess [Str "Successfully staked "; Num amount; Str " SOL"] ;;
            fetchBalance d ;;
            fetchStakeAccount d)
         stakeFailure)
      (setLoading false).

Definition unstakeFailure (error : Error) : M State unit :=
  match message error with
  | None => throw noMessageError
  | Some msg =>
      if includes msg "6001" then
        toastError [Str "Insufficient staked amount"]
      else if includes msg "6004" then
        toastError [Str "Arithmetic underflow"]
      else toastError [Str "Unstaking failed: "; Str msg]
  end.

Definition unstake (s : State) (d : Deps) (amount : JS.number)
  : M State unit :=
  if negb (connected d && sendTransaction d) then
    toastError [Str "Wallet not connected"]
  else
    match stakeAccount s with
    | None => toastError [Str "No stake account found"]
    | Some _ =>
        if JS.le amount (JS.of_Z 0) then
          toastError [Str "Amount must be greater than 0"]
        else
          setLoading true ;;
          try_finally
            (try_catch
               (lamports <- lamportsOfSol amount ;;
                build Anchor.unstakeIx lamports ;;
                await (walletSendTransaction [Anchor.unstakeIx lamports])
                  unit_result ;;
                await confirmTransaction unit_result ;;
                toastSuccess [Str "Successfully unstaked "; Num amount;
                              Str " SOL"] ;;
                fetchBalance d ;;
                fetchStakeAccount d)
               unstakeFailure)
            (setLoading false)
    end.

End WithUtils.

(** The gate is [!stakeAccount || stakeAccount.totalPoints.eq(new BN(0))]. *)
Definition claimPoints (s : State) (d : Deps) : M State unit :=
  if negb (connected d && sendTransaction d) then
    toastError [Str "Wallet not connected"]
  else
    match stakeAccount s with
    | None => emit noPointsToClaim
    | Some account =>
        if Anchor.totalPoints account =? 0 then emit noPointsToClaim
        else
          setLoading true ;;
          try_finally
            (try_catch
               (emit (Built Anchor.claimPointsIx) ;;
                await (walletSendTransaction [Anchor.claimPointsIx])
                  unit_result ;;
                await confirmTransaction unit_result ;;
                toastSuccess [Str "Successfully claimed ";
                              Big (Anchor.totalPoints account);
                              Str " points"] ;;
                fetchStakeAccount d)
               (fun error =>
                  toastError [Str "Claiming failed: ";
                              Str (messageText error)]))
            (setLoading false)
    end.

End Staking.

(* ================================================================== *)
(** ** The [useStaking] variant with the in-flight gate *)
(* ================================================================== *)

Module StakingGuarded.
Import Runtime StakingCommon.

Definition pleaseWaitToast : Event :=
  Toast "Please wait" [Str "Transaction in progress"] true.

Definition pleaseWait : M State unit := emit pleaseWaitToast.

Definition exceedsStakeToast : Event :=
  Toast "Error" [Str "Cannot unstake more than currently staked amount"] true.

(** [new BN(lamports.toString())] followed by the encoding of the [u64]
    argument. *)
Definition build (ix : Z -> Anchor.Instruction) (lamports : JS.number)
  : M State Z :=
  match Anchor.BN_ofNumberString lamports with
  | None => throw (plainError "Invalid character")
  | Some z =>
      if Anchor.fits_u64 z then emit (Built (ix z)) ;; ret z
      else throw (plainError "byte array longer than desired length")
  end.

(** [signTransaction] when the wallet offers it, then [serialize], which
    refuses a transaction without the fee payer's signature, then
    [sendRawTransaction] and [confirmTransaction]. *)
Definition signSendConfirm (d : Deps) (tx : list Anchor.Instruction)
  : M State unit :=
  (if signTransaction d then await (walletSignTransaction tx) unit_result
   else throw (plainError "Signature verification failed")) ;;
  await (sendRawTransaction tx) unit_result ;;
  await confirmTransaction unit_result.

(** The [catch] block of the three operations. *)
Definition failure (what : string) (error : Error) : M State unit :=
  (if hasGetLogs error then await getLogs unit_result else ret tt) ;;
  toastError [Str what; Str (messageText error)].

Definition createPdaAccount (d : Deps) : M State bool :=
  if negb (connected d && sendTransaction d) then
    toastError [Str "Wallet not connected"] ;; ret false
  else
    setLoading true ;;
    try_finally
      (try_catch
         (emit (Built Anchor.createPdaAccountIx) ;;
          await getLatestBlockhash unit_result ;;
          signSendConfirm d [Anchor.createPdaAccountIx] ;;
          toastSuccess [Str "Account created successfully"] ;;
          setPdaExists true ;;
          ret true)
         (fun error =>
            toastError [Str "Failed to create account: ";
                        Str (messageText error)] ;;
            ret false))
      (setLoading false).

Definition stake (s : State) (d : Deps) (amount : JS.number) : M State unit :=
  if loading s then pleaseWait
  else if negb (connected d && sendTransaction d) then
    toastError [Str "Wallet not connected"]
  else if JS.le amount (JS.of_Z 0) then
    toastError [Str "Amount must be greater than 0"]
  else
    setLoading true ;;
    try_finally
      (try_catch
         (created <- (if negb (pdaExists s) then createPdaAccount d
                      else ret true) ;;
          if negb created then ret tt
          else
            let lamports := JS.floor (JS.mul amount LAMPORTS_PER_SOL) in
            walletBalanceLamports <- await getBalance lamportsOf ;;
            let feeBuffer := JS.of_Z 10000 in
            if JS.lt walletBalanceLamports (JS.add lamports feeBuffer) then
              toastError [Str "Insufficient balance (including fee buffer)"]
            else
              (if platformKeypair d then ret tt
               else throw (plainError "Platform private key not set in env")) ;;
              (if Anchor.transferable lamports
               then emit (Built (Anchor.transferToPlatformIx lamports))
               else throw (plainError
                             "The number cannot be converted to a BigInt")) ;;
              z <- build Anchor.stakeIx lamports ;;
              let tx := [Anchor.transferToPlatformIx lamports;
                         Anchor.stakeIx z] in
              await getLatestBlockhash unit_result ;;
              signSendConfirm d tx ;;
              toastSuccess [Str "Successfully staked "; Num amount;
                            Str " SOL"] ;;
              fetchBalance d ;;
              fetchStakeAccount d)
         (failure "Staking failed: "))
      (setLoading false).

Definition unstake (s : State) (d : Deps) (amount : JS.number)
  : M State unit :=
  if loading s then pleaseWait
  else if negb (connected d && sendTransaction d) then
    toastError [Str "Wallet not connected"]
  else
    match stakeAccount s with
    | None => toastError [Str "No stake account found"]
    | Some account =>
        if JS.le amount (JS.of_Z 0) then
          toastError [Str "Amount must be greater than 0"]
        else
          let lamports := JS.floor (JS.mul amount LAMPORTS_PER_SOL) in
          match Anchor.BN_toNumber (Anchor.stakedAmount account) with
          | None =>
              throw (plainError "Number can only safely store up to 53 bits")
          | Some stakedLamports =>
              if JS.gt lamports stakedLamports then emit exceedsStakeToast
              else
                setLoading true ;;
                try_finally
                  (try_catch
                     (z <- build Anchor.unstakeIx lamports ;;
                      await getLatestBlockhash unit_result ;;
                      signSendConfirm d [Anchor.unstakeIx z] ;;
                      toastSuccess [Str "Successfully unstaked "; Num amount;
                                    Str " SOL"] ;;
                      fetchBalance d ;;
                      fetchStakeAccount d)
                     (failure "Unstaking failed: "))
                  (setLoading false)
          end
    end.

Definition claimPoints (s : State) (d : Deps) : M State unit :=
  if loading s then pleaseWait
  else if negb (connected d && sendTransaction d) then
    toastError [Str "Wallet not connected"]
  else
    match stakeAccount s with
    | None => emit noPointsToClaim
    | Some account =>
        (* [!stakeAccount.totalPoints] is false for an object;
           [Number(stakeAccount.totalPoints) === 0] holds for zero only *)
        if Anchor.totalPoints account =? 0 then emit noPointsToClaim
        else
          setLoading true ;;
          try_finally
            (try_catch
               (emit (Built Anchor.claimPointsIx) ;;
                await getLatestBlockhash unit_result ;;
                signSendConfirm d [Anchor.claimPointsIx] ;;
                toastSuccess [Str "Successfully claimed ";
                              Big (Anchor.totalPoints account);
                              Str " points"] ;;
                fetchStakeAccount d)
               (failure "Claiming failed: "))
            (setLoading false)
    end.

End StakingGuarded.

(* ================================================================== *)
(** ** The mock [useStaking] variant *)
(* ================================================================== *)

Module StakingMock.
Import Runtime StakingCommon.

(** [toast.error(message)] and [toast.success(message)] of react-hot-toast
    carry no title. *)
Definition toastError (description : list Part) : M State unit :=
  emit (Toast EmptyString description true).

Definition toastSuccess (description : list Part) : M State unit :=
  emit (Toast EmptyString description false).

Definition fetchStakeAccount : Deps -> M State unit :=
  fetchStakeAccountWith (toastError [Str "Failed to fetch stake account"]).

Definition claimPoints (s : State) (d : Deps) : M State unit :=
  if negb (connected d && signTransaction d) then
    toastError [Str "Wallet not connected"]
  else
    match stakeAccount s with
    | None => toastError [Str "No points to claim"]
    | Some account =>
        if Anchor.totalPoints account =? 0 then
          toastError [Str "No points to claim"]
        else
          setLoading true ;;
          try_finally
            (try_catch
               (toastSuccess [Str "Successfully claimed ";
                              Big (Anchor.totalPoints account);
                              Str " points"] ;;
                fetchStakeAccount d)
               (fun error =>
                  toastError [Str "Claiming failed: ";
                              Str (messageText error)]))
            (setLoading false)
    end.

End StakingMock.

(* ================================================================== *)
(** ** What a callback may be known to do *)
(* ================================================================== *)

Module Discipline.
Import Runtime.

Section Laws.
Context {St : Type}.

(** Every event [m] adds satisfies [allowed]. *)
Definition emits_only {A} (allowed : Event -> bool) (m : M St A) : Prop :=
  forall env w,
    forallb allowed (events w) = true ->
    forallb allowed (events (snd (m env w))) = true.

(** [m] returns normally: nothing it throws escapes. *)
Definition returns {A} (m : M St A) : Prop :=
  forall env w, exists a, fst (m env w) = Done a.

(** The same in one environment. *)
Definition returns_in {A} (env : Env) (m : M St A) : Prop :=
  forall w, exists a, fst (m env w) = Done a.

(** In [env], whatever [m] throws satisfies [P]. *)
Definition throws_only {A} (P : Error -> Prop) (env : Env) (m : M St A)
  : Prop :=
  forall w e, fst (m env w) = Thrown e -> P e.

End Laws.

(** The thrown value has a [message]. *)
Definition hasMessage (error : Error) : bool :=
  match message error with
  | Some _ => true
  | None => false
  end.

(** Every request that fails in [env] fails with a value that has a
    [message]. *)
Definition failsWithMessage (env : Env) : Prop :=
  forall k error, fails env k = Some error -> hasMessage error = true.

Definition isSubmission (ev : Event) : bool :=
  match ev with
  | Call (walletSendTransaction _) => true
  | Call (sendRawTransaction _) => true
  | _ => false
  end.

Definition isRequest (r : Remote) (ev : Event) : bool :=
  match ev, r with
  | Call getAccountInfo, getAccountInfo => true
  | Call getBalance, getBalance => true
  | Call getLatestBlockhash, getLatestBlockhash => true
  | Call confirmTransaction, confirmTransaction => true
  | Call getLogs, getLogs => true
  | _, _ => false
  end.

(** Reads of the cluster, as opposed to signing and submitting. *)
Definition isRead (ev : Event) : bool :=
  isRequest getAccountInfo ev || isRequest getBalance ev.

Definition isToast (ev : Event) : bool :=
  match ev with
  | Toast _ _ _ => true
  | _ => false
  end.

(** The wallet was asked to sign or to send. *)
Definition isWalletCall (ev : Event) : bool :=
  match ev with
  | Call (walletSendTransaction _) => true
  | Call (walletSignTransaction _) => true
  | _ => false
  end.

(** The wallet adapter's own [sendTransaction] was called. *)
Definition isWalletSend (ev : Event) : bool :=
  match ev with
  | Call (walletSendTransaction _) => true
  | _ => false
  end.

(** No instruction is built, and every request is a read. *)
Definition readsOnly (ev : Event) : bool :=
  negb (isBuilt ev) && (negb (isRemote ev) || isRead ev).

(** [env] with the request number [k] of a run throwing [error]. *)
Definition failingAt (k : nat) (error : Error) (env : Env) : Env :=
  {| fails := fun i => if Nat.eqb i k then Some error else fails env i;
     accountData := accountData env;
     lamportsOf := lamportsOf env;
     seconds := seconds env |}.

Definition raisesLoading (ev : Event) : bool :=
  match ev with
  | SetLoading true => true
  | _ => false
  end.

(** If [loading] was raised at all, it is lowered last. *)
Definition settled (evs : list Event) (finalLoading : bool) : Prop :=
  existsb raisesLoading evs = true ->
  last evs (SetLoading true) = SetLoading false /\ finalLoading = false.

End Discipline.

(* ================================================================== *)
(** ** [useStakeProgram]: account creation, stake and unstake *)
(* ================================================================== *)

Module StakeProgramOps.
Import Runtime StakeProgram.

Definition build (ix : Z -> Anchor.Instruction) (lamports : JS.number)
  : M State Z :=
  match Anchor.BN_ofNumber lamports with
  | None => throw (plainError "Assertion failed")
  | Some z =>
      if Anchor.fits_u64 z then emit (Built (ix z)) ;; ret z
      else throw (plainError "byte array longer than desired length")
  end.

Definition retryHint : string :=
  "Please try again. A new blockhash is required for each request.".

(** The text the [catch] blocks of the hook show for a thrown value. *)
Definition shown (fallback : string) (error : Error) : string :=
  let errorMsg := messageOr error fallback in
  if staleBlockhash errorMsg then retryHint else errorMsg.

(** The [catch] block shared by the four operations of the hook. *)
Definition failed (fallback : string) (error : Error) : M State unit :=
  emit (Toast "Error" [Str (shown fallback error)] true).

Definition createPdaAccount (d : Deps) : M State unit :=
  if negb (program d && connected d && pdaAccount d) then ret tt
  else
    setLoading true ;;
    try_finally
      (try_catch
         (await getLatestBlockhash unit_result ;;
          emit (Built Anchor.createPdaAccountIx) ;;
          await (walletSendTransaction [Anchor.createPdaAccountIx])
            unit_result ;;
          await confirmTransaction unit_result ;;
          emit (Toast "Account Created"
                  [Str "Your staking account has been created successfully!"]
                  false) ;;
          fetchStakeAccount d ;;
          fetchWalletBalance d)
         (failed "Failed to create account"))
      (setLoading false).

(** [stake] and [unstake] differ in the instruction and in their texts. *)
Definition transact
  (ix : Z -> Anchor.Instruction) (title done fallback : string)
  (d : Deps) (amount : JS.number) : M State unit :=
  if negb (program d && connected d && pdaAccount d)
     || JS.le amount (JS.of_Z 0)
  then ret tt
  else
    setLoading true ;;
    try_finally
      (try_catch
         (let lamports := JS.floor (JS.mul amount LAMPORTS_PER_SOL) in
          await getLatestBlockhash unit_result ;;
          z <- build ix lamports ;;
          await (walletSendTransaction [ix z]) unit_result ;;
          await confirmTransaction unit_result ;;
          emit (Toast title [Str done; Num amount; Str " SOL successfully!"]
                  false) ;;
          fetchStakeAccount d ;;
          fetchWalletBalance d)
         (failed fallback))
      (setLoading false).

Definition stake : Deps -> JS.number -> M State unit :=
  transact Anchor.stakeIx "Staked Successfully" "Staked " "Failed to stake".

Definition unstake : Deps -> JS.number -> M State unit :=
  transact Anchor.unstakeIx "Unstaked Successfully" "Unstaked "
    "Failed to unstake".

(** Account data laid out field by field. *)
Definition layout
  (discriminator owner : list Byte.byte) (staked points checkpoint : Z)
  (bump : Byte.byte) (tail : list Byte.byte) : list Byte.byte :=
  discriminator ++ owner ++ le8 staked ++ le8 points ++ le8 checkpoint
    ++ bump :: tail.

End StakeProgramOps.

(* ================================================================== *)
(** ** The mock [useStaking] variant: account creation, stake, unstake *)
(* ================================================================== *)

Module StakingMockOps.
Import Runtime StakingCommon.

Definition fetchBalance (d : Deps) : M State unit :=
  if negb (connected d) then ret tt
  else
    try_catch
      (balance <- await getBalance lamportsOf ;;
       setBalance (JS.div balance LAMPORTS_PER_SOL))
      (fun _ => StakingMock.toastError [Str "Failed to fetch wallet balance"]).

Definition createPdaAccount (d : Deps) : M State bool :=
  if negb (connected d && signTransaction d) then
    StakingMock.toastError [Str "Wallet not connected"] ;; ret false
  else
    setLoading true ;;
    try_finally
      (try_catch
         (StakingMock.toastSuccess [Str "PDA account would be created here"] ;;
          setPdaExists true ;;
          ret true)
         (fun error =>
            StakingMock.toastError [Str "Failed to create account: ";
                                    Str (messageText error)] ;;
            ret false))
      (setLoading false).

Section WithUtils.

Variable solToLamports : JS.number -> Outcome Z.

Definition stakeFailure (error : Error) : M State unit :=
  match message error with
  | None => throw noMessageError
  | Some msg =>
      if includes msg "6000" then
        StakingMock.toastError [Str "Amount must be greater than 0"]
      else if includes msg "6001" then
        StakingMock.toastError [Str "Insufficient staked amount"]
      else if includes msg "6002" then
        StakingMock.toastError [Str "Unauthorized access"]
      else if includes msg "6003" then
        StakingMock.toastError [Str "Arithmetic overflow"]
      else StakingMock.toastError [Str "Staking failed: "; Str msg]
  end.

Definition stake (s : State) (d : Deps) (amount : JS.number) : M State unit :=
  if negb (connected d && signTransaction d) then
    StakingMock.toastError [Str "Wallet not connected"]
  else if JS.le amount (JS.of_Z 0) then
    StakingMock.toastError [Str "Amount must be greater than 0"]
  else if JS.gt amount (balance s) then
    StakingMock.toastError [Str "Insufficient balance"]
  else
    setLoading true ;;
    try_finally
      (try_catch
         (created <- (if negb (pdaExists s) then createPdaAccount d
                      else ret true) ;;
          if negb created then ret tt
          else
            Staking.lamportsOfSol solToLamports amount ;;
            StakingMock.toastSuccess [Str "Successfully staked "; Num amount;
                                      Str " SOL"] ;;
            fetchBalance d ;;
            StakingMock.fetchStakeAccount d)
         stakeFailure)
      (setLoading false).

Definition unstakeFailure (error : Error) : M State unit :=
  match message error with
  | None => throw noMessageError
  | Some msg =>
      if includes msg "6001" then
        StakingMock.toastError [Str "Insufficient staked amount"]
      else if includes msg "6004" then
        StakingMock.toastError [Str "Arithmetic underflow"]
      else StakingMock.toastError [Str "Unstaking failed: "; Str msg]
  end.

Definition unstake (s : State) (d : Deps) (amount : JS.number)
  : M State unit :=
  if negb (connected d && signTransaction d) then
    StakingMock.toastError [Str "Wallet not connected"]
  else
    match stakeAccount s with
    | None => StakingMock.toastError [Str "No stake account found"]
    | Some _ =>
        if JS.le amount (JS.of_Z 0) then
          StakingMock.toastError [Str "Amount must be greater than 0"]
        else
          setLoading true ;;
          try_finally
            (try_catch
               (Staking.lamportsOfSol solToLamports amount ;;
                StakingMock.toastSuccess [Str "Successfully unstaked ";
                                          Num amount; Str " SOL"] ;;
                fetchBalance d ;;
                StakingMock.fetchStakeAccount d)
               unstakeFailure)
            (setLoading false)
    end.

End WithUtils.

End StakingMockOps.

(* ================================================================== *)
(** ** Facts about binary64 rounding *)
(* ================================================================== *)

Module JSFacts.
Import JS.

Lemma Qred_int (q : Q) (z : Z) : q == inject_Z z -> Qred q = inject_Z z.
Proof.
  intros H. rewrite (Qred_complete _ _ H).
  apply Qred_identity. simpl. apply Z.gcd_1_r.
Qed.

Lemma pow2_pos (e : Z) : 0 <= e -> 0 < 2 ^ e.
Proof. intros; apply Z.pow_pos_nonneg; lia. Qed.

Lemma pow2_ge_2 (e : Z) : 0 < e -> 2 <= 2 ^ e.
Proof.
  intros H. replace e with (1 + (e - 1)) by lia.
  rewrite Z.pow_add_r by lia. pose proof (pow2_pos (e - 1)). lia.
Qed.

(** Ties-to-even rounding of [a / b] stays within half a unit of [a / b]. *)
Lemma round_even_bounds (a b : Z) :
  0 < b -> a / b <= round_even a b /\ 2 * round_even a b * b <= 2 * a + b.
Proof.
  intros Hb. unfold round_even.
  pose proof (Z.div_mod a b ltac:(lia)) as Hdm.
  pose proof (Z.mod_pos_bound a b Hb) as Hr.
  destruct (2 * (a mod b) ?= b) eqn:Hc.
  - apply Z.compare_eq in Hc. destruct (Z.even (a / b)); split; nia.
  - rewrite Z.compare_lt_iff in Hc. split; nia.
  - rewrite Z.compare_gt_iff in Hc. split; nia.
Qed.

(** The scaled significand reaches [2^52] unless the exponent is clamped. *)
Lemma ulp_exp_lower (n d : Z) :
  0 < n -> 0 < d ->
  ulp_exp n d = -1074 \/
  2 ^ 52 * snd (scale n d (ulp_exp n d)) <= fst (scale n d (ulp_exp n d)).
Proof.
  intros Hn Hd. unfold ulp_exp.
  pose proof (Z.log2_spec n Hn) as [Hn1 Hn2].
  pose proof (Z.log2_spec d Hd) as [Hd1 Hd2].
  pose proof (Z.log2_nonneg n) as Hln. pose proof (Z.log2_nonneg d) as Hld.
  set (ln := Z.log2 n) in *. set (ld := Z.log2 d) in *.
  set (e0 := ln - ld - 53).
  assert (HP : 0 < 2 ^ ld) by (apply pow2_pos; lia).
  replace (Z.succ ld) with (ld + 1) in Hd2 by lia.
  rewrite Z.pow_add_r in Hd2 by lia. change (2 ^ 1) with 2 in Hd2.
  destruct (scale n d e0) as [a0 b0] eqn:Hs0.
  set (e := if a0 / b0 <? 2 ^ 53 then e0 else e0 + 1).
  destruct (Z.max_spec e (-1074)) as [[_ ->] | [_ ->]]; [now left | right].
  subst e. destruct (a0 / b0 <? 2 ^ 53) eqn:Hfit.
  - (* the significand fits at e0 *)
    rewrite Hs0. unfold scale in Hs0.
    destruct (0 <=? e0) eqn:He0; inversion Hs0; subst a0 b0; cbn [fst snd].
    + apply Z.leb_le in He0.
      assert (HE : 0 < 2 ^ e0) by (apply pow2_pos; lia).
      assert (Hln2 : 2 ^ ln = 2 ^ e0 * 2 ^ ld * 2 ^ 53).
      { rewrite <- !Z.pow_add_r by lia. f_equal. unfold e0. lia. }
      change (2 ^ 53) with (2 * 2 ^ 52) in Hln2.
      assert (d * 2 ^ e0 <= 2 ^ ld * 2 * 2 ^ e0 - 2 ^ e0) by nia.
      assert (0 < 2 ^ 52) by reflexivity.
      nia.
    + apply Z.leb_gt in He0.
      assert (HE : 0 < 2 ^ (- e0)) by (apply pow2_pos; lia).
      assert (Hln2 : 2 ^ ln * 2 ^ (- e0) = 2 ^ ld * 2 ^ 53).
      { rewrite <- !Z.pow_add_r by lia. f_equal. unfold e0. lia. }
      change (2 ^ 53) with (2 * 2 ^ 52) in Hln2.
      assert (2 ^ ln * 2 ^ (- e0) <= n * 2 ^ (- e0)) by nia.
      assert (0 < 2 ^ 52) by reflexivity.
      nia.
  - (* one more bit is needed *)
    apply Z.ltb_ge in Hfit. unfold scale in Hs0 |- *.
    destruct (0 <=? e0) eqn:He0; inversion Hs0; subst a0 b0.
    + apply Z.leb_le in He0.
      replace (0 <=? e0 + 1) with true by (symmetry; apply Z.leb_le; lia).
      cbn [fst snd]. rewrite Z.pow_add_r by lia. change (2 ^ 1) with 2.
      assert (HE : 0 < 2 ^ e0) by (apply pow2_pos; lia).
      pose proof (Z.mul_div_le n (d * 2 ^ e0) ltac:(nia)).
      change (2 ^ 53) with (2 * 2 ^ 52) in Hfit.
      assert (0 < 2 ^ 52) by reflexivity. nia.
    + apply Z.leb_gt in He0.
      assert (HE : 0 < 2 ^ (- (e0 + 1))) by (apply pow2_pos; lia).
      assert (Hsplit : 2 ^ (- e0) = 2 * 2 ^ (- (e0 + 1))).
      { replace (- e0) with (1 + - (e0 + 1)) by lia.
        rewrite Z.pow_add_r by lia. reflexivity. }
      pose proof (Z.mul_div_le (n * 2 ^ (- e0)) d Hd).
      change (2 ^ 53) with (2 * 2 ^ 52) in Hfit.
      assert (0 < 2 ^ 52) by reflexivity.
      destruct (0 <=? e0 + 1) eqn:He1; cbn [fst snd].
      * apply Z.leb_le in He1. assert (He : e0 + 1 = 0) by lia.
        rewrite He in *. change (2 ^ (- 0)) with 1 in *.
        change (2 ^ 0) with 1. nia.
      * nia.
Qed.

(** [n / d * 2^(-e) < 2^53], on the two shapes of [scale]. *)
Lemma scale_below (n d e : Z) :
  fst (scale n d e) < 2 ^ 53 * snd (scale n d e) <->
  (if 0 <=? e then n < 2 ^ 53 * (d * 2 ^ e) else n * 2 ^ (- e) < 2 ^ 53 * d).
Proof. unfold scale. destruct (0 <=? e); reflexivity. Qed.

Lemma scale_below_mono (n d e e' : Z) :
  0 < n -> 0 < d -> e <= e' ->
  fst (scale n d e) < 2 ^ 53 * snd (scale n d e) ->
  fst (scale n d e') < 2 ^ 53 * snd (scale n d e').
Proof.
  intros Hn Hd Hee. rewrite !scale_below.
  assert (H53 : 0 < 2 ^ 53) by reflexivity.
  destruct (Z.leb_spec 0 e) as [He | He], (Z.leb_spec 0 e') as [He' | He'];
    try lia; intros H.
  - pose proof (Z.pow_le_mono_r 2 e e' ltac:(lia) Hee).
    pose proof (pow2_pos e He). nia.
  - pose proof (pow2_pos (- e) ltac:(lia)). pose proof (pow2_pos e' He'). nia.
  - pose proof (Z.pow_le_mono_r 2 (- e') (- e) ltac:(lia) ltac:(lia)).
    pose proof (pow2_pos (- e') ltac:(lia)). nia.
Qed.

(** The scaled significand stays below [2^53]: with [ulp_exp_lower], the
    exponent is the one binary64 gives to [n / d]. *)
Lemma ulp_exp_upper (n d : Z) :
  0 < n -> 0 < d ->
  fst (scale n d (ulp_exp n d)) < 2 ^ 53 * snd (scale n d (ulp_exp n d)).
Proof.
  intros Hn Hd. unfold ulp_exp.
  pose proof (Z.log2_spec n Hn) as [Hn1 Hn2].
  pose proof (Z.log2_spec d Hd) as [Hd1 Hd2].
  pose proof (Z.log2_nonneg n) as Hln. pose proof (Z.log2_nonneg d) as Hld.
  set (ln := Z.log2 n) in *. set (ld := Z.log2 d) in *.
  set (e0 := ln - ld - 53).
  assert (HP : 0 < 2 ^ ld) by (apply pow2_pos; lia).
  assert (H53 : 0 < 2 ^ 53) by reflexivity.
  replace (Z.succ ln) with (ln + 1) in Hn2 by lia.
  destruct (scale n d e0) as [a0 b0] eqn:Hs0.
  set (e := if a0 / b0 <? 2 ^ 53 then e0 else e0 + 1).
  apply (scale_below_mono n d e); [assumption | assumption | lia |].
  subst e. destruct (a0 / b0 <? 2 ^ 53) eqn:Hfit.
  - apply Z.ltb_lt in Hfit. rewrite Hs0. cbn [fst snd].
    assert (Hb0 : 0 < b0).
    { unfold scale in Hs0. destruct (0 <=? e0) eqn:He0; inversion Hs0; subst.
      - apply Z.leb_le in He0. pose proof (pow2_pos e0 He0). nia.
      - assumption. }
    pose proof (Z.mul_succ_div_gt a0 b0 Hb0). nia.
  - rewrite scale_below.
    destruct (Z.leb_spec 0 (e0 + 1)) as [He | He].
    + assert (Hpow : 2 ^ (ln + 1) = 2 ^ 53 * (2 ^ ld * 2 ^ (e0 + 1))).
      { rewrite <- !Z.pow_add_r by lia. f_equal. unfold e0. lia. }
      pose proof (pow2_pos (e0 + 1) He). nia.
    + assert (Hpow : 2 ^ (ln + 1) * 2 ^ (- (e0 + 1)) = 2 ^ 53 * 2 ^ ld).
      { rewrite <- !Z.pow_add_r by lia. f_equal. unfold e0. lia. }
      pose proof (pow2_pos (- (e0 + 1)) ltac:(lia)). nia.
Qed.

Lemma ulp_exp_nonpos (n d : Z) :
  0 < n < 2 ^ 53 * d -> 0 < d -> ulp_exp n d <= 0.
Proof.
  intros Hn Hd.
  destruct (ulp_exp_lower n d ltac:(lia) Hd) as [-> | H]; [lia |].
  destruct (Z_le_gt_dec (ulp_exp n d) 0) as [| Hpos]; [assumption | exfalso].
  unfold scale in H.
  replace (0 <=? ulp_exp n d) with true in H by (symmetry; apply Z.leb_le; lia).
  cbn [fst snd] in H.
  pose proof (pow2_ge_2 (ulp_exp n d) ltac:(lia)).
  change (2 ^ 53) with (2 * 2 ^ 52) in Hn.
  assert (0 < 2 ^ 52) by reflexivity. nia.
Qed.

Lemma scale_nonpos (n d e : Z) : e <= 0 -> scale n d e = (n * 2 ^ (- e), d).
Proof.
  intros He. unfold scale. destruct (0 <=? e) eqn:H0; [| reflexivity].
  apply Z.leb_le in H0. assert (e = 0) by lia. subst e.
  change (2 ^ (- 0)) with 1. change (2 ^ 0) with 1. now rewrite !Z.mul_1_r.
Qed.

Lemma dyadic_nonpos (m e : Z) :
  e <= 0 -> dyadic m e == Qmake m (Z.to_pos (2 ^ (- e))).
Proof.
  intros He. unfold dyadic. rewrite Qred_correct.
  destruct (0 <=? e) eqn:H0; [| reflexivity].
  apply Z.leb_le in H0. assert (e = 0) by lia. subst e.
  change (2 ^ (- 0)) with 1. change (2 ^ 0) with 1.
  unfold Qeq. simpl. lia.
Qed.

Lemma Qfloor_dyadic_nonpos (m e : Z) :
  e <= 0 -> Qfloor (dyadic m e) = m / 2 ^ (- e).
Proof.
  intros He. rewrite (Qfloor_comp _ _ (dyadic_nonpos m e He)).
  unfold Qfloor. rewrite Z2Pos.id by (apply pow2_pos; lia). reflexivity.
Qed.

(** Integers below [2^53] are binary64 values: rounding leaves them alone. *)
Lemma round_pos_int (z : Z) :
  0 < z < 2 ^ 53 -> round_pos z 1 = Some (inject_Z z).
Proof.
  intros Hz. unfold round_pos.
  pose proof (ulp_exp_nonpos z 1 ltac:(lia) ltac:(lia)) as He.
  set (e := ulp_exp z 1) in *.
  rewrite (scale_nonpos z 1 e He).
  replace (0 <? e) with false by (symmetry; apply Z.ltb_ge; lia).
  cbn [andb]. f_equal.
  assert (Hm : round_even (z * 2 ^ (- e)) 1 = z * 2 ^ (- e)).
  { unfold round_even. rewrite Z.mod_1_r, Z.div_1_r. reflexivity. }
  rewrite Hm. unfold dyadic. apply Qred_int.
  pose proof (pow2_pos (- e) ltac:(lia)) as HE.
  destruct (0 <=? e) eqn:H0.
  - apply Z.leb_le in H0. assert (He0 : e = 0) by lia. rewrite He0.
    change (2 ^ (- 0)) with 1. change (2 ^ 0) with 1.
    now rewrite !Z.mul_1_r.
  - unfold Qeq. cbn [Qnum Qden inject_Z]. rewrite Z2Pos.id by assumption. ring.
Qed.

Lemma round_int (z : Z) :
  - 2 ^ 53 < z < 2 ^ 53 -> round (inject_Z z) = of_Z z.
Proof.
  intros Hz. unfold round, of_Z. cbn [Qnum Qden inject_Z].
  destruct z as [| p | p].
  - reflexivity.
  - now rewrite round_pos_int by lia.
  - rewrite round_pos_int by lia. reflexivity.
Qed.

(** Rounding the quotient of two integers below [2^53] never crosses an
    integer: its floor is the integer quotient. *)
Lemma round_pos_div_floor (x D : Z) :
  0 < x < 2 ^ 53 -> 0 < D < 2 ^ 53 ->
  exists r, round_pos x D = Some r /\ Qfloor r = x / D.
Proof.
  intros Hx HD. unfold round_pos.
  assert (H53 : 0 < 2 ^ 52) by reflexivity.
  pose proof (ulp_exp_nonpos x D ltac:(change (2 ^ 53) with (2 * 2 ^ 52) in *; nia)
                ltac:(lia)) as He.
  pose proof (ulp_exp_lower x D ltac:(lia) ltac:(lia)) as Hlow.
  set (e := ulp_exp x D) in *.
  rewrite (scale_nonpos x D e He) in *. cbn [fst snd] in Hlow.
  replace (0 <? e) with false by (symmetry; apply Z.ltb_ge; lia).
  cbn [andb]. eexists; split; [reflexivity |].
  rewrite Qfloor_dyadic_nonpos by assumption.
  pose proof (pow2_pos (- e) ltac:(lia)) as HE.
  set (E := 2 ^ (- e)) in *.
  destruct (round_even_bounds (x * E) D ltac:(lia)) as [Hlo Hhi].
  set (m := round_even (x * E) D) in *.
  pose proof (Z.div_mod x D ltac:(lia)) as Hdm.
  pose proof (Z.mod_pos_bound x D ltac:(lia)) as Hr.
  set (k := x / D) in *.
  assert (HDE : D < 2 * E).
  { destruct Hlow as [Hclamp | Hlow].
    - assert (E = 2 ^ 1074) by (unfold E; rewrite Hclamp; reflexivity).
      assert (2 ^ 53 < 2 ^ 1074) by reflexivity. lia.
    - change (2 ^ 53) with (2 * 2 ^ 52) in Hx. nia. }
  assert (Hk1 : k * E <= m).
  { etransitivity; [| exact Hlo]. apply Z.div_le_lower_bound; nia. }
  assert (Hk2 : m < (k + 1) * E).
  { assert (2 * m * D < 2 * ((k + 1) * E) * D) by nia. nia. }
  symmetry. apply (Z.div_unique m E k (m - k * E)); lia.
Qed.

Lemma mul_exact (a b : Z) :
  - 2 ^ 53 < a * b < 2 ^ 53 -> mul (of_Z a) (of_Z b) = of_Z (a * b).
Proof. intros H. unfold mul, of_Z. exact (round_int (a * b) H). Qed.

Lemma add_exact (a b : Z) :
  - 2 ^ 53 < a + b < 2 ^ 53 -> add (of_Z a) (of_Z b) = of_Z (a + b).
Proof.
  intros H. unfold add, of_Z.
  replace (inject_Z a + inject_Z b)%Q with (inject_Z (a + b)).
  - exact (round_int (a + b) H).
  - unfold Qplus, inject_Z. cbn [Qnum Qden]. now rewrite !Z.mul_1_r.
Qed.

Lemma sub_exact (a b : Z) :
  - 2 ^ 53 < a - b < 2 ^ 53 -> sub (of_Z a) (of_Z b) = of_Z (a - b).
Proof.
  intros H. unfold sub.
  change (neg (of_Z b)) with (of_Z (- b)). now apply add_exact.
Qed.

Lemma floor_div_exact (x D : Z) :
  0 <= x < 2 ^ 53 -> 0 < D < 2 ^ 53 ->
  floor (div (of_Z x) (of_Z D)) = of_Z (x / D).
Proof.
  intros Hx HD. unfold div, of_Z.
  replace (is_zero (inject_Z D)) with false
    by (symmetry; unfold is_zero; cbn [Qnum inject_Z]; apply Z.eqb_neq; lia).
  destruct D as [| pd |]; try lia.
  destruct x as [| px |]; try lia.
  - reflexivity.
  - unfold round, Qdiv, Qinv, Qmult. cbn [Qnum Qden inject_Z].
    rewrite Z.mul_1_r. cbn [Pos.mul].
    destruct (round_pos_div_floor (Z.pos px) (Z.pos pd) ltac:(lia) HD) as (r & -> & Hr).
    cbn [floor]. now rewrite Hr.
Qed.

(** Product, quotient and sum agree with [SpecFloat] on pseudo-random
    operands of both signs: 600 pairs each in the range of the integers, and
    40 pairs each with sums of unequal magnitude, products around the
    overflow threshold and quotients among the subnormals. *)
Example binary64_sweep :
  Binary64.sweep 300 mul (SFmul 53 1024) 0 0 = true /\
  Binary64.sweep 300 div (SFdiv 53 1024) 0 0 = true /\
  Binary64.sweep 300 add (SFadd 53 1024) 0 0 = true /\
  Binary64.sweep 300 add (SFadd 53 1024) 0 30 = true /\
  Binary64.sweep 20 mul (SFmul 53 1024) 480 490 = true /\
  Binary64.sweep 20 div (SFdiv 53 1024) 0 970 = true.
Proof. vm_compute. repeat split. Qed.

End JSFacts.

(* ================================================================== *)
(** ** [useStakeProgram]: accrual, decoding and the claim with payout *)
(* ================================================================== *)

Module StakeProgramFacts.
Import Runtime StakeProgram JSFacts.

Lemma lt_of_Z (a b : Z) : JS.lt (JS.of_Z a) (JS.of_Z b) = (a <? b).
Proof.
  unfold JS.lt, JS.of_Z, Qle_bool. cbn [Qnum Qden inject_Z].
  rewrite !Z.mul_1_r. destruct (Z.leb_spec b a), (Z.ltb_spec a b); trivial; lia.
Qed.

Lemma gt_of_Z (a b : Z) : JS.gt (JS.of_Z a) (JS.of_Z b) = (b <? a).
Proof. apply lt_of_Z. Qed.

Lemma floor_of_Z (z : Z) : JS.floor (JS.of_Z z) = JS.of_Z z.
Proof. unfold JS.floor, JS.of_Z, Qfloor, inject_Z. now rewrite Z.div_1_r. Qed.

(** The accrual of [fetchStakeAccount] on integers in the exactly
    representable range. *)
Lemma totalClaimablePoints_exact (s last total t : Z) :
  0 <= s -> 0 <= last -> 0 <= t < 2 ^ 53 -> last < 2 ^ 53 ->
  0 <= total < 2 ^ 53 ->
  s * (t - last) < 2 ^ 53 ->
  total + s * (t - last) / 10 ^ 9 < 2 ^ 53 ->
  totalClaimablePoints (JS.of_Z s) (JS.of_Z last) (JS.of_Z total) (JS.of_Z t)
  = JS.of_Z (total + (if (0 <? s) && (last <? t)
                      then s * (t - last) / 10 ^ 9 else 0)).
Proof.
  intros Hs Hlast Ht Hlast' Htotal Hprod Hsum. unfold totalClaimablePoints.
  rewrite sub_exact by lia. rewrite !gt_of_Z.
  replace (0 <? t - last) with (last <? t)
    by (destruct (Z.ltb_spec last t), (Z.ltb_spec 0 (t - last)); trivial; lia).
  destruct ((0 <? s) && (last <? t)) eqn:Hguard.
  - apply andb_true_iff in Hguard as [Hs' Ht'].
    apply Z.ltb_lt in Hs', Ht'.
    assert (0 <= s * (t - last)) by nia.
    rewrite mul_exact by lia. unfold LAMPORTS_PER_SOL.
    rewrite floor_div_exact by (try lia; split; reflexivity).
    change 1000000000 with (10 ^ 9).
    assert (0 <= s * (t - last) / 10 ^ 9) by (apply Z.div_pos; lia).
    apply add_exact. lia.
  - rewrite Z.add_0_r. rewrite add_exact by lia. now rewrite Z.add_0_r.
Qed.

Ltac eval_monad :=
  cbv [run try_finally try_catch bind await emit set ret throw now unit_result
       notInitialized setLoading setRefreshing setStakeAccount
       setCalculatedPoints setWalletBalance
       state events requests fst snd];
  cbn [app].

Lemma connected_of_program (d : Deps) : program d = true -> connected d = true.
Proof. unfold program. intros H. now apply andb_true_iff in H. Qed.

(** *** Accrual *)

(** The model of the arithmetic agrees with the Standard Library's binary64
    on the inputs of the rounding examples below. *)
Example binary64_agrees_on_product :
  Binary64.number_of_binary64
    (SFmul 53 1024 (Binary64.binary64_of_Z 1000479126399)
       (Binary64.binary64_of_Z 86401))
  = JS.mul (JS.of_Z 1000479126399) (JS.of_Z 86401).
Proof. vm_compute. reflexivity. Qed.

Example binary64_agrees_on_quotient :
  Binary64.number_of_binary64
    (SFdiv 53 1024
       (SFmul 53 1024 (Binary64.binary64_of_Z 1000479126399)
          (Binary64.binary64_of_Z 86401))
       (Binary64.binary64_of_Z 1000000000))
  = JS.div (JS.mul (JS.of_Z 1000479126399) (JS.of_Z 86401)) LAMPORTS_PER_SOL.
Proof. vm_compute. reflexivity. Qed.

Example binary64_agrees_on_negative_product :
  Binary64.number_of_binary64
    (SFdiv 53 1024
       (SFmul 53 1024 (Binary64.binary64_of_Z 10000000000)
          (Binary64.binary64_of_Z (-100)))
       (Binary64.binary64_of_Z 1000000000))
  = JS.div (JS.mul (JS.of_Z 10000000000) (JS.of_Z (-100))) LAMPORTS_PER_SOL.
Proof. vm_compute. reflexivity. Qed.

(** A field read with [toNumber] is a non-negative integer below [2^53]:
    larger amounts never reach the accrual. *)
Lemma BN_le_nonneg (bytes : list Byte.byte) : 0 <= BN_le bytes.
Proof.
  induction bytes as [| b bytes IH]; cbn [BN_le fold_right]; [lia |].
  fold (BN_le bytes). lia.
Qed.

Lemma readU64_safe_integer (data : list Byte.byte) (offset : nat) (x : JS.number) :
  readU64 data offset = Some x -> exists z, x = JS.of_Z z /\ 0 <= z < 2 ^ 53.
Proof.
  unfold readU64, Anchor.BN_toNumber. intros H.
  pose proof (BN_le_nonneg (slice data offset (offset + 8))) as Hz.
  destruct (Z.abs _ <? 2 ^ 53) eqn:Hb; [| discriminate].
  apply Z.ltb_lt in Hb. inversion H. eexists; split; [reflexivity | lia].
Qed.

(** What [fetchStakeAccount] does with data it decodes. *)
Lemma fetchStakeAccount_decoded
  (d : Deps) (env : Env) (s : State) (data : list Byte.byte)
  (account : StakeAccount) :
  program d = true ->
  fails env 0%nat = None -> accountData env 0%nat = Some data ->
  (8 + 32 + 8 + 8 + 8 + 1 <= List.length data)%nat ->
  decodeFields data = Some account ->
  calculatedPoints (state (snd (run (fetchStakeAccount d) env s)))
  = totalClaimablePoints (stakedAmount account) (lastUpdatedTime account)
      (totalPoints account) (JS.of_Z (seconds env 1%nat)).
Proof.
  intros Hp Hok Hdata Hlen Hd.
  unfold fetchStakeAccount, pdaAccount.
  rewrite Hp, (connected_of_program d Hp). cbn [andb negb].
  eval_monad. rewrite Hok, Hdata, Hd.
  replace (8 + 32 + 8 + 8 + 8 + 1 <=? List.length data)%nat with true
    by (symmetry; apply Nat.leb_le; exact Hlen).
  replace (0 <? List.length data)%nat with true
    by (symmetry; apply Nat.ltb_lt; lia).
  reflexivity.
Qed.

Lemma decodeFields_safe_integers
  (data : list Byte.byte) (account : StakeAccount) :
  decodeFields data = Some account ->
  exists staked total checkpoint,
    stakedAmount account = JS.of_Z staked /\ 0 <= staked < 2 ^ 53 /\
    totalPoints account = JS.of_Z total /\ 0 <= total < 2 ^ 53 /\
    lastUpdatedTime account = JS.of_Z checkpoint /\
    0 <= checkpoint < 2 ^ 53.
Proof.
  intros Hd. unfold decodeFields in Hd.
  destruct (readU64 data (8 + 32)) as [x |] eqn:Hx; [| discriminate].
  destruct (readU64_safe_integer _ _ _ Hx) as (staked & -> & Hs).
  destruct (readU64 data (8 + 32 + 8)) as [y |] eqn:Hy; [| discriminate].
  destruct (readU64_safe_integer _ _ _ Hy) as (total & -> & Ht).
  destruct (readU64 data (8 + 32 + 8 + 8)) as [z |] eqn:Hz; [| discriminate].
  destruct (readU64_safe_integer _ _ _ Hz) as (checkpoint & -> & Hc).
  inversion Hd; subst account.
  cbn [stakedAmount totalPoints lastUpdatedTime].
  exists staked, total, checkpoint. repeat split; lia.
Qed.

(** C2, as stated, fails: [fetchStakeAccount] reads 99999999 lamports staked
    (about 0.1 SOL) with the checkpoint 100000001 seconds back.  The product
    is [10^16 - 1], which binary64 cannot hold; the accrual continues with
    [10^16] and stores 10000000 points, where the exact product gives
    9999999. *)
Lemma accrual_product_rounds :
  let read :=
    run (fetchStakeAccount readyDeps)
      (calm (Some (accountBytes 99999999 0 1600000000)) 1700000001)
      initialState in
  99999999 * (1700000001 - 1600000000) = 10 ^ 16 - 1 /\
  calculatedPoints (state (snd read)) = JS.of_Z 10000000 /\
  totalClaimablePoints (JS.of_Z 99999999) (JS.of_Z 1600000000) (JS.of_Z 0)
    (JS.of_Z 1700000001)
  = JS.of_Z 10000000 /\
  0 + 99999999 * (1700000001 - 1600000000) / 10 ^ 9 = 9999999 /\
  calculatedPoints (state (snd read))
  <> JS.of_Z (0 + 99999999 * (1700000001 - 1600000000) / 10 ^ 9).
Proof.
  cbv zeta. repeat split; try (vm_compute; reflexivity).
  vm_compute. discriminate.
Qed.

Example binary64_agrees_on_rounded_accrual :
  Binary64.number_of_binary64
    (SFdiv 53 1024
       (SFmul 53 1024 (Binary64.binary64_of_Z 99999999)
          (Binary64.binary64_of_Z 100000001))
       (Binary64.binary64_of_Z 1000000000))
  = JS.div (JS.mul (JS.of_Z 99999999) (JS.of_Z 100000001)) LAMPORTS_PER_SOL.
Proof. vm_compute. reflexivity. Qed.

(** C2, amended: the accrual of [fetchStakeAccount] runs on binary64 numbers.
    Whatever data it decodes, the three integers are below [2^53], and the
    points it stores are the stored points plus, when something is staked
    and the clock is past the checkpoint, the floor of the quotient by [10^9]
    of the product rounded to binary64, and the stored points alone
    otherwise; the rounded product is the integer product whenever that is
    below [2^53]. *)
Theorem accrual_product_is_binary64
  (d : Deps) (env : Env) (s : State) (data : list Byte.byte)
  (account : StakeAccount) :
  program d = true ->
  fails env 0%nat = None -> accountData env 0%nat = Some data ->
  (8 + 32 + 8 + 8 + 8 + 1 <= List.length data)%nat ->
  decodeFields data = Some account ->
  0 <= seconds env 1%nat < 2 ^ 53 ->
  exists staked total checkpoint,
    let elapsed := seconds env 1%nat - checkpoint in
    let product := JS.round (inject_Z (staked * elapsed)) in
    stakedAmount account = JS.of_Z staked /\ 0 <= staked < 2 ^ 53 /\
    totalPoints account = JS.of_Z total /\ 0 <= total < 2 ^ 53 /\
    lastUpdatedTime account = JS.of_Z checkpoint /\
    0 <= checkpoint < 2 ^ 53 /\
    calculatedPoints (state (snd (run (fetchStakeAccount d) env s)))
    = (if (0 <? staked) && (0 <? elapsed)
       then JS.add (JS.of_Z total)
              (JS.floor (JS.div product LAMPORTS_PER_SOL))
       else JS.of_Z total) /\
    (Z.abs (staked * elapsed) < 2 ^ 53 ->
     product = JS.of_Z (staked * elapsed)).
Proof.
  intros Hp Hok Hdata Hlen Hd Ht.
  destruct (decodeFields_safe_integers data account Hd)
    as (staked & total & checkpoint & Es & Hs & Et & Htot & Ec & Hc).
  exists staked, total, checkpoint. cbv zeta.
  repeat (split; [first [assumption | lia] |]).
  split.
  - rewrite (fetchStakeAccount_decoded d env s data account Hp Hok Hdata
               Hlen Hd).
    rewrite Es, Et, Ec. unfold totalClaimablePoints.
    rewrite sub_exact by lia. rewrite !gt_of_Z.
    destruct ((0 <? staked) && (0 <? seconds env 1%nat - checkpoint));
      [reflexivity |].
    rewrite add_exact by lia. now rewrite Z.add_0_r.
  - intros Hsafe. apply (round_int (staked * (seconds env 1%nat - checkpoint))).
    lia.
Qed.

(** Ten SOL staked for a day: 864000 points. *)
Lemma accrual_product_is_binary64_witness :
  exists staked total checkpoint,
    let elapsed := 1700086400 - checkpoint in
    let product := JS.round (inject_Z (staked * elapsed)) in
    stakedAmount (sampleAccount 10000000000 0 1700000000) = JS.of_Z staked /\
    0 <= staked < 2 ^ 53 /\
    totalPoints (sampleAccount 10000000000 0 1700000000) = JS.of_Z total /\
    0 <= total < 2 ^ 53 /\
    lastUpdatedTime (sampleAccount 10000000000 0 1700000000)
    = JS.of_Z checkpoint /\
    0 <= checkpoint < 2 ^ 53 /\
    calculatedPoints
      (state (snd (run (fetchStakeAccount readyDeps)
                     (calm (Some (accountBytes 10000000000 0 1700000000))
                        1700086400)
                     initialState)))
    = (if (0 <? staked) && (0 <? elapsed)
       then JS.add (JS.of_Z total)
              (JS.floor (JS.div product LAMPORTS_PER_SOL))
       else JS.of_Z total) /\
    (Z.abs (staked * elapsed) < 2 ^ 53 ->
     product = JS.of_Z (staked * elapsed)).
Proof.
  apply (accrual_product_is_binary64 readyDeps
           (calm (Some (accountBytes 10000000000 0 1700000000)) 1700086400)
           initialState (accountBytes 10000000000 0 1700000000)
           (sampleAccount 10000000000 0 1700000000));
    first [ reflexivity
          | (vm_compute; reflexivity)
          | (cbn; lia)
          | (split; [discriminate | reflexivity]) ].
Defined.

(** The helper [calculatePoints], which nothing calls and the hook does not
    return, has no guard on the elapsed time: with the checkpoint 100 seconds
    ahead of the clock, 10 SOL and 5000 points, it would take 1000 points
    away. *)
Example calculatePoints_backdates :
  calculatePoints (JS.of_Z 10000000000) (JS.of_Z 1700000100) (JS.of_Z 5000)
    (JS.of_Z 1700000000)
  = JS.of_Z 4000.
Proof. vm_compute. reflexivity. Qed.

(** The accrual written out in [fetchStakeAccount] does guard the elapsed
    time: nothing staked or a clock at or before the checkpoint leaves the
    points as they are. *)
Lemma totalClaimablePoints_noop (stakedAmount lastUpdatedTime totalPoints t : Z) :
  0 <= stakedAmount < 2 ^ 53 -> 0 <= lastUpdatedTime < 2 ^ 53 ->
  0 <= totalPoints < 2 ^ 53 -> 0 <= t < 2 ^ 53 ->
  stakedAmount = 0 \/ t <= lastUpdatedTime ->
  totalClaimablePoints (JS.of_Z stakedAmount) (JS.of_Z lastUpdatedTime)
    (JS.of_Z totalPoints) (JS.of_Z t)
  = JS.of_Z totalPoints.
Proof.
  intros Hs Hl Hp Ht Hguard. unfold totalClaimablePoints.
  rewrite sub_exact by lia. rewrite !gt_of_Z.
  replace ((0 <? stakedAmount) && (0 <? t - lastUpdatedTime)) with false.
  - rewrite add_exact by lia. now rewrite Z.add_0_r.
  - symmetry. apply andb_false_iff.
    destruct Hguard; [left | right]; apply Z.ltb_ge; lia.
Qed.

(** C3: the accrual that runs, the one written out in [fetchStakeAccount]
    and again in the interval of the hook's effect, returns the stored points
    unchanged when nothing is staked or the clock is at or before the
    checkpoint.  So do the points that [fetchStakeAccount] stores for any
    data it decodes. *)
Theorem accrual_noop_without_stake_or_time
  (d : Deps) (env : Env) (s : State) (data : list Byte.byte)
  (account : StakeAccount) :
  program d = true ->
  fails env 0%nat = None -> accountData env 0%nat = Some data ->
  (8 + 32 + 8 + 8 + 8 + 1 <= List.length data)%nat ->
  decodeFields data = Some account ->
  0 <= seconds env 1%nat < 2 ^ 53 ->
  stakedAmount account = JS.of_Z 0 \/
  JS.le (JS.of_Z (seconds env 1%nat)) (lastUpdatedTime account) = true ->
  totalClaimablePoints (stakedAmount account) (lastUpdatedTime account)
    (totalPoints account) (JS.of_Z (seconds env 1%nat))
  = totalPoints account /\
  calculatedPoints (state (snd (run (fetchStakeAccount d) env s)))
  = totalPoints account.
Proof.
  intros Hp Hok Hdata Hlen Hd Ht Hguard.
  destruct (decodeFields_safe_integers data account Hd)
    as (staked & total & checkpoint & Es & Hs & Et & Htot & Ec & Hc).
  assert (Hnoop :
            totalClaimablePoints (stakedAmount account)
              (lastUpdatedTime account) (totalPoints account)
              (JS.of_Z (seconds env 1%nat))
            = totalPoints account).
  { rewrite Es, Et, Ec in *.
    apply totalClaimablePoints_noop; try assumption.
    destruct Hguard as [Hzero | Hle].
    - left. unfold JS.of_Z in Hzero. inversion Hzero. reflexivity.
    - right. unfold JS.le, JS.of_Z, Qle_bool in Hle.
      cbn [Qnum Qden inject_Z] in Hle. rewrite !Z.mul_1_r in Hle.
      apply Z.leb_le. exact Hle. }
  split; [exact Hnoop |].
  rewrite (fetchStakeAccount_decoded d env s data account Hp Hok Hdata
             Hlen Hd).
  exact Hnoop.
Qed.

(** The input of the helper's failure, 10 SOL and 5000 points with the
    checkpoint 100 seconds ahead of the clock, in the accrual that runs. *)
Lemma accrual_noop_without_stake_or_time_witness :
  totalClaimablePoints (JS.of_Z 10000000000) (JS.of_Z 1700000100)
    (JS.of_Z 5000) (JS.of_Z 1700000000)
  = JS.of_Z 5000 /\
  calculatedPoints
    (state (snd (run (fetchStakeAccount readyDeps)
                   (calm (Some (accountBytes 10000000000 5000 1700000100))
                      1700000000)
                   initialState)))
  = JS.of_Z 5000.
Proof.
  apply (accrual_noop_without_stake_or_time readyDeps
           (calm (Some (accountBytes 10000000000 5000 1700000100))
              1700000000)
           initialState (accountBytes 10000000000 5000 1700000100)
           (sampleAccount 10000000000 5000 1700000100));
    first [ reflexivity
          | (vm_compute; reflexivity)
          | (cbn; lia)
          | (split; [discriminate | reflexivity])
          | (right; reflexivity) ].
Defined.

(** C4, as stated, fails: for 1000479126399 lamports staked 86401 seconds
    the code yields 86442397 points, one more than the floor of the exact
    quotient. *)
Lemma accrual_formula_counterexample :
  totalClaimablePoints (JS.of_Z 1000479126399) (JS.of_Z 1700000000)
    (JS.of_Z 0) (JS.of_Z 1700086401)
  = JS.of_Z 86442397 /\
  0 + 1000479126399 * (1700086401 - 1700000000) / 10 ^ 9 = 86442396 /\
  totalClaimablePoints (JS.of_Z 1000479126399) (JS.of_Z 1700000000)
    (JS.of_Z 0) (JS.of_Z 1700086401)
  <> JS.of_Z (0 + 1000479126399 * (1700086401 - 1700000000) / 10 ^ 9).
Proof.
  repeat split; try (vm_compute; reflexivity).
  vm_compute. discriminate.
Qed.

(** C4, amended: while the product and the point total stay below [2^53] the
    accrual of [fetchStakeAccount] is
    [totalPoints + floor(stakedAmount * (now - lastUpdatedTime) / 10^9)]. *)
Theorem accrual_formula_exact_range (stakedAmount lastUpdatedTime totalPoints t : Z) :
  0 < stakedAmount -> 0 <= lastUpdatedTime < t -> t < 2 ^ 53 ->
  0 <= totalPoints ->
  stakedAmount * (t - lastUpdatedTime) < 2 ^ 53 ->
  totalPoints + stakedAmount * (t - lastUpdatedTime) / 10 ^ 9 < 2 ^ 53 ->
  totalClaimablePoints (JS.of_Z stakedAmount) (JS.of_Z lastUpdatedTime)
    (JS.of_Z totalPoints) (JS.of_Z t)
  = JS.of_Z (totalPoints
             + stakedAmount * (t - lastUpdatedTime) / 10 ^ 9).
Proof.
  intros Hs Hl Ht Hp Hprod Hsum.
  assert (0 <= stakedAmount * (t - lastUpdatedTime) / 10 ^ 9)
    by (apply Z.div_pos; [nia | lia]).
  rewrite totalClaimablePoints_exact by lia.
  replace ((0 <? stakedAmount) && (lastUpdatedTime <? t)) with true;
    [reflexivity |].
  symmetry. apply andb_true_iff. split; apply Z.ltb_lt; lia.
Qed.

(** The scenario of the specification: 10 SOL staked for one day. *)
Lemma accrual_formula_exact_range_witness :
  totalClaimablePoints (JS.of_Z (10 * 10 ^ 9)) (JS.of_Z 1700000000)
    (JS.of_Z 0) (JS.of_Z (1700000000 + 86400))
  = JS.of_Z 864000.
Proof.
  apply (accrual_formula_exact_range (10 * 10 ^ 9) 1700000000 0
           (1700000000 + 86400));
    first [lia | reflexivity | (split; [lia | reflexivity])].
Defined.

(** *** Decoding *)

Lemma slice_past_prefix (prefix rest : list Byte.byte) (from to : nat) :
  (List.length prefix <= from)%nat ->
  slice (prefix ++ rest) from to
  = slice rest (from - List.length prefix) (to - List.length prefix).
Proof.
  intros H. unfold slice. rewrite skipn_app.
  rewrite (skipn_all2 prefix) by assumption. cbn [app].
  f_equal. lia.
Qed.

Lemma readU64_past_prefix (prefix rest : list Byte.byte) (offset : nat) :
  (List.length prefix <= offset)%nat ->
  readU64 (prefix ++ rest) offset = readU64 rest (offset - List.length prefix).
Proof.
  intros H. unfold readU64. rewrite slice_past_prefix by assumption.
  do 3 f_equal. lia.
Qed.

Lemma decodeFields_past_prefix (prefix prefix' rest : list Byte.byte) :
  List.length prefix = 8%nat -> List.length prefix' = 8%nat ->
  decodeFields (prefix ++ rest) = decodeFields (prefix' ++ rest).
Proof.
  intros H H'. unfold decodeFields.
  rewrite !(readU64_past_prefix prefix), !(readU64_past_prefix prefix') by lia.
  rewrite !(slice_past_prefix prefix), !(slice_past_prefix prefix') by lia.
  rewrite !(app_nth2 prefix), !(app_nth2 prefix') by lia.
  now rewrite H, H'.
Qed.

(** C5, as stated, fails: no eight-byte constant gates the decoder, since 65
    zero bytes are accepted and so are eight [0xff] bytes followed by 57 zero
    bytes. *)
Lemma discriminator_counterexample :
  ~ (exists discriminator : list Byte.byte,
       forall data, accepted data -> firstn 8 data = discriminator).
Proof.
  intros [discriminator H].
  pose proof (H (repeat Byte.x00 65)) as H0.
  pose proof (H (repeat Byte.xff 8 ++ repeat Byte.x00 57)) as H1.
  assert (A0 : accepted (repeat Byte.x00 65))
    by (eexists; vm_compute; reflexivity).
  assert (A1 : accepted (repeat Byte.xff 8 ++ repeat Byte.x00 57))
    by (eexists; vm_compute; reflexivity).
  specialize (H0 A0). specialize (H1 A1).
  rewrite <- H1 in H0. vm_compute in H0. discriminate.
Qed.

(** C5, amended: the decoder skips bytes [0, 8).  Inputs that agree from byte
    8 on are decoded alike, and the read leaves the same state behind. *)
Theorem decoder_skips_discriminator
  (prefix prefix' rest : list Byte.byte) (d : Deps) (t : Z) (s : State) :
  List.length prefix = 8%nat -> List.length prefix' = 8%nat ->
  decodeFields (prefix ++ rest) = decodeFields (prefix' ++ rest) /\
  run (fetchStakeAccount d) (calm (Some (prefix ++ rest)) t) s
  = run (fetchStakeAccount d) (calm (Some (prefix' ++ rest)) t) s.
Proof.
  intros H H'. split; [now apply decodeFields_past_prefix |].
  unfold fetchStakeAccount.
  destruct (negb (pdaAccount d && connected d && program d)); [reflexivity |].
  eval_monad. cbv [calm fails accountData seconds].
  rewrite !length_app, H, H'.
  rewrite (decodeFields_past_prefix prefix prefix' rest H H').
  destruct (0 <? 8 + List.length rest)%nat; [| reflexivity].
  destruct (8 + 32 + 8 + 8 + 8 + 1 <=? 8 + List.length rest)%nat;
    [| reflexivity].
  destruct (decodeFields (prefix' ++ rest)); reflexivity.
Qed.

Lemma decoder_skips_discriminator_witness :
  decodeFields (repeat Byte.xff 8 ++ repeat Byte.x00 57)
  = decodeFields (repeat Byte.x00 8 ++ repeat Byte.x00 57) /\
  run (fetchStakeAccount readyDeps)
    (calm (Some (repeat Byte.xff 8 ++ repeat Byte.x00 57)) 0) initialState
  = run (fetchStakeAccount readyDeps)
      (calm (Some (repeat Byte.x00 8 ++ repeat Byte.x00 57)) 0) initialState.
Proof.
  apply (decoder_skips_discriminator (repeat Byte.xff 8) (repeat Byte.x00 8));
    reflexivity.
Defined.

(** C6: account data shorter than 65 bytes leaves "not initialized" behind
    (no account, zero claimable points) and the read returns normally. *)
Theorem truncated_account_not_initialized
  (d : Deps) (env : Env) (s : State) (data : list Byte.byte) :
  program d = true ->
  fails env 0%nat = None ->
  accountData env 0%nat = Some data ->
  (List.length data < 65)%nat ->
  run (fetchStakeAccount d) env s
  = (Done tt,
     {| state := {| stakeAccount := None;
                    walletBalance := walletBalance s;
                    loading := loading s;
                    refreshing := false;
                    calculatedPoints := JS.of_Z 0 |};
        events := [Call getAccountInfo];
        requests := 1 |}).
Proof.
  intros Hp Hok Hdata Hlen. unfold fetchStakeAccount, pdaAccount.
  rewrite Hp, (connected_of_program d Hp). cbn [andb negb].
  eval_monad. rewrite Hok, Hdata.
  replace (8 + 32 + 8 + 8 + 8 + 1 <=? List.length data)%nat with false
    by (symmetry; apply Nat.leb_gt; cbn; lia).
  destruct (0 <? List.length data)%nat; reflexivity.
Qed.

Lemma truncated_account_not_initialized_witness :
  run (fetchStakeAccount readyDeps) (calm (Some (repeat Byte.xff 64)) 0)
    (withPoints 777)
  = (Done tt,
     {| state := initialState; events := [Call getAccountInfo];
        requests := 1 |}).
Proof.
  apply (truncated_account_not_initialized readyDeps
           (calm (Some (repeat Byte.xff 64)) 0) (withPoints 777)
           (repeat Byte.xff 64));
    [reflexivity | reflexivity | reflexivity | cbn; lia].
Defined.

(** A field of [2^53] or more makes [toNumber] throw; the [catch] block turns
    that into "not initialized" as well. *)
Lemma oversized_field_not_initialized
  (d : Deps) (env : Env) (s : State) (data : list Byte.byte) :
  program d = true ->
  fails env 0%nat = None ->
  accountData env 0%nat = Some data ->
  decodeFields data = None ->
  run (fetchStakeAccount d) env s
  = (Done tt,
     {| state := {| stakeAccount := None;
                    walletBalance := walletBalance s;
                    loading := loading s;
                    refreshing := false;
                    calculatedPoints := JS.of_Z 0 |};
        events := [Call getAccountInfo];
        requests := 1 |}).
Proof.
  intros Hp Hok Hdata Hdec. unfold fetchStakeAccount, pdaAccount.
  rewrite Hp, (connected_of_program d Hp). cbn [andb negb].
  eval_monad. rewrite Hok, Hdata, Hdec.
  destruct (0 <? List.length data)%nat; [| reflexivity].
  destruct (8 + 32 + 8 + 8 + 8 + 1 <=? List.length data)%nat; reflexivity.
Qed.

(** The two accrual scenarios through the whole read: account bytes in,
    [calculatedPoints] out. *)
Example read_one_day_of_ten_sol :
  calculatedPoints
    (state (snd (run (fetchStakeAccount readyDeps)
                   (calm (Some (accountBytes 10000000000 0 1700000000))
                      1700086400)
                   initialState)))
  = JS.of_Z 864000.
Proof. vm_compute. reflexivity. Qed.

Example read_rounds_up :
  calculatedPoints
    (state (snd (run (fetchStakeAccount readyDeps)
                   (calm (Some (accountBytes 1000479126399 0 1700000000))
                      1700086401)
                   initialState)))
  = JS.of_Z 86442397.
Proof. vm_compute. reflexivity. Qed.

(** The read never throws, whatever the cluster answers. *)
Lemma fetchStakeAccount_returns (d : Deps) (env : Env) (s : State) :
  fst (run (fetchStakeAccount d) env s) = Done tt.
Proof.
  unfold fetchStakeAccount.
  destruct (negb (pdaAccount d && connected d && program d)); [reflexivity |].
  eval_monad. destruct (fails env 0%nat); [reflexivity |].
  destruct (accountData env 0%nat) as [data |]; [| reflexivity].
  destruct (0 <? List.length data)%nat; [| reflexivity].
  destruct (8 + 32 + 8 + 8 + 8 + 1 <=? List.length data)%nat; [| reflexivity].
  destruct (decodeFields data); reflexivity.
Qed.

(** *** The claim with payout *)

Lemma claimPoints_ready (s : State) (d : Deps) (key : Anchor.Pubkey) :
  program d = true -> pointsAccountKeypair d = Some key ->
  claimPoints s d
  = (let points := JS.floor (calculatedPoints s) in
     if JS.lt points (JS.of_Z 50000) then emit belowMinimum
     else
       setLoading true ;;
       try_finally
         (try_catch
            (await getLatestBlockhash unit_result ;;
             emit (Built Anchor.claimPointsIx) ;;
             await (walletSendTransaction [Anchor.claimPointsIx]) unit_result ;;
             await confirmTransaction unit_result ;;
             let solToClaim := JS.floor (JS.div points POINTS_PER_SOL) in
             if JS.gt solToClaim (JS.of_Z 0) then
               let lamportsToSend := JS.mul solToClaim LAMPORTS_PER_SOL in
               await getLatestBlockhash unit_result ;;
               (if Anchor.transferable lamportsToSend
                then emit (Built (Anchor.transferFromPointsAccountIx
                                    lamportsToSend))
                else throw (plainError
                              "The number cannot be converted to a BigInt")) ;;
               await (sendRawTransaction
                        [Anchor.transferFromPointsAccountIx lamportsToSend])
                 unit_result ;;
               await confirmTransaction unit_result ;;
               emit (Toast "Points Claimed"
                       [Str "Claimed "; Num solToClaim; Str " SOL for ";
                        Num (JS.mul solToClaim POINTS_PER_SOL);
                        Str " points successfully!"] false) ;;
               fetchStakeAccount d ;;
               fetchWalletBalance d
             else emit belowOneSol)
            (fun error =>
               let errorMsg := messageOr error "Failed to claim points" in
               let errorMsg :=
                 if staleBlockhash errorMsg
                 then "Please try again. A new blockhash is required for each request."%string
                 else errorMsg in
               emit (Toast "Error" [Str errorMsg] true)))
         (setLoading false)).
Proof.
  intros Hp Hk. unfold claimPoints, pdaAccount.
  now rewrite Hp, (connected_of_program d Hp), Hk.
Qed.

(** C9: a claim with fewer than 50000 claimable points builds nothing, sends
    nothing and writes no state, whatever the wallet and the key
    configuration are, and with a connected wallet and the key pair
    configured its only effect is the toast; with exactly 50000 points the
    gate passes: [loading] is raised and the blockhash is requested, and once
    that answer arrives the claim instruction is built and handed to the
    wallet. *)
Theorem claim_minimum_threshold (s : State) (d : Deps) (env : Env) :
  (JS.lt (JS.floor (calculatedPoints s)) (JS.of_Z 50000) = true ->
   local_only (events (snd (run (claimPoints s d) env s))) = true /\
   state (snd (run (claimPoints s d) env s)) = s /\
   requests (snd (run (claimPoints s d) env s)) = 0%nat /\
   (program d = true -> pointsAccountKeypair d <> None ->
    run (claimPoints s d) env s
    = (Done tt, {| state := s; events := [belowMinimum]; requests := 0 |})))
  /\
  (calculatedPoints s = JS.of_Z 50000 ->
   program d = true -> pointsAccountKeypair d <> None ->
   exists rest,
     events (snd (run (claimPoints s d) env s))
     = SetLoading true :: Call getLatestBlockhash :: rest /\
     (fails env 0%nat = None ->
      exists rest',
        rest = Built Anchor.claimPointsIx
               :: Call (walletSendTransaction [Anchor.claimPointsIx])
               :: rest')).
Proof.
  split.
  - intros Hlt. unfold claimPoints.
    destruct (negb (program d && connected d && pdaAccount d)) eqn:Hready.
    { repeat split. intros Hp. unfold pdaAccount in Hready.
      rewrite Hp, (connected_of_program d Hp) in Hready. discriminate. }
    destruct (pointsAccountKeypair d); [| repeat split; congruence].
    cbv zeta. rewrite Hlt. destruct s. repeat split.
  - intros Hpts Hp Hk.
    destruct (pointsAccountKeypair d) as [key |] eqn:Hkey; [| congruence].
    rewrite (claimPoints_ready s d key Hp Hkey). cbv zeta.
    rewrite Hpts, floor_of_Z, lt_of_Z.
    change (50000 <? 50000) with false. cbv iota.
    unfold POINTS_PER_SOL.
    rewrite floor_div_exact by (split; reflexivity || lia).
    change (50000 / 100000) with 0. rewrite gt_of_Z.
    change (0 <? 0) with false. cbv iota.
    eval_monad.
    destruct (fails env 0%nat) as [e0 |].
    { eexists; split; [reflexivity | discriminate]. }
    destruct (fails env 1%nat) as [e1 |].
    { eexists; split; [reflexivity | intros _; eexists; reflexivity]. }
    destruct (fails env 2%nat) as [e2 |];
      (eexists; split; [reflexivity | intros _; eexists; reflexivity]).
Qed.

Lemma claim_minimum_threshold_witness :
  run (claimPoints (withPoints 49999) readyDeps) (calm None 0)
    (withPoints 49999)
  = (Done tt, {| state := withPoints 49999; events := [belowMinimum];
                 requests := 0 |})
  /\
  exists rest,
    events (snd (run (claimPoints (withPoints 50000) readyDeps) (calm None 0)
                   (withPoints 50000)))
    = SetLoading true :: Call getLatestBlockhash
      :: Built Anchor.claimPointsIx
      :: Call (walletSendTransaction [Anchor.claimPointsIx]) :: rest.
Proof.
  split.
  - destruct (claim_minimum_threshold (withPoints 49999) readyDeps
                (calm None 0)) as [H _].
    destruct (H eq_refl) as (_ & _ & _ & Hrun).
    apply Hrun; [reflexivity | discriminate].
  - destruct (claim_minimum_threshold (withPoints 50000) readyDeps
                (calm None 0)) as [_ H].
    destruct (H eq_refl eq_refl ltac:(discriminate)) as (rest & Hev & Hrest).
    destruct (Hrest eq_refl) as (rest' & ->).
    exists rest'. exact Hev.
Defined.

(** Between the two thresholds the claim instruction is sent and confirmed
    before the zero payout is noticed. *)
Lemma claim_between_thresholds (s : State) (d : Deps) (env : Env) (points : Z) :
  program d = true -> pointsAccountKeypair d <> None ->
  calculatedPoints s = JS.of_Z points -> 50000 <= points < 100000 ->
  fails env 0%nat = None -> fails env 1%nat = None -> fails env 2%nat = None ->
  events (snd (run (claimPoints s d) env s))
  = [SetLoading true; Call getLatestBlockhash; Built Anchor.claimPointsIx;
     Call (walletSendTransaction [Anchor.claimPointsIx]);
     Call confirmTransaction; belowOneSol; SetLoading false].
Proof.
  intros Hp Hk Hpts Hrange H0 H1 H2.
  destruct (pointsAccountKeypair d) as [key |] eqn:Hkey; [| congruence].
  rewrite (claimPoints_ready s d key Hp Hkey). cbv zeta.
  rewrite Hpts, floor_of_Z, lt_of_Z.
  replace (points <? 50000) with false by (symmetry; apply Z.ltb_ge; lia).
  unfold POINTS_PER_SOL.
  rewrite floor_div_exact by (split; reflexivity || lia).
  rewrite Z.div_small by lia. rewrite gt_of_Z.
  change (0 <? 0) with false. cbv iota.
  eval_monad. rewrite H0, H1, H2. reflexivity.
Qed.

(** C1 on [claimPoints]: with 60000 claimable points and a cluster that
    answers every request, the claim transaction is sent and confirmed, then
    the operation reports that 100000 points are needed; no transfer
    follows. *)
Theorem claim_spends_points_before_payout_check :
  run (claimPoints (withPoints 60000) readyDeps) (calm None 0)
    (withPoints 60000)
  = (Done tt,
     {| state := withPoints 60000;
        events := [SetLoading true; Call getLatestBlockhash;
                   Built Anchor.claimPointsIx;
                   Call (walletSendTransaction [Anchor.claimPointsIx]);
                   Call confirmTransaction; belowOneSol; SetLoading false];
        requests := 3 |}).
Proof. vm_compute. reflexivity. Qed.

End StakeProgramFacts.

(* ================================================================== *)
(** ** [useStaking]: the gates of stake, unstake and claim *)
(* ================================================================== *)

Module StakingFacts.
Import Runtime StakingCommon.

Ltac eval_hook :=
  cbv [run try_finally try_catch bind await emit set ret throw unit_result
       setLoading setBalance setStakeAccount setPdaExists
       toastError toastSuccess StakingMock.toastError StakingMock.toastSuccess
       StakingGuarded.pleaseWait
       AnchorLib.checkPDAExists AnchorLib.getStakeAccount
       state events requests fst snd negb andb];
  cbn [app].

(** Every remaining question to the environment is answered both ways, one
    request at a time in the order of the run; the branches an answer rules
    out are dropped before the next question. *)
Ltac asked env k :=
  match goal with
  | |- context [fails env k] => destruct (fails env k); eval_hook
  | |- context [accountData env k] => destruct (accountData env k); eval_hook
  end.

Ltac both_ways env :=
  repeat first
    [ asked env 0%nat | asked env 1%nat | asked env 2%nat | asked env 3%nat
    | asked env 4%nat | asked env 5%nat | asked env 6%nat | asked env 7%nat
    | asked env 8%nat | asked env 9%nat | asked env 10%nat
    | match goal with
      | |- context [hasGetLogs ?e] => destruct (hasGetLogs e); eval_hook
      | |- context [message ?e] => destruct (message e); eval_hook
      | |- context [includes ?a ?b] => destruct (includes a b); eval_hook
      end ].

(** *** The in-flight gate *)

(** In the guarded variant every operation asked for while [loading] is set
    answers "Please wait" and does nothing else. *)
Lemma guarded_operations_wait (s : State) (d : Deps) (env : Env) (amount : JS.number) :
  loading s = true ->
  let waited := (Done tt, {| state := s; events := [StakingGuarded.pleaseWaitToast];
                             requests := 0 |}) in
  run (StakingGuarded.stake s d amount) env s = waited /\
  run (StakingGuarded.unstake s d amount) env s = waited /\
  run (StakingGuarded.claimPoints s d) env s = waited.
Proof.
  intros H. unfold StakingGuarded.stake, StakingGuarded.unstake,
    StakingGuarded.claimPoints.
  rewrite H. destruct s. repeat split.
Qed.

(** Even there [loading] does not cover the whole operation: a first stake
    creates the account through [createPdaAccount], whose [finally] lowers
    [loading] before the balance is fetched and the stake transaction is
    signed and sent. *)
Example guarded_stake_lowers_loading_midway :
  events (snd (run (StakingGuarded.stake firstRender walletDeps (JS.of_Z 1))
                 (funded 5000000000) firstRender))
  = [SetLoading true; SetLoading true;
     Built Anchor.createPdaAccountIx; Call getLatestBlockhash;
     Call (walletSignTransaction [Anchor.createPdaAccountIx]);
     Call (sendRawTransaction [Anchor.createPdaAccountIx]);
     Call confirmTransaction;
     Toast "Success" [Str "Account created successfully"] false;
     SetLoading false;
     Call getBalance;
     Built (Anchor.transferToPlatformIx (JS.of_Z 1000000000));
     Built (Anchor.stakeIx 1000000000); Call getLatestBlockhash;
     Call (walletSignTransaction
             [Anchor.transferToPlatformIx (JS.of_Z 1000000000);
              Anchor.stakeIx 1000000000]);
     Call (sendRawTransaction
             [Anchor.transferToPlatformIx (JS.of_Z 1000000000);
              Anchor.stakeIx 1000000000]);
     Call confirmTransaction;
     Toast "Success" [Str "Successfully staked "; Num (JS.of_Z 1); Str " SOL"]
       false;
     Call getBalance; Call getAccountInfo;
     SetLoading false].
Proof. vm_compute. reflexivity. Qed.

(** C7 on [stake] of [src/hooks/useStaking.ts]: while [loading] is set, a
    stake request of a connected wallet with enough balance raises [loading]
    again, builds the stake instruction and hands it to the wallet; no
    "Please wait" is shown. *)
Theorem stake_ignores_in_flight
  (solToLamports : JS.number -> Outcome Z)
  (s : State) (d : Deps) (env : Env) (amount : JS.number) (lamports : Z) :
  loading s = true ->
  connected d = true -> sendTransaction d = true ->
  JS.le amount (JS.of_Z 0) = false ->
  JS.gt amount (balance s) = false ->
  pdaExists s = true ->
  solToLamports amount = Done lamports ->
  Anchor.fits_u64 lamports = true ->
  exists rest,
    events (snd (run (Staking.stake solToLamports s d amount) env s))
    = SetLoading true
      :: Built (Anchor.stakeIx lamports)
      :: Call (walletSendTransaction [Anchor.stakeIx lamports])
      :: rest.
Proof.
  intros _ Hc Hs Hpos Hbal Hpda Hsol Hfit.
  unfold Staking.stake, Staking.createPdaAccount, Staking.lamportsOfSol,
    Staking.build, Staking.stakeFailure, fetchBalance, fetchStakeAccount,
    fetchStakeAccountWith.
  rewrite Hc, Hs, Hpos, Hbal, Hpda, Hsol. cbn [andb negb].
  eval_hook. rewrite Hfit. eval_hook.
  both_ways env; eexists; reflexivity.
Qed.

Lemma stake_ignores_in_flight_witness :
  exists rest,
    events (snd (run (Staking.stake Utils.solToLamports
                        (render true (position 0 0 0)) walletDeps
                        (JS.of_Z 1))
                   (calm None 0) (render true (position 0 0 0))))
    = SetLoading true
      :: Built (Anchor.stakeIx 1000000000)
      :: Call (walletSendTransaction [Anchor.stakeIx 1000000000])
      :: rest.
Proof.
  apply (stake_ignores_in_flight Utils.solToLamports
           (render true (position 0 0 0)) walletDeps (calm None 0)
           (JS.of_Z 1) 1000000000); reflexivity.
Defined.

(** *** The local check of unstake *)

(** In the guarded variant a request above the staked amount never gets
    beyond the page: nothing is built, nothing is sent, no state is written.
    When the earlier gates pass and the staked amount fits a number, the
    toast names the reason. *)
Lemma guarded_unstake_checks_locally
  (s : State) (d : Deps) (env : Env) (amount : JS.number)
  (account : Anchor.StakeAccount) :
  stakeAccount s = Some account ->
  (forall stakedLamports,
     Anchor.BN_toNumber (Anchor.stakedAmount account) = Some stakedLamports ->
     JS.gt (JS.floor (JS.mul amount LAMPORTS_PER_SOL)) stakedLamports = true) ->
  let w := snd (run (StakingGuarded.unstake s d amount) env s) in
  local_only (events w) = true /\ state w = s /\ requests w = 0%nat /\
  (loading s = false -> connected d = true -> sendTransaction d = true ->
   JS.le amount (JS.of_Z 0) = false ->
   Z.abs (Anchor.stakedAmount account) < 2 ^ 53 ->
   events w = [StakingGuarded.exceedsStakeToast]).
Proof.
  intros Hacc Hgt. unfold StakingGuarded.unstake. rewrite Hacc.
  destruct (loading s) eqn:Hl; [repeat split; discriminate |].
  destruct (negb (connected d && sendTransaction d)) eqn:Hw.
  { repeat split. intros _ Hc Hs. rewrite Hc, Hs in Hw. discriminate. }
  destruct (JS.le amount (JS.of_Z 0)) eqn:Hpos;
    [repeat split; discriminate |].
  cbv zeta.
  destruct (Anchor.BN_toNumber (Anchor.stakedAmount account))
    as [stakedLamports |] eqn:Hn.
  - rewrite (Hgt stakedLamports eq_refl). repeat split.
  - repeat split. intros _ _ _ _ Hfits.
    unfold Anchor.BN_toNumber in Hn.
    apply Z.ltb_lt in Hfits. rewrite Hfits in Hn. discriminate.
Qed.

(** C8 on [unstake] of [src/hooks/useStaking.ts]: a request for more than the
    staked amount raises [loading], builds the unstake instruction and hands
    it to the wallet for submission. *)
Theorem unstake_excess_reaches_wallet
  (solToLamports : JS.number -> Outcome Z)
  (s : State) (d : Deps) (env : Env) (amount : JS.number)
  (account : Anchor.StakeAccount) (lamports : Z) :
  connected d = true -> sendTransaction d = true ->
  stakeAccount s = Some account ->
  JS.le amount (JS.of_Z 0) = false ->
  solToLamports amount = Done lamports ->
  Anchor.fits_u64 lamports = true ->
  Anchor.stakedAmount account < lamports ->
  exists rest,
    events (snd (run (Staking.unstake solToLamports s d amount) env s))
    = SetLoading true
      :: Built (Anchor.unstakeIx lamports)
      :: Call (walletSendTransaction [Anchor.unstakeIx lamports])
      :: rest.
Proof.
  intros Hc Hs Hacc Hpos Hsol Hfit _.
  unfold Staking.unstake, Staking.lamportsOfSol, Staking.build,
    Staking.unstakeFailure, fetchBalance, fetchStakeAccount,
    fetchStakeAccountWith.
  rewrite Hc, Hs, Hacc, Hpos, Hsol. cbn [andb negb].
  eval_hook. rewrite Hfit. eval_hook.
  both_ways env; eexists; reflexivity.
Qed.

(** Five SOL staked, six requested. *)
Lemma unstake_excess_reaches_wallet_witness :
  exists rest,
    events (snd (run (Staking.unstake Utils.solToLamports
                        (render false (position 5000000000 0 0)) walletDeps
                        (JS.of_Z 6))
                   (calm None 0) (render false (position 5000000000 0 0))))
    = SetLoading true
      :: Built (Anchor.unstakeIx 6000000000)
      :: Call (walletSendTransaction [Anchor.unstakeIx 6000000000])
      :: rest.
Proof.
  apply (unstake_excess_reaches_wallet Utils.solToLamports
           (render false (position 5000000000 0 0)) walletDeps (calm None 0)
           (JS.of_Z 6) (position 5000000000 0 0) 6000000000);
    first [reflexivity | (cbn; lia)].
Defined.

(** The same request in the guarded variant. *)
Example guarded_unstake_six_of_five :
  run (StakingGuarded.unstake (render false (position 5000000000 0 0))
         walletDeps (JS.of_Z 6))
    (calm None 0) (render false (position 5000000000 0 0))
  = (Done tt, {| state := render false (position 5000000000 0 0);
                 events := [StakingGuarded.exceedsStakeToast];
                 requests := 0 |}).
Proof. vm_compute. reflexivity. Qed.

(** *** The gate of claim *)

(** C10: for a connected wallet with no operation in flight, each variant of
    [claimPoints] turns the request down with "No points to claim" when there
    is no stake account or its stored [totalPoints] is zero - whatever was
    staked, whenever the checkpoint was taken and whatever the clock shows -
    and otherwise raises [loading] and goes on to the claim. *)
Theorem claim_gate_reads_stored_points (s : State) (d : Deps) (env : Env) :
  connected d = true -> sendTransaction d = true -> signTransaction d = true ->
  loading s = false ->
  (stakeAccount s = None \/
   (exists account,
      stakeAccount s = Some account /\ Anchor.totalPoints account = 0) ->
   run (Staking.claimPoints s d) env s
   = (Done tt, {| state := s; events := [noPointsToClaim]; requests := 0 |})
   /\
   run (StakingGuarded.claimPoints s d) env s
   = (Done tt, {| state := s; events := [noPointsToClaim]; requests := 0 |})
   /\
   run (StakingMock.claimPoints s d) env s
   = (Done tt, {| state := s;
                  events := [Toast EmptyString [Str "No points to claim"] true];
                  requests := 0 |}))
  /\
  (forall account,
     stakeAccount s = Some account -> Anchor.totalPoints account <> 0 ->
     exists rest rest' rest'',
       events (snd (run (Staking.claimPoints s d) env s))
       = SetLoading true :: Built Anchor.claimPointsIx
         :: Call (walletSendTransaction [Anchor.claimPointsIx]) :: rest
       /\
       events (snd (run (StakingGuarded.claimPoints s d) env s))
       = SetLoading true :: Built Anchor.claimPointsIx
         :: Call getLatestBlockhash :: rest'
       /\
       events (snd (run (StakingMock.claimPoints s d) env s))
       = SetLoading true
         :: Toast EmptyString [Str "Successfully claimed ";
                      Big (Anchor.totalPoints account); Str " points"] false
         :: rest'').
Proof.
  intros Hc Hs Hg Hl.
  unfold Staking.claimPoints, StakingGuarded.claimPoints,
    StakingMock.claimPoints.
  rewrite Hc, Hs, Hg, Hl. cbn [andb negb]. split.
  - intros [Hnone | (account & Hsome & Hzero)].
    + rewrite Hnone. destruct s. repeat split.
    + rewrite Hsome, Hzero. destruct s. repeat split.
  - intros account Hsome Hpoints. rewrite Hsome.
    apply Z.eqb_neq in Hpoints. rewrite Hpoints.
    unfold StakingGuarded.signSendConfirm, StakingGuarded.failure,
      fetchStakeAccount, StakingMock.fetchStakeAccount,
      fetchStakeAccountWith.
    rewrite Hc, Hg. eval_hook.
    both_ways env; do 3 eexists; repeat split; reflexivity.
Qed.

(** Ten SOL staked for a day have accrued 864000 points since the
    checkpoint, none of them stored: every variant answers "No points to
    claim".  With five stored points the claim goes ahead. *)
Lemma claim_gate_reads_stored_points_witness :
  StakeProgram.totalClaimablePoints (JS.of_Z 10000000000)
    (JS.of_Z 1700000000) (JS.of_Z 0) (JS.of_Z 1700086400)
  = JS.of_Z 864000 /\
  (let s := render false (position 10000000000 0 1700000000) in
   let env := calm None 1700086400 in
   run (Staking.claimPoints s walletDeps) env s
   = (Done tt, {| state := s; events := [noPointsToClaim]; requests := 0 |})
   /\
   run (StakingGuarded.claimPoints s walletDeps) env s
   = (Done tt, {| state := s; events := [noPointsToClaim]; requests := 0 |})
   /\
   run (StakingMock.claimPoints s walletDeps) env s
   = (Done tt, {| state := s;
                  events := [Toast EmptyString [Str "No points to claim"] true];
                  requests := 0 |})) /\
  (let s := render false (position 10000000000 5 1700000000) in
   exists rest,
     events (snd (run (Staking.claimPoints s walletDeps)
                    (calm None 1700086400) s))
     = SetLoading true :: Built Anchor.claimPointsIx
       :: Call (walletSendTransaction [Anchor.claimPointsIx]) :: rest).
Proof.
  split; [vm_compute; reflexivity |]. split.
  - cbv zeta.
    apply (claim_gate_reads_stored_points
             (render false (position 10000000000 0 1700000000)) walletDeps
             (calm None 1700086400) eq_refl eq_refl eq_refl eq_refl).
    right. eexists. split; reflexivity.
  - cbv zeta.
    destruct (claim_gate_reads_stored_points
                (render false (position 10000000000 5 1700000000)) walletDeps
                (calm None 1700086400) eq_refl eq_refl eq_refl eq_refl)
      as [_ H].
    destruct (H (position 10000000000 5 1700000000) eq_refl
                ltac:(discriminate)) as (rest & _ & _ & Hev & _).
    exists rest. exact Hev.
Defined.

End StakingFacts.

(* ================================================================== *)
(** ** Laws of the effects *)
(* ================================================================== *)

Module RuntimeFacts.
Import Runtime Discipline.

Section Laws.
Context {St : Type}.

Lemma emits_only_ret {A} (allowed : Event -> bool) (a : A) :
  emits_only (St := St) allowed (ret a).
Proof. intros env w H. exact H. Qed.

Lemma emits_only_throw {A} (allowed : Event -> bool) (e : Error) :
  emits_only (St := St) (A := A) allowed (throw e).
Proof. intros env w H. exact H. Qed.

Lemma emits_only_set (allowed : Event -> bool) (f : St -> St) :
  emits_only allowed (set f).
Proof. intros env w H. exact H. Qed.

Lemma emits_only_now (allowed : Event -> bool) :
  emits_only (St := St) allowed now.
Proof. intros env w H. exact H. Qed.

Lemma emits_only_emit (allowed : Event -> bool) (ev : Event) :
  allowed ev = true -> emits_only (St := St) allowed (emit ev).
Proof.
  intros Hev env w H. cbn. rewrite forallb_app, H. cbn. now rewrite Hev.
Qed.

Lemma emits_only_await {A} (allowed : Event -> bool) (r : Remote)
  (result : Env -> nat -> A) :
  allowed (Call r) = true -> emits_only (St := St) allowed (await r result).
Proof.
  intros Hr env w H. unfold await.
  destruct (fails env (requests w)); cbn; rewrite forallb_app, H; cbn;
    now rewrite Hr.
Qed.

Lemma emits_only_bind {A B} (allowed : Event -> bool)
  (m : M St A) (k : A -> M St B) :
  emits_only allowed m -> (forall a, emits_only allowed (k a)) ->
  emits_only allowed (bind m k).
Proof.
  intros Hm Hk env w H. unfold bind. specialize (Hm env w H).
  destruct (m env w) as [[a | e] w']; cbn in *.
  - now apply Hk.
  - exact Hm.
Qed.

(** What follows a [throw] is not run. *)
Lemma emits_only_after_throw {A B} (allowed : Event -> bool)
  (e : Error) (k : A -> M St B) :
  emits_only allowed (bind (throw e) k).
Proof. intros env w H. exact H. Qed.

Lemma emits_only_try_catch {A} (allowed : Event -> bool)
  (body : M St A) (handler : Error -> M St A) :
  emits_only allowed body -> (forall e, emits_only allowed (handler e)) ->
  emits_only allowed (try_catch body handler).
Proof.
  intros Hb Hh env w H. unfold try_catch. specialize (Hb env w H).
  destruct (body env w) as [[a | e] w']; cbn in *.
  - exact Hb.
  - now apply Hh.
Qed.

Lemma emits_only_try_finally {A} (allowed : Event -> bool)
  (body : M St A) (cleanup : M St unit) :
  emits_only allowed body -> emits_only allowed cleanup ->
  emits_only allowed (try_finally body cleanup).
Proof.
  intros Hb Hc env w H. unfold try_finally. specialize (Hb env w H).
  destruct (body env w) as [o w']. cbn in Hb. specialize (Hc env w' Hb).
  destruct (cleanup env w') as [[[] | e] w'']; exact Hc.
Qed.

Lemma emits_only_run {A} (allowed : Event -> bool) (m : M St A)
  (env : Env) (s : St) :
  emits_only allowed m ->
  forallb allowed (events (snd (run m env s))) = true.
Proof. intros Hm. apply Hm. reflexivity. Qed.

Lemma returns_ret {A} (a : A) : returns (St := St) (ret a).
Proof. intros env w. now exists a. Qed.

Lemma returns_set (f : St -> St) : returns (set f).
Proof. intros env w. now exists tt. Qed.

Lemma returns_emit (ev : Event) : returns (St := St) (emit ev).
Proof. intros env w. now exists tt. Qed.

Lemma returns_bind {A B} (m : M St A) (k : A -> M St B) :
  returns m -> (forall a, returns (k a)) -> returns (bind m k).
Proof.
  intros Hm Hk env w. unfold bind. destruct (Hm env w) as [a Ha].
  destruct (m env w) as [o w']. cbn in Ha. subst o. apply Hk.
Qed.

Lemma returns_try_catch {A} (body : M St A) (handler : Error -> M St A) :
  (forall e, returns (handler e)) -> returns (try_catch body handler).
Proof.
  intros Hh env w. unfold try_catch.
  destruct (body env w) as [[a | e] w'].
  - now exists a.
  - apply Hh.
Qed.

Lemma returns_try_finally {A} (body : M St A) (cleanup : M St unit) :
  returns body -> returns cleanup -> returns (try_finally body cleanup).
Proof.
  intros Hb Hc env w. unfold try_finally. destruct (Hb env w) as [a Ha].
  destruct (body env w) as [o w']. cbn in Ha. subst o.
  destruct (Hc env w') as [u Hu].
  destruct (cleanup env w') as [[[] | e] w'']; [now exists a | discriminate].
Qed.

Lemma throws_only_ret {A} (P : Error -> Prop) (env : Env) (a : A) :
  throws_only (St := St) P env (ret a).
Proof. intros w e H. discriminate H. Qed.

Lemma throws_only_set (P : Error -> Prop) (env : Env) (f : St -> St) :
  throws_only P env (set f).
Proof. intros w e H. discriminate H. Qed.

Lemma throws_only_emit (P : Error -> Prop) (env : Env) (ev : Event) :
  throws_only (St := St) P env (emit ev).
Proof. intros w e H. discriminate H. Qed.

Lemma throws_only_throw {A} (P : Error -> Prop) (env : Env) (e : Error) :
  P e -> throws_only (St := St) (A := A) P env (throw e).
Proof. intros He w e' H. inversion H. subst e'. exact He. Qed.

Lemma throws_only_await {A} (P : Error -> Prop) (env : Env) (r : Remote)
  (result : Env -> nat -> A) :
  (forall k e, fails env k = Some e -> P e) ->
  throws_only (St := St) P env (await r result).
Proof.
  intros Henv w e H. unfold await in H.
  destruct (fails env (requests w)) as [e' |] eqn:Hf; [| discriminate H].
  inversion H. subst e'. exact (Henv _ _ Hf).
Qed.

Lemma throws_only_bind {A B} (P : Error -> Prop) (env : Env)
  (m : M St A) (k : A -> M St B) :
  throws_only P env m -> (forall a, throws_only P env (k a)) ->
  throws_only P env (bind m k).
Proof.
  intros Hm Hk w e H. unfold bind in H.
  destruct (m env w) as [[a | e'] w'] eqn:Em.
  - exact (Hk a w' e H).
  - apply (Hm w e). rewrite Em. cbn in H. inversion H. reflexivity.
Qed.

Lemma throws_only_try_catch {A} (P : Error -> Prop) (env : Env)
  (body : M St A) (handler : Error -> M St A) :
  (forall e, throws_only P env (handler e)) ->
  throws_only P env (try_catch body handler).
Proof.
  intros Hh w e H. unfold try_catch in H.
  destruct (body env w) as [[a | e'] w']; [discriminate H |].
  exact (Hh e' w' e H).
Qed.

Lemma throws_only_try_finally {A} (P : Error -> Prop) (env : Env)
  (body : M St A) (cleanup : M St unit) :
  throws_only P env body -> throws_only P env cleanup ->
  throws_only P env (try_finally body cleanup).
Proof.
  intros Hb Hc w e H. unfold try_finally in H.
  destruct (body env w) as [o w'] eqn:Eb.
  destruct (cleanup env w') as [[[] | e'] w''] eqn:Ec.
  - apply (Hb w e). rewrite Eb. exact H.
  - apply (Hc w' e). rewrite Ec. cbn in H. inversion H. reflexivity.
Qed.

(** A [catch] that copes with everything its [try] can throw. *)
Lemma returns_in_caught {A} (P : Error -> Prop) (env : Env)
  (body : M St A) (handler : Error -> M St A) :
  throws_only P env body ->
  (forall e, P e -> returns_in env (handler e)) ->
  returns_in env (try_catch body handler).
Proof.
  intros Hb Hh w. unfold try_catch.
  destruct (body env w) as [[a | e] w'] eqn:Eb.
  - now exists a.
  - apply Hh. apply (Hb w e). rewrite Eb. reflexivity.
Qed.

Lemma returns_in_all {A} (env : Env) (m : M St A) :
  returns m -> returns_in env m.
Proof. intros H w. apply H. Qed.

End Laws.

(** A [finally] that lowers [loading] has the last word. *)
Lemma useStakeProgram_finally {A}
  (body : M StakeProgram.State A) (env : Env) (w : World StakeProgram.State) :
  let r := try_finally body (StakeProgram.setLoading false) env w in
  fst r = fst (body env w) /\
  last (events (snd r)) (SetLoading true) = SetLoading false /\
  StakeProgram.loading (state (snd r)) = false.
Proof.
  cbv zeta. unfold try_finally. destruct (body env w) as [o w'].
  cbn. rewrite last_last. repeat split.
Qed.

Lemma useStaking_finally {A}
  (body : M StakingCommon.State A) (env : Env)
  (w : World StakingCommon.State) :
  let r := try_finally body (StakingCommon.setLoading false) env w in
  fst r = fst (body env w) /\
  last (events (snd r)) (SetLoading true) = SetLoading false /\
  StakingCommon.loading (state (snd r)) = false.
Proof.
  cbv zeta. unfold try_finally. destruct (body env w) as [o w'].
  cbn. rewrite last_last. repeat split.
Qed.

(** [setLoading(true); try { body } finally { setLoading(false) }] *)
Lemma useStakeProgram_bracket {A}
  (body : M StakeProgram.State A) (env : Env) (s : StakeProgram.State) :
  let r := run (StakeProgram.setLoading true ;;
                try_finally body (StakeProgram.setLoading false)) env s in
  settled (events (snd r)) (StakeProgram.loading (state (snd r))) /\
  (returns body -> exists a, fst r = Done a).
Proof.
  cbv zeta.
  assert (exists w,
             run (StakeProgram.setLoading true ;;
                  try_finally body (StakeProgram.setLoading false)) env s
             = try_finally body (StakeProgram.setLoading false) env w)
    as [w E] by (eexists; reflexivity).
  rewrite E. pose proof (useStakeProgram_finally body env w) as H.
  cbv zeta in H. destruct H as (Hf & Hl & Hs).
  split.
  - intros _. split; [exact Hl | exact Hs].
  - intros Hr. destruct (Hr env w) as [a Ha].
    exists a. etransitivity; [exact Hf | exact Ha].
Qed.

Lemma useStaking_bracket {A}
  (body : M StakingCommon.State A) (env : Env) (s : StakingCommon.State) :
  let r := run (StakingCommon.setLoading true ;;
                try_finally body (StakingCommon.setLoading false)) env s in
  settled (events (snd r)) (StakingCommon.loading (state (snd r))) /\
  (returns body -> exists a, fst r = Done a).
Proof.
  cbv zeta.
  assert (exists w,
             run (StakingCommon.setLoading true ;;
                  try_finally body (StakingCommon.setLoading false)) env s
             = try_finally body (StakingCommon.setLoading false) env w)
    as [w E] by (eexists; reflexivity).
  rewrite E. pose proof (useStaking_finally body env w) as H.
  cbv zeta in H. destruct H as (Hf & Hl & Hs).
  split.
  - intros _. split; [exact Hl | exact Hs].
  - intros Hr. destruct (Hr env w) as [a Ha].
    exists a. etransitivity; [exact Hf | exact Ha].
Qed.

Lemma useStaking_bracket_in {A}
  (body : M StakingCommon.State A) (env : Env) (s : StakingCommon.State) :
  returns_in env body ->
  exists a,
    fst (run (StakingCommon.setLoading true ;;
              try_finally body (StakingCommon.setLoading false)) env s)
    = Done a.
Proof.
  intros Hr.
  assert (exists w,
             run (StakingCommon.setLoading true ;;
                  try_finally body (StakingCommon.setLoading false)) env s
             = try_finally body (StakingCommon.setLoading false) env w)
    as [w E] by (eexists; reflexivity).
  rewrite E. pose proof (useStaking_finally body env w) as H.
  cbv zeta in H. destruct H as (Hf & _ & _).
  destruct (Hr w) as [a Ha]. exists a. etransitivity; [exact Hf | exact Ha].
Qed.

(** A callback that changes [loading] nowhere is settled. *)
Lemma settled_quiet (evs : list Event) (finalLoading : bool) :
  existsb raisesLoading evs = false -> settled evs finalLoading.
Proof. intros H H'. rewrite H in H'. discriminate H'. Qed.

(** The laws above, applied along the shape of a callback. *)
Ltac disciplined_with unfolding :=
  repeat
    lazymatch goal with
    | |- emits_only _ (ret _) => apply emits_only_ret
    | |- emits_only _ (throw _) => apply emits_only_throw
    | |- emits_only _ (set _) => apply emits_only_set
    | |- emits_only _ now => apply emits_only_now
    | |- emits_only _ (emit _) => apply emits_only_emit; reflexivity
    | |- emits_only _ (await _ _) => apply emits_only_await; reflexivity
    | |- emits_only _ (bind (throw _) _) => apply emits_only_after_throw
    | |- emits_only _ (bind _ _) => apply emits_only_bind; [| intros ?]
    | |- emits_only _ (try_finally _ _) => apply emits_only_try_finally
    | |- emits_only _ (try_catch _ _) =>
        apply emits_only_try_catch; [| intros ?]
    | |- emits_only _ (if ?b then _ else _) => destruct b
    | |- emits_only _ (match ?x with _ => _ end) => destruct x
    | |- emits_only _ _ => progress unfolding
    end.

Ltac throwing_with unfolding :=
  repeat
    lazymatch goal with
    | |- throws_only _ _ (ret _) => apply throws_only_ret
    | |- throws_only _ _ (set _) => apply throws_only_set
    | |- throws_only _ _ (emit _) => apply throws_only_emit
    | |- throws_only _ _ (throw _) =>
        apply throws_only_throw; first [reflexivity | eauto]
    | |- throws_only _ _ (await _ _) =>
        apply throws_only_await; assumption
    | |- throws_only _ _ (bind _ _) => apply throws_only_bind; [| intros ?]
    | |- throws_only _ _ (try_finally _ _) => apply throws_only_try_finally
    | |- throws_only _ _ (try_catch _ _) =>
        apply throws_only_try_catch; intros ?
    | |- throws_only _ _ (if ?b then _ else _) => destruct b
    | |- throws_only _ _ (match ?x with _ => _ end) => destruct x eqn:?
    | |- throws_only _ _ _ => progress unfolding
    end.

Ltac returning_with unfolding :=
  repeat
    lazymatch goal with
    | |- returns (ret _) => apply returns_ret
    | |- returns (set _) => apply returns_set
    | |- returns (emit _) => apply returns_emit
    | |- returns (bind _ _) => apply returns_bind; [| intros ?]
    | |- returns (try_finally _ _) => apply returns_try_finally
    | |- returns (try_catch _ _) => apply returns_try_catch; intros ?
    | |- returns (if ?b then _ else _) => destruct b
    | |- returns (match ?x with _ => _ end) => destruct x
    | |- returns _ => progress unfolding
    end.

End RuntimeFacts.

(* ================================================================== *)
(** ** [useStakeProgram]: what a read leaves behind *)
(* ================================================================== *)

Module ReadFacts.
Import Runtime Discipline StakeProgram StakeProgramOps JSFacts StakeProgramFacts
  RuntimeFacts.

Lemma le_of_Z (a b : Z) : JS.le (JS.of_Z a) (JS.of_Z b) = (a <=? b).
Proof.
  unfold JS.le, JS.of_Z, Qle_bool. cbn [Qnum Qden inject_Z].
  now rewrite !Z.mul_1_r.
Qed.

Lemma to_Z_of_Z (z : Z) : JS.to_Z (JS.of_Z z) = Some z.
Proof.
  unfold JS.to_Z, JS.of_Z, Qfloor, inject_Z. rewrite Z.div_1_r.
  replace (Qeq_bool (z # 1) (z # 1)) with true; [reflexivity |].
  symmetry. apply Qeq_bool_iff. reflexivity.
Qed.

Lemma BN_ofNumber_of_Z (z : Z) :
  Z.abs z < 2 ^ 53 -> Anchor.BN_ofNumber (JS.of_Z z) = Some z.
Proof.
  intros Hz. unfold Anchor.BN_ofNumber, JS.of_Z, inject_Z. cbn [Qnum Qden].
  rewrite Z.quot_1_r.
  replace (Z.abs z <? 2 ^ 53) with true; [reflexivity |].
  symmetry. apply Z.ltb_lt. exact Hz.
Qed.

Lemma transferable_of_Z (z : Z) :
  0 <= z < 2 ^ 64 -> Anchor.transferable (JS.of_Z z) = true.
Proof.
  intros Hz. unfold Anchor.transferable, Anchor.fits_u64.
  rewrite to_Z_of_Z. apply andb_true_iff.
  split; [apply Z.leb_le | apply Z.ltb_lt]; lia.
Qed.

Lemma byteOf_value (x : Z) : Z.of_N (Byte.to_N (byteOf x)) = x mod 256.
Proof.
  unfold byteOf. pose proof (Z.mod_pos_bound x 256 ltac:(lia)) as Hb.
  destruct (Byte.of_N (Z.to_N (x mod 256))) as [b |] eqn:Hof.
  - apply Byte.to_of_N in Hof. rewrite Hof. apply Z2N.id. lia.
  - apply Byte.of_N_None_iff in Hof. lia.
Qed.

Lemma BN_le_le8 (z : Z) : 0 <= z < 2 ^ 64 -> BN_le (le8 z) = z.
Proof.
  intros Hz. unfold le8, BN_le. cbn [map fold_right].
  rewrite !byteOf_value. change (256 ^ 0) with 1. rewrite Z.div_1_r.
  replace (z / 256 ^ 2) with (z / 256 ^ 1 / 256)
    by (rewrite Z.div_div by lia; reflexivity).
  replace (z / 256 ^ 3) with (z / 256 ^ 1 / 256 / 256)
    by (rewrite !Z.div_div by lia; reflexivity).
  replace (z / 256 ^ 4) with (z / 256 ^ 1 / 256 / 256 / 256)
    by (rewrite !Z.div_div by lia; reflexivity).
  replace (z / 256 ^ 5) with (z / 256 ^ 1 / 256 / 256 / 256 / 256)
    by (rewrite !Z.div_div by lia; reflexivity).
  replace (z / 256 ^ 6) with (z / 256 ^ 1 / 256 / 256 / 256 / 256 / 256)
    by (rewrite !Z.div_div by lia; reflexivity).
  replace (z / 256 ^ 7)
    with (z / 256 ^ 1 / 256 / 256 / 256 / 256 / 256 / 256)
    by (rewrite !Z.div_div by lia; reflexivity).
  change (256 ^ 1) with 256.
  assert (Htop : z / 256 / 256 / 256 / 256 / 256 / 256 / 256 / 256 = 0).
  { rewrite !Z.div_div by lia. apply Z.div_small. exact Hz. }
  set (a1 := z / 256) in *. set (a2 := a1 / 256) in *.
  set (a3 := a2 / 256) in *. set (a4 := a3 / 256) in *.
  set (a5 := a4 / 256) in *. set (a6 := a5 / 256) in *.
  set (a7 := a6 / 256) in *.
  pose proof (Z.div_mod z 256 ltac:(lia)) as E0.
  pose proof (Z.div_mod a1 256 ltac:(lia)) as E1.
  pose proof (Z.div_mod a2 256 ltac:(lia)) as E2.
  pose proof (Z.div_mod a3 256 ltac:(lia)) as E3.
  pose proof (Z.div_mod a4 256 ltac:(lia)) as E4.
  pose proof (Z.div_mod a5 256 ltac:(lia)) as E5.
  pose proof (Z.div_mod a6 256 ltac:(lia)) as E6.
  pose proof (Z.div_mod a7 256 ltac:(lia)) as E7.
  fold a1 in E0. fold a2 in E1. fold a3 in E2. fold a4 in E3.
  fold a5 in E4. fold a6 in E5. fold a7 in E6. rewrite Htop in E7.
  generalize dependent (z mod 256). generalize dependent (a1 mod 256).
  generalize dependent (a2 mod 256). generalize dependent (a3 mod 256).
  generalize dependent (a4 mod 256). generalize dependent (a5 mod 256).
  generalize dependent (a6 mod 256). generalize dependent (a7 mod 256).
  intros. lia.
Qed.

Lemma slice_head (field rest : list Byte.byte) (n : nat) :
  List.length field = n -> slice (field ++ rest) 0 n = field.
Proof.
  intros <-. unfold slice. cbn [skipn]. rewrite Nat.sub_0_r.
  rewrite firstn_app, Nat.sub_diag, firstn_all. cbn [firstn].
  apply app_nil_r.
Qed.

(** Where [layout] puts the fields is where [fetchStakeAccount] reads
    them. *)
Lemma readU64_layout
  (discriminator owner : list Byte.byte) (staked points checkpoint : Z)
  (bump : Byte.byte) (tail : list Byte.byte) :
  List.length discriminator = 8%nat -> List.length owner = 32%nat ->
  let data := layout discriminator owner staked points checkpoint bump tail in
  slice data 8 (8 + 32) = owner /\
  readU64 data (8 + 32) = Anchor.BN_toNumber (BN_le (le8 staked)) /\
  readU64 data (8 + 32 + 8) = Anchor.BN_toNumber (BN_le (le8 points)) /\
  readU64 data (8 + 32 + 8 + 8)
  = Anchor.BN_toNumber (BN_le (le8 checkpoint)) /\
  nth (8 + 32 + 8 + 8 + 8) data Byte.x00 = bump.
Proof.
  intros Hd Ho. cbv zeta. unfold layout, readU64.
  rewrite !(slice_past_prefix discriminator) by lia.
  rewrite Hd. cbn [Nat.add Nat.sub].
  repeat split.
  - now apply slice_head.
  - rewrite (slice_past_prefix owner) by lia. rewrite Ho.
    cbn [Nat.sub]. now rewrite (slice_head (le8 staked)).
  - rewrite (slice_past_prefix owner) by lia. rewrite Ho.
    rewrite (slice_past_prefix (le8 staked)) by (cbn; lia).
    cbn [List.length le8 map Nat.sub].
    now rewrite (slice_head (le8 points)).
  - rewrite (slice_past_prefix owner) by lia. rewrite Ho.
    rewrite (slice_past_prefix (le8 staked)) by (cbn; lia).
    cbn [List.length le8 map Nat.sub].
    rewrite (slice_past_prefix (le8 points)) by (cbn; lia).
    cbn [List.length le8 map Nat.sub].
    now rewrite (slice_head (le8 checkpoint)).
  - rewrite app_nth2 by lia. rewrite Hd.
    rewrite app_nth2 by (cbn; lia). rewrite Ho.
    reflexivity.
Qed.

Lemma BN_toNumber_safe (z : Z) :
  0 <= z < 2 ^ 53 -> Anchor.BN_toNumber z = Some (JS.of_Z z).
Proof.
  intros Hz. unfold Anchor.BN_toNumber.
  replace (Z.abs z <? 2 ^ 53) with true; [reflexivity |].
  symmetry. apply Z.ltb_lt. lia.
Qed.

Lemma BN_toNumber_unsafe (z : Z) : 2 ^ 53 <= z -> Anchor.BN_toNumber z = None.
Proof.
  intros Hz. unfold Anchor.BN_toNumber.
  replace (Z.abs z <? 2 ^ 53) with false; [reflexivity |].
  symmetry. apply Z.ltb_ge. lia.
Qed.

Lemma decode_layout_fields
  (discriminator owner : list Byte.byte) (staked points checkpoint : Z)
  (bump : Byte.byte) (tail : list Byte.byte) :
  List.length discriminator = 8%nat -> List.length owner = 32%nat ->
  0 <= staked < 2 ^ 53 -> 0 <= points < 2 ^ 53 -> 0 <= checkpoint < 2 ^ 53 ->
  decodeFields (layout discriminator owner staked points checkpoint bump tail)
  = Some {| StakeProgram.owner := owner;
            stakedAmount := JS.of_Z staked;
            totalPoints := JS.of_Z points;
            lastUpdatedTime := JS.of_Z checkpoint;
            StakeProgram.bump := bump |}.
Proof.
  intros Hd Ho Hs Hp Hc.
  destruct (readU64_layout discriminator owner staked points checkpoint bump
              tail Hd Ho) as (Eo & Es & Ep & Ec & Eb).
  assert (H64 : 2 ^ 53 < 2 ^ 64) by reflexivity.
  unfold decodeFields. rewrite Eo, Es, Ep, Ec, Eb.
  rewrite !BN_le_le8 by lia. rewrite !BN_toNumber_safe by lia.
  reflexivity.
Qed.

(** X1: account data of any length from 65 bytes on is read by position:
    bytes 8 to 39 are the owner, bytes 40 to 63 three little-endian integers,
    byte 64 the bump; the discriminator and whatever follows byte 64 play no
    part. *)
Theorem decode_by_position
  (discriminator owner : list Byte.byte) (staked points checkpoint : Z)
  (bump : Byte.byte) (tail : list Byte.byte) :
  List.length discriminator = 8%nat -> List.length owner = 32%nat ->
  0 <= staked < 2 ^ 53 -> 0 <= points < 2 ^ 53 -> 0 <= checkpoint < 2 ^ 53 ->
  decodeFields (layout discriminator owner staked points checkpoint bump tail)
  = Some {| StakeProgram.owner := owner;
            stakedAmount := JS.of_Z staked;
            totalPoints := JS.of_Z points;
            lastUpdatedTime := JS.of_Z checkpoint;
            StakeProgram.bump := bump |}.
Proof. apply decode_layout_fields. Qed.

Lemma decode_by_position_witness :
  decodeFields
    (layout (repeat Byte.xff 8) (repeat Byte.x01 32) 5000000000 123
       1700000000 Byte.xfe [Byte.x00; Byte.x07])
  = Some {| StakeProgram.owner := repeat Byte.x01 32;
            stakedAmount := JS.of_Z 5000000000;
            totalPoints := JS.of_Z 123;
            lastUpdatedTime := JS.of_Z 1700000000;
            StakeProgram.bump := Byte.xfe |}.
Proof.
  apply (decode_by_position (repeat Byte.xff 8) (repeat Byte.x01 32)
           5000000000 123 1700000000 Byte.xfe [Byte.x00; Byte.x07]);
    first [reflexivity | (split; [lia | reflexivity])].
Defined.

Ltac world env :=
  repeat match goal with
         | |- context [fails env ?k] => destruct (fails env k)
         | |- context [accountData env ?k] => destruct (accountData env k)
         | |- context [(0 <? List.length ?l)%nat] =>
             destruct (0 <? List.length l)%nat
         | |- context [(?n <=? List.length ?l)%nat] =>
             destruct (n <=? List.length l)%nat
         | |- context [decodeFields ?l] => destruct (decodeFields l)
         | |- context [staleBlockhash ?m] => destruct (staleBlockhash m)
         | |- context [Anchor.BN_ofNumber ?x] =>
             destruct (Anchor.BN_ofNumber x)
         | |- context [Anchor.transferable ?x] =>
             destruct (Anchor.transferable x)
         | |- context [Anchor.fits_u64 ?z] => destruct (Anchor.fits_u64 z)
         end.

(** X2: a read of well-formed account data stores the decoded account and,
    while the product and the total stay below [2^53], the points
    [totalPoints + floor(stakedAmount * elapsed / 10^9)] with the elapsed
    seconds counted on the clock after the answer arrived; nothing else in
    the state changes, and one request is made. *)
Theorem read_stores_account_and_accrual
  (d : Deps) (env : Env) (s : State)
  (discriminator owner : list Byte.byte) (staked points checkpoint : Z)
  (bump : Byte.byte) (tail : list Byte.byte) :
  program d = true ->
  fails env 0%nat = None ->
  accountData env 0%nat
  = Some (layout discriminator owner staked points checkpoint bump tail) ->
  List.length discriminator = 8%nat -> List.length owner = 32%nat ->
  0 <= staked < 2 ^ 53 -> 0 <= points < 2 ^ 53 -> 0 <= checkpoint < 2 ^ 53 ->
  0 <= seconds env 1%nat < 2 ^ 53 ->
  staked * (seconds env 1%nat - checkpoint) < 2 ^ 53 ->
  points + staked * (seconds env 1%nat - checkpoint) / 10 ^ 9 < 2 ^ 53 ->
  run (fetchStakeAccount d) env s
  = (Done tt,
     {| state :=
          {| stakeAccount :=
               Some {| StakeProgram.owner := owner;
                       stakedAmount := JS.of_Z staked;
                       totalPoints := JS.of_Z points;
                       lastUpdatedTime := JS.of_Z checkpoint;
                       StakeProgram.bump := bump |};
             walletBalance := walletBalance s;
             loading := loading s;
             refreshing := false;
             calculatedPoints :=
               JS.of_Z (points
                        + (if (0 <? staked) && (checkpoint <? seconds env 1%nat)
                           then staked * (seconds env 1%nat - checkpoint)
                                / 10 ^ 9
                           else 0)) |};
        events := [Call getAccountInfo];
        requests := 1 |}).
Proof.
  intros Hp Hok Hdata Hd Ho Hs Hpt Hc Ht Hprod Hsum.
  unfold fetchStakeAccount, pdaAccount.
  rewrite Hp, (connected_of_program d Hp). cbn [andb negb].
  eval_monad. rewrite Hok, Hdata.
  rewrite (decode_layout_fields discriminator owner staked points checkpoint
             bump tail Hd Ho Hs Hpt Hc).
  assert (Hlen : (8 + 32 + 8 + 8 + 8 + 1
                  <=? List.length (layout discriminator owner staked points
                                     checkpoint bump tail))%nat = true).
  { apply Nat.leb_le. unfold layout. rewrite !length_app, Hd, Ho.
    cbn [List.length le8 map]. lia. }
  assert (Hpos : (0 <? List.length (layout discriminator owner staked points
                                      checkpoint bump tail))%nat = true).
  { apply Nat.ltb_lt. apply Nat.leb_le in Hlen. lia. }
  rewrite Hlen, Hpos. cbn [stakedAmount lastUpdatedTime totalPoints].
  rewrite totalClaimablePoints_exact by lia.
  reflexivity.
Qed.

(** Five SOL staked, 123 points stored, read 1000 seconds after the
    checkpoint. *)
Lemma read_stores_account_and_accrual_witness :
  run (fetchStakeAccount readyDeps)
    (calm (Some (layout (repeat Byte.xff 8) (repeat Byte.x01 32) 5000000000
                   123 1700000000 Byte.xfe [Byte.x00]))
       1700001000)
    (withPoints 9)
  = (Done tt,
     {| state :=
          {| stakeAccount :=
               Some {| StakeProgram.owner := repeat Byte.x01 32;
                       stakedAmount := JS.of_Z 5000000000;
                       totalPoints := JS.of_Z 123;
                       lastUpdatedTime := JS.of_Z 1700000000;
                       StakeProgram.bump := Byte.xfe |};
             walletBalance := JS.of_Z 0;
             loading := false;
             refreshing := false;
             calculatedPoints := JS.of_Z 5123 |};
        events := [Call getAccountInfo];
        requests := 1 |}).
Proof.
  apply (read_stores_account_and_accrual readyDeps
           (calm (Some (layout (repeat Byte.xff 8) (repeat Byte.x01 32)
                          5000000000 123 1700000000 Byte.xfe [Byte.x00]))
              1700001000)
           (withPoints 9) (repeat Byte.xff 8) (repeat Byte.x01 32)
           5000000000 123 1700000000 Byte.xfe [Byte.x00]);
    first [reflexivity
          | (cbn [seconds calm]; split; [lia | reflexivity])].
Defined.

(** X3: an account one of whose three integers is [2^53] or more - nine
    million SOL staked, say - is shown as not initialized: no account, zero
    points. *)
Theorem read_refuses_large_fields
  (d : Deps) (env : Env) (s : State)
  (discriminator owner : list Byte.byte) (staked points checkpoint : Z)
  (bump : Byte.byte) (tail : list Byte.byte) :
  program d = true ->
  fails env 0%nat = None ->
  accountData env 0%nat
  = Some (layout discriminator owner staked points checkpoint bump tail) ->
  List.length discriminator = 8%nat -> List.length owner = 32%nat ->
  0 <= staked < 2 ^ 64 -> 0 <= points < 2 ^ 64 -> 0 <= checkpoint < 2 ^ 64 ->
  2 ^ 53 <= staked \/ 2 ^ 53 <= points \/ 2 ^ 53 <= checkpoint ->
  run (fetchStakeAccount d) env s
  = (Done tt,
     {| state := {| stakeAccount := None;
                    walletBalance := walletBalance s;
                    loading := loading s;
                    refreshing := false;
                    calculatedPoints := JS.of_Z 0 |};
        events := [Call getAccountInfo];
        requests := 1 |}).
Proof.
  intros Hp Hok Hdata Hd Ho Hs Hpt Hc Hlarge.
  apply (oversized_field_not_initialized d env s _ Hp Hok Hdata).
  destruct (readU64_layout discriminator owner staked points checkpoint bump
              tail Hd Ho) as (Eo & Es & Ep & Ec & Eb).
  unfold decodeFields. rewrite Es, Ep, Ec. rewrite !BN_le_le8 by lia.
  destruct Hlarge as [H | [H | H]];
    rewrite (BN_toNumber_unsafe _ H);
    repeat match goal with
           | |- context [Anchor.BN_toNumber ?z] =>
               destruct (Anchor.BN_toNumber z)
           end; reflexivity.
Qed.

Lemma read_refuses_large_fields_witness :
  run (fetchStakeAccount readyDeps)
    (calm (Some (layout (repeat Byte.x00 8) (repeat Byte.x01 32)
                   9007199254740992 5 1700000000 Byte.xff []))
       1700001000)
    (withPoints 9)
  = (Done tt,
     {| state := initialState; events := [Call getAccountInfo];
        requests := 1 |}).
Proof.
  apply (read_refuses_large_fields readyDeps
           (calm (Some (layout (repeat Byte.x00 8) (repeat Byte.x01 32)
                          9007199254740992 5 1700000000 Byte.xff []))
              1700001000)
           (withPoints 9) (repeat Byte.x00 8) (repeat Byte.x01 32)
           9007199254740992 5 1700000000 Byte.xff []);
    first [reflexivity | (split; [lia | reflexivity])
          | (left; lia)].
Defined.

(** X4: whatever the cluster answers, [fetchStakeAccount] returns normally,
    makes at most the one [getAccountInfo] request, leaves [loading] and
    [walletBalance] alone and, with a connected wallet, ends with
    [refreshing] lowered; without one it does nothing at all. *)
Theorem read_is_contained (d : Deps) (env : Env) (s : State) :
  let w := snd (run (fetchStakeAccount d) env s) in
  fst (run (fetchStakeAccount d) env s) = Done tt /\
  loading (state w) = loading s /\
  walletBalance (state w) = walletBalance s /\
  (program d = true ->
   refreshing (state w) = false /\ events w = [Call getAccountInfo]) /\
  (program d = false ->
   w = {| state := s; events := []; requests := 0 |}).
Proof.
  cbv zeta. unfold fetchStakeAccount, pdaAccount.
  destruct (program d) eqn:Hp.
  - rewrite (connected_of_program d Hp). cbn [andb negb].
    eval_monad. world env; repeat split; discriminate.
  - rewrite andb_false_r. cbn [negb]. destruct s. repeat split; discriminate.
Qed.

Lemma read_is_contained_witness :
  let w := snd (run (fetchStakeAccount readyDeps) (calm None 0)
                  initialState) in
  refreshing (state w) = false /\ events w = [Call getAccountInfo].
Proof.
  cbv zeta.
  apply (proj1 (proj2 (proj2 (proj2
           (read_is_contained readyDeps (calm None 0) initialState))))).
  reflexivity.
Defined.

(** X5: while the arithmetic stays below [2^53], the points shown never fall
    below the stored points and never decrease as the clock advances,
    wherever the clock stands relative to the checkpoint. *)
Theorem accrual_grows_with_the_clock
  (staked checkpoint points t t' : Z) :
  0 <= staked -> 0 <= checkpoint < 2 ^ 53 -> 0 <= points < 2 ^ 53 ->
  0 <= t <= t' -> t' < 2 ^ 53 ->
  staked * (t' - checkpoint) < 2 ^ 53 ->
  points + staked * (t' - checkpoint) / 10 ^ 9 < 2 ^ 53 ->
  exists v v',
    totalClaimablePoints (JS.of_Z staked) (JS.of_Z checkpoint)
      (JS.of_Z points) (JS.of_Z t) = JS.of_Z v /\
    totalClaimablePoints (JS.of_Z staked) (JS.of_Z checkpoint)
      (JS.of_Z points) (JS.of_Z t') = JS.of_Z v' /\
    points <= v <= v'.
Proof.
  intros Hs Hc Hp Ht Ht' Hprod Hsum.
  assert (Hmono : staked * (t - checkpoint) <= staked * (t' - checkpoint))
    by nia.
  assert (Hdiv : staked * (t - checkpoint) / 10 ^ 9
                 <= staked * (t' - checkpoint) / 10 ^ 9)
    by (apply Z.div_le_mono; [reflexivity | exact Hmono]).
  rewrite !totalClaimablePoints_exact by lia.
  do 2 eexists. split; [reflexivity |]. split; [reflexivity |].
  destruct (Z.ltb_spec 0 staked), (Z.ltb_spec checkpoint t),
    (Z.ltb_spec checkpoint t'); cbn [andb]; try lia.
  - assert (0 <= staked * (t - checkpoint) / 10 ^ 9)
      by (apply Z.div_pos; [nia | reflexivity]).
    lia.
  - assert (0 <= staked * (t' - checkpoint) / 10 ^ 9)
      by (apply Z.div_pos; [nia | reflexivity]).
    lia.
Qed.

Lemma accrual_grows_with_the_clock_witness :
  exists v v',
    totalClaimablePoints (JS.of_Z 10000000000) (JS.of_Z 1700000000)
      (JS.of_Z 7) (JS.of_Z 1699999990) = JS.of_Z v /\
    totalClaimablePoints (JS.of_Z 10000000000) (JS.of_Z 1700000000)
      (JS.of_Z 7) (JS.of_Z 1700086400) = JS.of_Z v' /\
    7 <= v <= v'.
Proof.
  apply (accrual_grows_with_the_clock 10000000000 1700000000 7 1699999990
           1700086400);
    first [lia | reflexivity | (split; [lia | reflexivity])].
Defined.

End ReadFacts.

(* ================================================================== *)
(** ** [useStakeProgram]: the payout of a claim *)
(* ================================================================== *)

Module PayoutFacts.
Import Runtime Discipline StakeProgram StakeProgramOps JSFacts
  StakeProgramFacts RuntimeFacts ReadFacts.

Ltac claim_at s d Hp Hk :=
  let key := fresh "key" in
  let Hkey := fresh "Hkey" in
  destruct (pointsAccountKeypair d) as [key |] eqn:Hkey; [| congruence];
  rewrite (claimPoints_ready s d key Hp Hkey); cbv zeta.

(** What a claim of [points] points starts with when they cover a payout. *)
Lemma payout_computed (points : Z) :
  100000 <= points -> points / 100000 * 10 ^ 9 < 2 ^ 53 ->
  JS.lt (JS.floor (JS.of_Z points)) (JS.of_Z 50000) = false /\
  JS.floor (JS.div (JS.floor (JS.of_Z points)) POINTS_PER_SOL)
  = JS.of_Z (points / 100000) /\
  JS.gt (JS.of_Z (points / 100000)) (JS.of_Z 0) = true /\
  JS.mul (JS.of_Z (points / 100000)) LAMPORTS_PER_SOL
  = JS.of_Z (points / 100000 * 10 ^ 9) /\
  JS.mul (JS.of_Z (points / 100000)) POINTS_PER_SOL
  = JS.of_Z (points / 100000 * 100000) /\
  Anchor.transferable (JS.of_Z (points / 100000 * 10 ^ 9)) = true.
Proof.
  intros Hmin Hpay.
  assert (Hpaid : Anchor.transferable (JS.of_Z (points / 100000 * 10 ^ 9))
                  = true).
  { apply transferable_of_Z.
    assert (0 <= points / 100000) by (apply Z.div_pos; lia).
    assert (2 ^ 53 < 2 ^ 64) by reflexivity. nia. }
  pose proof (Z.div_mod points 100000 ltac:(lia)) as Hdm.
  pose proof (Z.mod_pos_bound points 100000 ltac:(lia)) as Hr.
  assert (Hq : 1 <= points / 100000)
    by (apply Z.div_le_lower_bound; lia).
  change (10 ^ 9) with 1000000000 in Hpay.
  change (2 ^ 53) with 9007199254740992 in Hpay.
  assert (Hp : points < 2 ^ 53)
    by (change (2 ^ 53) with 9007199254740992; lia).
  rewrite floor_of_Z, lt_of_Z, gt_of_Z. unfold POINTS_PER_SOL, LAMPORTS_PER_SOL.
  rewrite floor_div_exact by (split; reflexivity || lia).
  rewrite !mul_exact
    by (change (2 ^ 53) with 9007199254740992; lia).
  repeat split.
  - apply Z.ltb_ge. lia.
  - apply Z.ltb_lt. lia.
  - exact Hpaid.
Qed.

(** X6: with [points] of 100000 or more whose payout stays below [2^53]
    lamports, and every request answered, the claim transaction is confirmed
    first; then [floor(points / 100000)] SOL, as lamports, are sent from the
    points account in a transaction of its own, and the toast names that many
    SOL for [floor(points / 100000) * 100000] points - the remainder below
    100000 is not paid. *)
Theorem claim_pays_whole_sol
  (s : State) (d : Deps) (env : Env) (points : Z) :
  program d = true -> pointsAccountKeypair d <> None ->
  calculatedPoints s = JS.of_Z points ->
  100000 <= points -> points / 100000 * 10 ^ 9 < 2 ^ 53 ->
  (forall k, (k < 6)%nat -> fails env k = None) ->
  let payout :=
    Anchor.transferFromPointsAccountIx (JS.of_Z (points / 100000 * 10 ^ 9)) in
  firstn 10 (events (snd (run (claimPoints s d) env s)))
  = [SetLoading true; Call getLatestBlockhash; Built Anchor.claimPointsIx;
     Call (walletSendTransaction [Anchor.claimPointsIx]);
     Call confirmTransaction;
     Call getLatestBlockhash; Built payout;
     Call (sendRawTransaction [payout]); Call confirmTransaction;
     Toast "Points Claimed"
       [Str "Claimed "; Num (JS.of_Z (points / 100000)); Str " SOL for ";
        Num (JS.of_Z (points / 100000 * 100000));
        Str " points successfully!"] false].
Proof.
  intros Hp Hk Hpts Hmin Hpay Hok. cbv zeta.
  destruct (payout_computed points Hmin Hpay)
    as (E1 & E2 & E3 & E4 & E5 & E6).
  claim_at s d Hp Hk. rewrite Hpts, E1, E2, E3, E4, E5, E6.
  unfold fetchStakeAccount, fetchWalletBalance, pdaAccount.
  rewrite Hp, (connected_of_program d Hp). cbn [andb negb].
  eval_monad.
  rewrite (Hok 0%nat), (Hok 1%nat), (Hok 2%nat), (Hok 3%nat), (Hok 4%nat),
    (Hok 5%nat) by lia.
  world env; reflexivity.
Qed.

Lemma claim_pays_whole_sol_witness :
  firstn 10 (events (snd (run (claimPoints (withPoints 250000) readyDeps)
                            (calm None 0) (withPoints 250000))))
  = [SetLoading true; Call getLatestBlockhash; Built Anchor.claimPointsIx;
     Call (walletSendTransaction [Anchor.claimPointsIx]);
     Call confirmTransaction;
     Call getLatestBlockhash;
     Built (Anchor.transferFromPointsAccountIx (JS.of_Z 2000000000));
     Call (sendRawTransaction
             [Anchor.transferFromPointsAccountIx (JS.of_Z 2000000000)]);
     Call confirmTransaction;
     Toast "Points Claimed"
       [Str "Claimed "; Num (JS.of_Z 2); Str " SOL for ";
        Num (JS.of_Z 200000); Str " points successfully!"] false].
Proof.
  apply (claim_pays_whole_sol (withPoints 250000) readyDeps (calm None 0)
           250000);
    first [reflexivity | discriminate | lia | (intros; reflexivity)].
Defined.

(** X7: when the claim transaction is confirmed and the payout then fails -
    at its blockhash, its submission or its confirmation - the operation ends
    with the toast of that failure and [loading] lowered; neither the stake
    account nor the balance is read again, so the state keeps the points it
    showed before the claim. *)
Theorem payout_failure_after_claim
  (s : State) (d : Deps) (env : Env) (points : Z) (e : Error) :
  program d = true -> pointsAccountKeypair d <> None ->
  calculatedPoints s = JS.of_Z points ->
  100000 <= points -> points / 100000 * 10 ^ 9 < 2 ^ 53 ->
  (forall k, (k < 3)%nat -> fails env k = None) ->
  fails env 3%nat = Some e \/
  (fails env 3%nat = None /\ fails env 4%nat = Some e) \/
  (fails env 3%nat = None /\ fails env 4%nat = None /\
   fails env 5%nat = Some e) ->
  let w := snd (run (claimPoints s d) env s) in
  fst (run (claimPoints s d) env s) = Done tt /\
  firstn 5 (events w)
  = [SetLoading true; Call getLatestBlockhash; Built Anchor.claimPointsIx;
     Call (walletSendTransaction [Anchor.claimPointsIx]);
     Call confirmTransaction] /\
  firstn 2 (rev (events w))
  = [SetLoading false;
     Toast "Error" [Str (shown "Failed to claim points" e)] true] /\
  forallb (fun ev => negb (isRead ev)) (events w) = true /\
  stakeAccount (state w) = stakeAccount s /\
  walletBalance (state w) = walletBalance s /\
  calculatedPoints (state w) = calculatedPoints s /\
  loading (state w) = false.
Proof.
  intros Hp Hk Hpts Hmin Hpay Hok Hfail. cbv zeta.
  destruct (payout_computed points Hmin Hpay)
    as (E1 & E2 & E3 & E4 & E5 & E6).
  claim_at s d Hp Hk.
  rewrite Hpts, E1, E2, E3, E4, E5, E6.
  eval_monad.
  rewrite (Hok 0%nat), (Hok 1%nat), (Hok 2%nat) by lia.
  destruct Hfail as [H3 | [[H3 H4] | [H3 [H4 H5]]]];
    rewrite ?H3, ?H4, ?H5; rewrite <- Hpts; repeat split.
Qed.

(** The wallet confirmed the claim of 250000 points; the transfer from the
    points account was refused. *)
Lemma payout_failure_after_claim_witness :
  let env :=
    failingAt 4 (plainError "insufficient lamports") (calm None 0) in
  let w := snd (run (claimPoints (withPoints 250000) readyDeps) env
                  (withPoints 250000)) in
  fst (run (claimPoints (withPoints 250000) readyDeps) env
         (withPoints 250000)) = Done tt /\
  firstn 5 (events w)
  = [SetLoading true; Call getLatestBlockhash; Built Anchor.claimPointsIx;
     Call (walletSendTransaction [Anchor.claimPointsIx]);
     Call confirmTransaction] /\
  firstn 2 (rev (events w))
  = [SetLoading false; Toast "Error" [Str "insufficient lamports"] true] /\
  forallb (fun ev => negb (isRead ev)) (events w) = true /\
  stakeAccount (state w) = None /\
  walletBalance (state w) = JS.of_Z 0 /\
  calculatedPoints (state w) = JS.of_Z 250000 /\
  loading (state w) = false.
Proof.
  cbv zeta.
  apply (payout_failure_after_claim (withPoints 250000) readyDeps _ 250000
           (plainError "insufficient lamports"));
    try first [reflexivity | discriminate | lia].
  - intros k Hk. cbn [fails failingAt calm].
    destruct k as [| [| [| k]]]; [reflexivity | reflexivity | reflexivity | lia].
  - right. left. split; reflexivity.
Defined.

(** X8: however the requests of a claim turn out, [claimPoints] returns
    normally, and once it has raised [loading] it lowers it again as its last
    step. *)
Theorem claim_always_settles (s : State) (d : Deps) (env : Env) :
  let w := snd (run (claimPoints s d) env s) in
  fst (run (claimPoints s d) env s) = Done tt /\
  (program d = true -> pointsAccountKeypair d <> None ->
   JS.lt (JS.floor (calculatedPoints s)) (JS.of_Z 50000) = false ->
   hd_error (events w) = Some (SetLoading true) /\
   last (events w) (SetLoading true) = SetLoading false /\
   loading (state w) = false).
Proof.
  cbv zeta. unfold claimPoints, fetchStakeAccount, fetchWalletBalance,
    pdaAccount.
  destruct (program d) eqn:Hp.
  - rewrite (connected_of_program d Hp). cbn [andb negb].
    destruct (pointsAccountKeypair d); [| split; [reflexivity | congruence]].
    cbv zeta.
    destruct (JS.lt (JS.floor (calculatedPoints s)) (JS.of_Z 50000));
      [split; [reflexivity | discriminate] |].
    destruct (JS.gt (JS.floor (JS.div (JS.floor (calculatedPoints s))
                                 POINTS_PER_SOL)) (JS.of_Z 0));
      eval_monad; world env; repeat split.
  - cbn [andb negb]. split; [reflexivity | discriminate].
Qed.

Lemma claim_always_settles_witness :
  let w := snd (run (claimPoints (withPoints 60000) readyDeps) (calm None 0)
                  (withPoints 60000)) in
  hd_error (events w) = Some (SetLoading true) /\
  last (events w) (SetLoading true) = SetLoading false /\
  loading (state w) = false.
Proof.
  cbv zeta.
  apply (claim_always_settles (withPoints 60000) readyDeps (calm None 0));
    [reflexivity | discriminate | reflexivity].
Defined.

End PayoutFacts.

(* ================================================================== *)
(** ** [useStakeProgram]: stake and unstake *)
(* ================================================================== *)

Module TransactFacts.
Import Runtime Discipline StakeProgram StakeProgramOps JSFacts
  StakeProgramFacts RuntimeFacts ReadFacts.

Lemma substring_prefix (needle post : string) :
  substring 0 (String.length needle) (needle ++ post) = needle.
Proof.
  induction needle as [| c needle IH]; cbn.
  - destruct post; reflexivity.
  - now rewrite IH.
Qed.

Lemma substring_inside (pre needle post : string) :
  substring (String.length pre) (String.length needle)
    (pre ++ needle ++ post) = needle.
Proof.
  induction pre as [| c pre IH]; cbn.
  - apply substring_prefix.
  - exact IH.
Qed.

(** A text contains what it was put together from. *)
Lemma includes_inside (pre needle post : string) :
  needle <> EmptyString -> includes (pre ++ needle ++ post) needle = true.
Proof.
  intros Hne. unfold includes.
  destruct (index 0 needle (pre ++ needle ++ post)) eqn:Hi; [reflexivity |].
  exfalso.
  apply (index_correct3 0 (String.length pre) needle _ Hi Hne (Nat.le_0_l _)).
  apply substring_inside.
Qed.

Lemma whole_sol_lamports (a : Z) :
  0 < a -> a * 10 ^ 9 < 2 ^ 53 ->
  JS.le (JS.of_Z a) (JS.of_Z 0) = false /\
  Anchor.BN_ofNumber (JS.floor (JS.mul (JS.of_Z a) LAMPORTS_PER_SOL))
  = Some (a * 10 ^ 9) /\
  Anchor.fits_u64 (a * 10 ^ 9) = true.
Proof.
  intros Ha Hl. change (10 ^ 9) with 1000000000 in *.
  change (2 ^ 53) with 9007199254740992 in Hl.
  rewrite le_of_Z. unfold LAMPORTS_PER_SOL, Anchor.fits_u64.
  rewrite mul_exact by (change (2 ^ 53) with 9007199254740992; lia).
  rewrite floor_of_Z.
  rewrite BN_ofNumber_of_Z
    by (change (2 ^ 53) with 9007199254740992; lia).
  repeat split.
  - apply Z.leb_gt. lia.
  - apply andb_true_iff. split; [apply Z.leb_le | apply Z.ltb_lt]; lia.
Qed.

Ltac transact_at d Hp :=
  unfold stake, unstake, transact, build, failed, fetchStakeAccount,
    fetchWalletBalance, pdaAccount;
  rewrite Hp, (connected_of_program d Hp); cbn [andb negb orb].

(** X9: [stake] and [unstake] of a whole number of SOL whose lamports stay
    below [2^53]: with the blockhash, the submission and the confirmation
    answered, the instruction carries exactly [amount * 10^9] lamports, the
    success toast follows the confirmation, the stake account is read again
    next, and [loading] is lowered last. *)
Theorem transact_whole_sol (d : Deps) (env : Env) (s : State) (a : Z) :
  program d = true -> 0 < a -> a * 10 ^ 9 < 2 ^ 53 ->
  (forall k, (k < 3)%nat -> fails env k = None) ->
  let staked := snd (run (stake d (JS.of_Z a)) env s) in
  let unstaked := snd (run (unstake d (JS.of_Z a)) env s) in
  firstn 7 (events staked)
  = [SetLoading true; Call getLatestBlockhash;
     Built (Anchor.stakeIx (a * 10 ^ 9));
     Call (walletSendTransaction [Anchor.stakeIx (a * 10 ^ 9)]);
     Call confirmTransaction;
     Toast "Staked Successfully"
       [Str "Staked "; Num (JS.of_Z a); Str " SOL successfully!"] false;
     Call getAccountInfo] /\
  firstn 7 (events unstaked)
  = [SetLoading true; Call getLatestBlockhash;
     Built (Anchor.unstakeIx (a * 10 ^ 9));
     Call (walletSendTransaction [Anchor.unstakeIx (a * 10 ^ 9)]);
     Call confirmTransaction;
     Toast "Unstaked Successfully"
       [Str "Unstaked "; Num (JS.of_Z a); Str " SOL successfully!"] false;
     Call getAccountInfo] /\
  last (events staked) (SetLoading true) = SetLoading false /\
  last (events unstaked) (SetLoading true) = SetLoading false /\
  loading (state staked) = false /\ loading (state unstaked) = false.
Proof.
  intros Hp Ha Hl Hok. cbv zeta.
  destruct (whole_sol_lamports a Ha Hl) as (E1 & E2 & E3).
  transact_at d Hp. rewrite E1, E2, E3. eval_monad.
  rewrite (Hok 0%nat), (Hok 1%nat), (Hok 2%nat) by lia.
  world env; repeat split.
Qed.

Lemma transact_whole_sol_witness :
  let staked := snd (run (stake readyDeps (JS.of_Z 3)) (calm None 0)
                       initialState) in
  let unstaked := snd (run (unstake readyDeps (JS.of_Z 3)) (calm None 0)
                         initialState) in
  firstn 7 (events staked)
  = [SetLoading true; Call getLatestBlockhash;
     Built (Anchor.stakeIx 3000000000);
     Call (walletSendTransaction [Anchor.stakeIx 3000000000]);
     Call confirmTransaction;
     Toast "Staked Successfully"
       [Str "Staked "; Num (JS.of_Z 3); Str " SOL successfully!"] false;
     Call getAccountInfo] /\
  firstn 7 (events unstaked)
  = [SetLoading true; Call getLatestBlockhash;
     Built (Anchor.unstakeIx 3000000000);
     Call (walletSendTransaction [Anchor.unstakeIx 3000000000]);
     Call confirmTransaction;
     Toast "Unstaked Successfully"
       [Str "Unstaked "; Num (JS.of_Z 3); Str " SOL successfully!"] false;
     Call getAccountInfo] /\
  last (events staked) (SetLoading true) = SetLoading false /\
  last (events unstaked) (SetLoading true) = SetLoading false /\
  loading (state staked) = false /\ loading (state unstaked) = false.
Proof.
  cbv zeta.
  apply (transact_whole_sol readyDeps (calm None 0) initialState 3);
    first [reflexivity | lia | (intros; reflexivity)].
Defined.

(** X10: the guard of [stake] and [unstake].  Without a connected wallet, or
    with an amount of zero or less, nothing happens at all - no toast, no
    request, no state written.  NaN is not caught by [amount <= 0], and
    [new BN(NaN)] is zero: with the three requests answered, an instruction
    for 0 lamports is built, handed to the wallet and confirmed, and the
    toast reports NaN SOL as staked or unstaked.  [+Infinity] is not caught
    either: [loading] is raised and the blockhash requested, then [new BN]
    fails its assertion; nothing is built or submitted, an error toast is
    shown and [loading] lowered. *)
Theorem transact_guard (d : Deps) (env : Env) (s : State) (amount : JS.number) :
  (program d = false \/ JS.le amount (JS.of_Z 0) = true ->
   run (stake d amount) env s
   = (Done tt, {| state := s; events := []; requests := 0 |}) /\
   run (unstake d amount) env s
   = (Done tt, {| state := s; events := []; requests := 0 |}))
  /\
  (program d = true -> amount = JS.NaN ->
   (forall k, (k < 3)%nat -> fails env k = None) ->
   firstn 6 (events (snd (run (stake d amount) env s)))
   = [SetLoading true; Call getLatestBlockhash;
      Built (Anchor.stakeIx 0);
      Call (walletSendTransaction [Anchor.stakeIx 0]);
      Call confirmTransaction;
      Toast "Staked Successfully"
        [Str "Staked "; Num JS.NaN; Str " SOL successfully!"] false] /\
   firstn 6 (events (snd (run (unstake d amount) env s)))
   = [SetLoading true; Call getLatestBlockhash;
      Built (Anchor.unstakeIx 0);
      Call (walletSendTransaction [Anchor.unstakeIx 0]);
      Call confirmTransaction;
      Toast "Unstaked Successfully"
        [Str "Unstaked "; Num JS.NaN; Str " SOL successfully!"] false])
  /\
  (program d = true -> amount = JS.Inf false ->
   fails env 0%nat = None ->
   exists text,
     events (snd (run (stake d amount) env s))
     = [SetLoading true; Call getLatestBlockhash;
        Toast "Error" [Str text] true; SetLoading false] /\
     events (snd (run (unstake d amount) env s))
     = [SetLoading true; Call getLatestBlockhash;
        Toast "Error" [Str text] true; SetLoading false]).
Proof.
  split; [| split].
  - intros Hno. unfold stake, unstake, transact, pdaAccount.
    destruct Hno as [Hp | Hle].
    + rewrite Hp. cbn [andb negb orb]. destruct s. split; reflexivity.
    + rewrite Hle, orb_true_r. destruct s. split; reflexivity.
  - intros Hp -> Hok. transact_at d Hp.
    change (JS.le JS.NaN (JS.of_Z 0)) with false.
    change (Anchor.BN_ofNumber
              (JS.floor (JS.mul JS.NaN LAMPORTS_PER_SOL))) with (Some 0).
    eval_monad. rewrite (Hok 0%nat) by lia.
    change (Anchor.fits_u64 0) with true. eval_monad.
    rewrite (Hok 1%nat), (Hok 2%nat) by lia.
    world env; split; reflexivity.
  - intros Hp -> Hok. transact_at d Hp.
    change (JS.le (JS.Inf false) (JS.of_Z 0)) with false.
    change (Anchor.BN_ofNumber
              (JS.floor (JS.mul (JS.Inf false) LAMPORTS_PER_SOL)))
      with (@None Z).
    eval_monad. rewrite Hok.
    eexists; split; reflexivity.
Qed.

Lemma transact_guard_witness :
  (run (stake readyDeps (JS.of_Z (-1))) (calm None 0) initialState
   = (Done tt, {| state := initialState; events := []; requests := 0 |}) /\
   run (unstake readyDeps (JS.of_Z (-1))) (calm None 0) initialState
   = (Done tt, {| state := initialState; events := []; requests := 0 |}))
  /\
  firstn 6 (events (snd (run (stake readyDeps JS.NaN) (calm None 0)
                           initialState)))
  = [SetLoading true; Call getLatestBlockhash;
     Built (Anchor.stakeIx 0);
     Call (walletSendTransaction [Anchor.stakeIx 0]);
     Call confirmTransaction;
     Toast "Staked Successfully"
       [Str "Staked "; Num JS.NaN; Str " SOL successfully!"] false]
  /\
  exists text,
    events (snd (run (stake readyDeps (JS.Inf false)) (calm None 0)
                   initialState))
    = [SetLoading true; Call getLatestBlockhash;
       Toast "Error" [Str text] true; SetLoading false] /\
    events (snd (run (unstake readyDeps (JS.Inf false)) (calm None 0)
                   initialState))
    = [SetLoading true; Call getLatestBlockhash;
       Toast "Error" [Str text] true; SetLoading false].
Proof.
  split; [| split].
  - apply (transact_guard readyDeps (calm None 0) initialState (JS.of_Z (-1))).
    right. reflexivity.
  - apply (proj1 (proj2 (transact_guard readyDeps (calm None 0) initialState
                           JS.NaN)));
      first [reflexivity | (intros; reflexivity)].
  - apply (transact_guard readyDeps (calm None 0) initialState (JS.Inf false));
      reflexivity.
Defined.

(** X11: when the wallet refuses a stake or an unstake with a message that
    contains "This transaction has already been processed", the toast shows
    the advice to try again instead of that message. *)
Theorem transact_stale_blockhash
  (d : Deps) (env : Env) (s : State) (a : Z) (e : Error) (pre post : string) :
  program d = true -> 0 < a -> a * 10 ^ 9 < 2 ^ 53 ->
  fails env 0%nat = None -> fails env 1%nat = Some e ->
  message e
  = Some (pre ++ "This transaction has already been processed" ++ post)%string ->
  events (snd (run (stake d (JS.of_Z a)) env s))
  = [SetLoading true; Call getLatestBlockhash;
     Built (Anchor.stakeIx (a * 10 ^ 9));
     Call (walletSendTransaction [Anchor.stakeIx (a * 10 ^ 9)]);
     Toast "Error"
       [Str "Please try again. A new blockhash is required for each request."]
       true;
     SetLoading false] /\
  events (snd (run (unstake d (JS.of_Z a)) env s))
  = [SetLoading true; Call getLatestBlockhash;
     Built (Anchor.unstakeIx (a * 10 ^ 9));
     Call (walletSendTransaction [Anchor.unstakeIx (a * 10 ^ 9)]);
     Toast "Error"
       [Str "Please try again. A new blockhash is required for each request."]
       true;
     SetLoading false].
Proof.
  intros Hp Ha Hl H0 H1 Hmsg.
  destruct (whole_sol_lamports a Ha Hl) as (E1 & E2 & E3).
  assert (Hshown : forall fallback, shown fallback e = retryHint).
  { intros fallback. unfold shown, staleBlockhash, messageOr, orDefault.
    rewrite Hmsg.
    destruct (pre ++ "This transaction has already been processed" ++ post)%string
      eqn:Htext.
    - destruct pre; discriminate.
    - rewrite <- Htext. rewrite includes_inside by discriminate. reflexivity. }
  transact_at d Hp. rewrite E1, E2, E3. eval_monad.
  rewrite H0, H1, !Hshown. split; reflexivity.
Qed.

Lemma transact_stale_blockhash_witness :
  let env :=
    failingAt 1
      (plainError
         "Transaction simulation failed: This transaction has already been processed")
      (calm None 0) in
  events (snd (run (stake readyDeps (JS.of_Z 2)) env initialState))
  = [SetLoading true; Call getLatestBlockhash;
     Built (Anchor.stakeIx 2000000000);
     Call (walletSendTransaction [Anchor.stakeIx 2000000000]);
     Toast "Error"
       [Str "Please try again. A new blockhash is required for each request."]
       true;
     SetLoading false] /\
  events (snd (run (unstake readyDeps (JS.of_Z 2)) env initialState))
  = [SetLoading true; Call getLatestBlockhash;
     Built (Anchor.unstakeIx 2000000000);
     Call (walletSendTransaction [Anchor.unstakeIx 2000000000]);
     Toast "Error"
       [Str "Please try again. A new blockhash is required for each request."]
       true;
     SetLoading false].
Proof.
  cbv zeta.
  apply (transact_stale_blockhash readyDeps _ initialState 2
           (plainError
              "Transaction simulation failed: This transaction has already been processed")
           "Transaction simulation failed: " EmptyString);
    first [reflexivity | lia].
Defined.

Ltac settle_useStakeProgram env s unfolding :=
  match goal with
  | |- context [run (setLoading true ;; try_finally ?body _) env s] =>
      let Hset := fresh "Hset" in
      let Hret := fresh "Hret" in
      destruct (useStakeProgram_bracket body env s) as [Hset Hret];
      split;
      [ destruct Hret as [[] Hret]; [returning_with unfolding | exact Hret]
      | exact Hset ]
  end.

(** X12: [createPdaAccount], [stake] and [unstake] of the hook never let a
    rejection escape, whatever the cluster and the wallet answer and whatever
    the amount; and whenever they raised [loading], lowering it is the last
    thing they do. *)
Theorem operations_always_settle
  (d : Deps) (env : Env) (s : State) (amount : JS.number) :
  let created := run (createPdaAccount d) env s in
  let staked := run (stake d amount) env s in
  let unstaked := run (unstake d amount) env s in
  (fst created = Done tt /\
   settled (events (snd created)) (loading (state (snd created)))) /\
  (fst staked = Done tt /\
   settled (events (snd staked)) (loading (state (snd staked)))) /\
  (fst unstaked = Done tt /\
   settled (events (snd unstaked)) (loading (state (snd unstaked)))).
Proof.
  cbv zeta. unfold createPdaAccount, stake, unstake, transact.
  destruct (negb (program d && connected d && pdaAccount d)); cbn [orb].
  - split; [| split];
      (split; [reflexivity | apply settled_quiet; reflexivity]).
  - split; [| destruct (JS.le amount (JS.of_Z 0)); split];
      first [ settle_useStakeProgram env s ltac:(unfold failed)
            | split; [reflexivity | apply settled_quiet; reflexivity] ].
Qed.

Lemma operations_always_settle_witness :
  let w := snd (run (stake readyDeps (JS.of_Z 1))
                  (failingAt 1 (plainError "User rejected the request.")
                     (calm None 0))
                  initialState) in
  last (events w) (SetLoading true) = SetLoading false /\
  loading (state w) = false.
Proof.
  cbv zeta.
  apply (proj2 (proj1 (proj2 (operations_always_settle readyDeps
                                (failingAt 1
                                   (plainError "User rejected the request.")
                                   (calm None 0))
                                initialState (JS.of_Z 1))))).
  vm_compute. reflexivity.
Defined.

End TransactFacts.

(* ================================================================== *)
(** ** [useStaking]: what its three variants do around a request *)
(* ================================================================== *)

Module HookFacts.
Import Runtime Discipline StakingCommon JSFacts StakeProgramFacts RuntimeFacts
  ReadFacts TransactFacts StakingFacts.

Ltac quiet := split; [reflexivity | apply settled_quiet; reflexivity].

Ltac bracketed env s unfolding :=
  match goal with
  | |- context [run (setLoading true ;; try_finally ?body _) env s] =>
      let Hset := fresh "Hset" in
      let Hret := fresh "Hret" in
      destruct (useStaking_bracket body env s) as [Hset Hret];
      first
        [ exact Hset
        | split;
          [ destruct Hret as [[] Hret]; [returning_with unfolding | exact Hret]
          | exact Hset ] ]
  end.

Ltac in_order env := both_ways env.

Lemma whole_sol (a : Z) :
  0 < a -> a * 10 ^ 9 < 2 ^ 53 ->
  JS.le (JS.of_Z a) (JS.of_Z 0) = false /\
  JS.floor (JS.mul (JS.of_Z a) LAMPORTS_PER_SOL) = JS.of_Z (a * 10 ^ 9).
Proof.
  intros Ha Hl. change (10 ^ 9) with 1000000000 in *.
  change (2 ^ 53) with 9007199254740992 in Hl.
  rewrite le_of_Z. unfold LAMPORTS_PER_SOL.
  rewrite mul_exact by (change (2 ^ 53) with 9007199254740992; lia).
  rewrite floor_of_Z. split; [apply Z.leb_gt; lia | reflexivity].
Qed.

(** What [toString] prints from [2^53] on, on known values. *)
Example printedInteger_beyond_safe_range :
  map Anchor.printedInteger
    [2 ^ 53; 2 ^ 53 + 2; 2 ^ 56; 2 ^ 60; 2 ^ 63; 2 ^ 64;
     9007199255000000512]
  = [9007199254740992; 9007199254740994; 72057594037927940;
     1152921504606847000; 9223372036854776000; 18446744073709552000;
     9007199255000000000].
Proof. vm_compute. reflexivity. Qed.

Lemma BN_ofNumberString_lamports (z : Z) :
  0 <= z < 2 ^ 53 ->
  Anchor.BN_ofNumberString (JS.of_Z z) = Some z /\
  Anchor.fits_u64 z = true /\
  Anchor.transferable (JS.of_Z z) = true.
Proof.
  intros Hz. change (2 ^ 53) with 9007199254740992 in Hz.
  assert (Hfit : Anchor.fits_u64 z = true).
  { unfold Anchor.fits_u64. apply andb_true_iff.
    split; [apply Z.leb_le | apply Z.ltb_lt]; [lia |].
    change (2 ^ 64) with 18446744073709551616. lia. }
  unfold Anchor.BN_ofNumberString, Anchor.transferable, Anchor.printedInteger.
  rewrite to_Z_of_Z, Hfit.
  replace (Z.abs z <? 10 ^ 21) with true
    by (symmetry; apply Z.ltb_lt;
        change (10 ^ 21) with 1000000000000000000000; lia).
  replace (Z.abs z <? 2 ^ 53) with true
    by (symmetry; apply Z.ltb_lt;
        change (2 ^ 53) with 9007199254740992; lia).
  repeat split.
Qed.

(** *** [src/hooks/useStaking.ts] *)

Ltac settled_by_finally env s :=
  match goal with
  | |- context [run (setLoading true ;; try_finally ?body _) env s] =>
      exact (proj1 (useStaking_bracket body env s))
  end.

Ltac returns_by_catch env s unfolding :=
  match goal with
  | |- context [run (setLoading true ;; try_finally ?body _) env s] =>
      let Hret := fresh "Hret" in
      destruct (useStaking_bracket_in body env s) as [[] Hret];
      [ apply (returns_in_caught (fun e => hasMessage e = true));
        [ throwing_with unfolding
        | let e := fresh "e" in
          let He := fresh "He" in
          intros e He; apply returns_in_all; unfold hasMessage in He;
          returning_with unfolding; discriminate He ]
      | exact Hret ]
  end.

(** X13: whenever [stake], [unstake] or [claimPoints] of
    [src/hooks/useStaking.ts] raised [loading], lowering it is the last
    thing they do, whatever [solToLamports], the wallet and the cluster do.
    [claimPoints] never lets a rejection escape; [stake] and [unstake] let
    none escape as long as every thrown value has a [message], which their
    [catch] blocks search. *)
Theorem staking_operations_settle
  (solToLamports : JS.number -> Outcome Z)
  (s : State) (d : Deps) (env : Env) (amount : JS.number) :
  let staked := run (Staking.stake solToLamports s d amount) env s in
  let unstaked := run (Staking.unstake solToLamports s d amount) env s in
  let claimed := run (Staking.claimPoints s d) env s in
  settled (events (snd staked)) (loading (state (snd staked))) /\
  settled (events (snd unstaked)) (loading (state (snd unstaked))) /\
  (fst claimed = Done tt /\
   settled (events (snd claimed)) (loading (state (snd claimed)))) /\
  (failsWithMessage env ->
   (forall error, solToLamports amount = Thrown error ->
                  hasMessage error = true) ->
   fst staked = Done tt /\ fst unstaked = Done tt).
Proof.
  cbv zeta. unfold Staking.stake, Staking.unstake, Staking.claimPoints.
  destruct (negb (connected d && sendTransaction d)).
  { repeat apply conj; try (apply settled_quiet; reflexivity);
      try reflexivity. intros _ _. split; reflexivity. }
  split; [| split; [| split]].
  - destruct (JS.le amount (JS.of_Z 0)); [apply settled_quiet; reflexivity |].
    destruct (JS.gt amount (balance s)); [apply settled_quiet; reflexivity |].
    settled_by_finally env s.
  - destruct (stakeAccount s); [| apply settled_quiet; reflexivity].
    destruct (JS.le amount (JS.of_Z 0)); [apply settled_quiet; reflexivity |].
    settled_by_finally env s.
  - destruct (stakeAccount s) as [account |]; [| quiet].
    destruct (Anchor.totalPoints account =? 0); [quiet |].
    bracketed env s ltac:(unfold toastError).
  - intros Henv Hsol. unfold failsWithMessage in Henv. split.
    + destruct (JS.le amount (JS.of_Z 0)); [reflexivity |].
      destruct (JS.gt amount (balance s)); [reflexivity |].
      returns_by_catch env s
        ltac:(unfold Staking.createPdaAccount, Staking.lamportsOfSol,
                Staking.build, Staking.stakeFailure, fetchBalance,
                fetchStakeAccount, fetchStakeAccountWith,
                AnchorLib.checkPDAExists, AnchorLib.getStakeAccount,
                setLoading, setBalance, setStakeAccount, setPdaExists,
                toastError, toastSuccess).
    + destruct (stakeAccount s); [| reflexivity].
      destruct (JS.le amount (JS.of_Z 0)); [reflexivity |].
      returns_by_catch env s
        ltac:(unfold Staking.lamportsOfSol,
                Staking.build, Staking.unstakeFailure, fetchBalance,
                fetchStakeAccount, fetchStakeAccountWith,
                AnchorLib.checkPDAExists, AnchorLib.getStakeAccount,
                setLoading, setBalance, setStakeAccount, setPdaExists,
                toastError, toastSuccess).
Qed.

Lemma staking_operations_settle_witness :
  let staked := run (Staking.stake Utils.solToLamports
                       (render false (position 0 0 0)) walletDeps
                       (JS.of_Z 1))
                  (failingAt 0 (plainError "User rejected the request.")
                     (funded 0))
                  (render false (position 0 0 0)) in
  fst staked = Done tt /\
  last (events (snd staked)) (SetLoading true) = SetLoading false /\
  loading (state (snd staked)) = false.
Proof.
  cbv zeta.
  pose proof (staking_operations_settle Utils.solToLamports
                (render false (position 0 0 0)) walletDeps
                (failingAt 0 (plainError "User rejected the request.")
                   (funded 0))
                (JS.of_Z 1)) as H.
  cbv zeta in H. destruct H as (Hsettled & _ & _ & Hdone).
  split.
  - apply Hdone.
    + intros k error Hk. cbn [fails failingAt funded] in Hk.
      destruct (Nat.eqb k 0); [| discriminate Hk].
      inversion Hk. reflexivity.
    + intros error Hthrown. vm_compute in Hthrown. discriminate Hthrown.
  - apply Hsettled. vm_compute. reflexivity.
Defined.

(** X14: a first stake creates the account before it looks at the amount
    again.  Once the two amount gates are passed (which an amount that is not
    a number does, both comparisons being false) and no account is known,
    the creation is built, sent through the wallet and confirmed, and
    [loading] is lowered by its [finally], before [solToLamports] is ever
    called. *)
Theorem stake_creates_account_first
  (solToLamports : JS.number -> Outcome Z)
  (s : State) (d : Deps) (env : Env) (amount : JS.number) :
  connected d = true -> sendTransaction d = true ->
  JS.le amount (JS.of_Z 0) = false ->
  JS.gt amount (balance s) = false ->
  pdaExists s = false ->
  fails env 0%nat = None -> fails env 1%nat = None ->
  exists rest,
    events (snd (run (Staking.stake solToLamports s d amount) env s))
    = [SetLoading true; SetLoading true;
       Built Anchor.createPdaAccountIx;
       Call (walletSendTransaction [Anchor.createPdaAccountIx]);
       Call confirmTransaction;
       Toast "Success" [Str "Account created successfully"] false;
       SetLoading false] ++ rest.
Proof.
  intros Hc Hs Hpos Hbal Hpda H0 H1.
  unfold Staking.stake, Staking.createPdaAccount, Staking.lamportsOfSol,
    Staking.build, Staking.stakeFailure, fetchBalance, fetchStakeAccount,
    fetchStakeAccountWith.
  rewrite Hc, Hs, Hpos, Hbal, Hpda. cbn [andb negb].
  eval_hook. rewrite H0, H1. eval_hook.
  destruct (solToLamports amount) as [z | e]; eval_hook;
    [destruct (Anchor.fits_u64 z); eval_hook |];
    both_ways env; eexists; reflexivity.
Qed.

Lemma stake_creates_account_first_witness :
  exists rest,
    events (snd (run (Staking.stake Utils.solToLamports firstRender
                        walletDeps JS.NaN)
                   (funded 0) firstRender))
    = [SetLoading true; SetLoading true;
       Built Anchor.createPdaAccountIx;
       Call (walletSendTransaction [Anchor.createPdaAccountIx]);
       Call confirmTransaction;
       Toast "Success" [Str "Account created successfully"] false;
       SetLoading false] ++ rest.
Proof.
  apply (stake_creates_account_first Utils.solToLamports firstRender
           walletDeps (funded 0) JS.NaN); reflexivity.
Defined.

(** X15: when the wallet refuses the account creation of a first stake, the
    stake stops there: the toast names the failure, no stake instruction is
    built, [solToLamports] is not called, and the state is the rendered one
    with [loading] lowered. *)
Theorem failed_creation_stops_stake
  (solToLamports : JS.number -> Outcome Z)
  (s : State) (d : Deps) (env : Env) (amount : JS.number) (error : Error) :
  connected d = true -> sendTransaction d = true ->
  JS.le amount (JS.of_Z 0) = false ->
  JS.gt amount (balance s) = false ->
  pdaExists s = false ->
  fails env 0%nat = Some error ->
  run (Staking.stake solToLamports s d amount) env s
  = (Done tt,
     {| state := {| loading := false; balance := balance s;
                    stakeAccount := stakeAccount s; pdaExists := false |};
        events := [SetLoading true; SetLoading true;
                   Built Anchor.createPdaAccountIx;
                   Call (walletSendTransaction [Anchor.createPdaAccountIx]);
                   Toast "Error" [Str "Failed to create account: ";
                                  Str (messageText error)] true;
                   SetLoading false; SetLoading false];
        requests := 1 |}).
Proof.
  intros Hc Hs Hpos Hbal Hpda H0.
  unfold Staking.stake, Staking.createPdaAccount.
  rewrite Hc, Hs, Hpos, Hbal, Hpda. cbn [andb negb].
  eval_hook. rewrite H0. eval_hook. rewrite Hpda. reflexivity.
Qed.

Lemma failed_creation_stops_stake_witness :
  let s := {| loading := false; balance := JS.of_Z 2; stakeAccount := None;
              pdaExists := false |} in
  run (Staking.stake Utils.solToLamports s walletDeps (JS.of_Z 1))
    (failingAt 0 (plainError "User rejected the request.") (funded 0)) s
  = (Done tt,
     {| state := s;
        events := [SetLoading true; SetLoading true;
                   Built Anchor.createPdaAccountIx;
                   Call (walletSendTransaction [Anchor.createPdaAccountIx]);
                   Toast "Error" [Str "Failed to create account: ";
                                  Str "User rejected the request."] true;
                   SetLoading false; SetLoading false];
        requests := 1 |}).
Proof.
  cbv zeta.
  apply (failed_creation_stops_stake Utils.solToLamports
           {| loading := false; balance := JS.of_Z 2; stakeAccount := None;
              pdaExists := false |}
           walletDeps
           (failingAt 0 (plainError "User rejected the request.") (funded 0))
           (JS.of_Z 1) (plainError "User rejected the request."));
    reflexivity.
Defined.

(** X16: a failure of the unstake submission whose message contains [6001]
    anywhere is shown as "Insufficient staked amount", and the message itself
    is not shown. *)
Theorem unstake_error_code_text
  (solToLamports : JS.number -> Outcome Z)
  (s : State) (d : Deps) (env : Env) (amount : JS.number)
  (account : Anchor.StakeAccount) (lamports : Z) (error : Error)
  (pre post : string) :
  connected d = true -> sendTransaction d = true ->
  stakeAccount s = Some account ->
  JS.le amount (JS.of_Z 0) = false ->
  solToLamports amount = Done lamports ->
  Anchor.fits_u64 lamports = true ->
  fails env 0%nat = Some error ->
  message error = Some (pre ++ "6001" ++ post)%string ->
  run (Staking.unstake solToLamports s d amount) env s
  = (Done tt,
     {| state := {| loading := false; balance := balance s;
                    stakeAccount := stakeAccount s;
                    pdaExists := pdaExists s |};
        events := [SetLoading true; Built (Anchor.unstakeIx lamports);
                   Call (walletSendTransaction [Anchor.unstakeIx lamports]);
                   Toast "Error" [Str "Insufficient staked amount"] true;
                   SetLoading false];
        requests := 1 |}).
Proof.
  intros Hc Hs Hacc Hpos Hsol Hfit H0 Hmsg.
  destruct s as [inFlight funds held known]. cbn [stakeAccount] in Hacc.
  subst held.
  unfold Staking.unstake, Staking.lamportsOfSol, Staking.build,
    Staking.unstakeFailure.
  cbn [stakeAccount balance pdaExists loading].
  rewrite Hc, Hs, Hpos, Hsol. cbn [andb negb].
  eval_hook. rewrite Hfit. eval_hook. rewrite H0. eval_hook.
  rewrite Hmsg, includes_inside by discriminate. reflexivity.
Qed.

Lemma unstake_error_code_text_witness :
  let s := render false (position 5000000000 0 0) in
  let error := plainError "Transfer: insufficient lamports 16001, need 20000" in
  events (snd (run (Staking.unstake Utils.solToLamports s walletDeps
                      (JS.of_Z 1))
                 (failingAt 0 error (funded 0)) s))
  = [SetLoading true; Built (Anchor.unstakeIx 1000000000);
     Call (walletSendTransaction [Anchor.unstakeIx 1000000000]);
     Toast "Error" [Str "Insufficient staked amount"] true;
     SetLoading false].
Proof.
  cbv zeta.
  exact (f_equal (fun r => events (snd r))
           (unstake_error_code_text Utils.solToLamports
              (render false (position 5000000000 0 0)) walletDeps
              (failingAt 0
                 (plainError
                    "Transfer: insufficient lamports 16001, need 20000")
                 (funded 0))
              (JS.of_Z 1) (position 5000000000 0 0) 1000000000
              (plainError "Transfer: insufficient lamports 16001, need 20000")
              "Transfer: insufficient lamports 1" ", need 20000"
              eq_refl eq_refl eq_refl eq_refl eq_refl eq_refl eq_refl
              eq_refl)).
Defined.

(** X17: a refresh of the stake account never shows its "Failed to fetch
    stake account" toast and never throws, since [checkPDAExists] and
    [getStakeAccount] catch every failure themselves.  A failed first request
    reads as a wallet without account: [pdaExists] false and no stake
    account.  A failed second request leaves [pdaExists] set and no stake
    account. *)
Theorem refresh_hides_failures
  (s : State) (d : Deps) (env : Env) :
  connected d = true ->
  let r := run (fetchStakeAccount d) env s in
  fst r = Done tt /\
  forallb (fun ev => negb (isToast ev)) (events (snd r)) = true /\
  (fails env 0%nat <> None ->
   snd r = {| state := {| loading := loading s; balance := balance s;
                          stakeAccount := None; pdaExists := false |};
              events := [Call getAccountInfo];
              requests := 1 |}) /\
  (fails env 0%nat = None -> accountData env 0%nat <> None ->
   fails env 1%nat <> None ->
   snd r = {| state := {| loading := loading s; balance := balance s;
                          stakeAccount := None; pdaExists := true |};
              events := [Call getAccountInfo; Call getAccountInfo];
              requests := 2 |}).
Proof.
  intros Hc. cbv zeta.
  unfold fetchStakeAccount, fetchStakeAccountWith. rewrite Hc. cbn [negb].
  eval_hook.
  destruct (fails env 0%nat) as [e0 |]; eval_hook.
  { repeat split; congruence. }
  destruct (accountData env 0%nat) as [data |]; eval_hook.
  - destruct (fails env 1%nat) as [e1 |]; eval_hook.
    + repeat split; congruence.
    + destruct (accountData env 1%nat); repeat split; congruence.
  - repeat split; congruence.
Qed.

Lemma refresh_hides_failures_witness :
  let r := run (fetchStakeAccount walletDeps)
             (failingAt 0 (plainError "429 Too Many Requests") (funded 0))
             (render false (position 5000000000 700 0)) in
  fst r = Done tt /\
  events (snd r) = [Call getAccountInfo] /\
  stakeAccount (state (snd r)) = None /\
  pdaExists (state (snd r)) = false.
Proof.
  cbv zeta.
  pose proof (refresh_hides_failures
                (render false (position 5000000000 700 0)) walletDeps
                (failingAt 0 (plainError "429 Too Many Requests") (funded 0))
                eq_refl) as H.
  cbv zeta in H. destruct H as (Hdone & _ & Hfirst & _).
  split; [exact Hdone |].
  rewrite Hfirst by discriminate. repeat split.
Defined.

(** X26: a rejection without [message] is not reported by [stake] and
    [unstake]: the [catch] block fails on [error.message.includes], so the
    failure escapes with no toast; [loading] is still lowered. *)
Theorem staking_rejection_without_message_escapes
  (solToLamports : JS.number -> Outcome Z)
  (s : State) (d : Deps) (env : Env) (amount : JS.number)
  (account : Anchor.StakeAccount) (lamports : Z) (error : Error) :
  connected d = true -> sendTransaction d = true ->
  pdaExists s = true -> stakeAccount s = Some account ->
  JS.le amount (JS.of_Z 0) = false ->
  JS.gt amount (balance s) = false ->
  solToLamports amount = Done lamports ->
  Anchor.fits_u64 lamports = true ->
  fails env 0%nat = Some error -> message error = None ->
  let lowered := {| loading := false; balance := balance s;
                    stakeAccount := stakeAccount s;
                    pdaExists := pdaExists s |} in
  exists thrown,
    run (Staking.stake solToLamports s d amount) env s
    = (Thrown thrown,
       {| state := lowered;
          events := [SetLoading true; Built (Anchor.stakeIx lamports);
                     Call (walletSendTransaction [Anchor.stakeIx lamports]);
                     SetLoading false];
          requests := 1 |}) /\
    run (Staking.unstake solToLamports s d amount) env s
    = (Thrown thrown,
       {| state := lowered;
          events := [SetLoading true; Built (Anchor.unstakeIx lamports);
                     Call (walletSendTransaction [Anchor.unstakeIx lamports]);
                     SetLoading false];
          requests := 1 |}).
Proof.
  intros Hc Hs Hpda Hacc Hpos Hbal Hsol Hfit H0 Hmsg.
  destruct s as [inFlight funds held known].
  cbn [stakeAccount pdaExists balance] in Hpda, Hacc, Hbal. subst held known.
  unfold Staking.stake, Staking.unstake, Staking.lamportsOfSol, Staking.build,
    Staking.stakeFailure, Staking.unstakeFailure.
  cbn [stakeAccount balance pdaExists loading].
  rewrite Hc, Hs, Hpos, Hbal, Hsol. cbn [andb negb].
  eval_hook. rewrite Hfit. eval_hook. rewrite H0. eval_hook.
  rewrite Hmsg. eval_hook. eexists. split; reflexivity.
Qed.

Lemma staking_rejection_without_message_escapes_witness :
  let s := render false (position 5000000000 0 0) in
  let env := failingAt 0 {| message := None; hasGetLogs := false |}
               (funded 0) in
  exists thrown,
    fst (run (Staking.stake Utils.solToLamports s walletDeps (JS.of_Z 1))
           env s) = Thrown thrown /\
    fst (run (Staking.unstake Utils.solToLamports s walletDeps (JS.of_Z 1))
           env s) = Thrown thrown.
Proof.
  cbv zeta.
  destruct (staking_rejection_without_message_escapes Utils.solToLamports
              (render false (position 5000000000 0 0)) walletDeps
              (failingAt 0 {| message := None; hasGetLogs := false |}
                 (funded 0))
              (JS.of_Z 1) (position 5000000000 0 0) 1000000000
              {| message := None; hasGetLogs := false |}
              eq_refl eq_refl eq_refl eq_refl eq_refl eq_refl eq_refl eq_refl
              eq_refl eq_refl)
    as (thrown & Hstake & Hunstake).
  exists thrown. split.
  - exact (f_equal fst Hstake).
  - exact (f_equal fst Hunstake).
Defined.

(** *** The variant with the in-flight gate *)

(** X18: in the guarded variant, whenever [createPdaAccount], [stake],
    [unstake] or [claimPoints] raised [loading], lowering it is the last
    thing they do, also when the [catch] block itself throws. *)
Theorem guarded_operations_settle
  (s : State) (d : Deps) (env : Env) (amount : JS.number) :
  let created := snd (run (StakingGuarded.createPdaAccount d) env s) in
  let staked := snd (run (StakingGuarded.stake s d amount) env s) in
  let unstaked := snd (run (StakingGuarded.unstake s d amount) env s) in
  let claimed := snd (run (StakingGuarded.claimPoints s d) env s) in
  settled (events created) (loading (state created)) /\
  settled (events staked) (loading (state staked)) /\
  settled (events unstaked) (loading (state unstaked)) /\
  settled (events claimed) (loading (state claimed)).
Proof.
  cbv zeta. unfold StakingGuarded.createPdaAccount, StakingGuarded.stake,
    StakingGuarded.unstake, StakingGuarded.claimPoints.
  destruct (negb (connected d && sendTransaction d));
    [destruct (loading s); repeat apply conj;
     apply settled_quiet; reflexivity |].
  split; [bracketed env s idtac |].
  destruct (loading s);
    [repeat apply conj; apply settled_quiet; reflexivity |].
  split; [| split].
  - destruct (JS.le amount (JS.of_Z 0));
      [apply settled_quiet; reflexivity | bracketed env s idtac].
  - destruct (stakeAccount s) as [account |];
      [| apply settled_quiet; reflexivity].
    destruct (JS.le amount (JS.of_Z 0)); [apply settled_quiet; reflexivity |].
    destruct (Anchor.BN_toNumber (Anchor.stakedAmount account))
      as [stakedLamports |]; [| apply settled_quiet; reflexivity].
    destruct (JS.gt (JS.floor (JS.mul amount LAMPORTS_PER_SOL))
                stakedLamports);
      [apply settled_quiet; reflexivity | bracketed env s idtac].
  - destruct (stakeAccount s) as [account |];
      [| apply settled_quiet; reflexivity].
    destruct (Anchor.totalPoints account =? 0);
      [apply settled_quiet; reflexivity | bracketed env s idtac].
Qed.

Lemma guarded_operations_settle_witness :
  let w := snd (run (StakingGuarded.stake firstRender walletDeps (JS.of_Z 1))
                  (failingAt 3 (plainError "Blockhash not found") (funded 0))
                  firstRender) in
  last (events w) (SetLoading true) = SetLoading false /\
  loading (state w) = false.
Proof.
  cbv zeta.
  apply (proj1 (proj2 (guarded_operations_settle firstRender walletDeps
                         (failingAt 3 (plainError "Blockhash not found")
                            (funded 0))
                         (JS.of_Z 1)))).
  vm_compute. reflexivity.
Defined.

(** X19: when the submission fails with a value that has [getLogs] and
    [getLogs] fails in turn, the second failure escapes the operation: no
    toast is shown at all, and [loading] is still lowered. *)
Theorem guarded_failure_in_catch_escapes
  (s : State) (d : Deps) (env : Env) (account : Anchor.StakeAccount)
  (error logsError : Error) :
  loading s = false ->
  connected d = true -> sendTransaction d = true ->
  stakeAccount s = Some account ->
  Anchor.totalPoints account <> 0 ->
  fails env 0%nat = Some error -> hasGetLogs error = true ->
  fails env 1%nat = Some logsError ->
  run (StakingGuarded.claimPoints s d) env s
  = (Thrown logsError,
     {| state := s;
        events := [SetLoading true; Built Anchor.claimPointsIx;
                   Call getLatestBlockhash; Call getLogs; SetLoading false];
        requests := 2 |}).
Proof.
  intros Hl Hc Hs Hacc Hpts H0 Hlogs H1.
  destruct s as [inFlight funds held known].
  cbn [loading stakeAccount] in Hl, Hacc. subst inFlight held.
  unfold StakingGuarded.claimPoints, StakingGuarded.failure.
  cbn [stakeAccount balance pdaExists loading].
  rewrite Hc, Hs. cbn [andb negb].
  destruct (Z.eqb_spec (Anchor.totalPoints account) 0) as [E | _];
    [contradiction |].
  eval_hook. rewrite H0. eval_hook. rewrite Hlogs. eval_hook. rewrite H1.
  reflexivity.
Qed.

Lemma guarded_failure_in_catch_escapes_witness :
  let s := render false (position 5000000000 700 0) in
  let error := {| message := Some "Simulation failed"%string; hasGetLogs := true |} in
  fst (run (StakingGuarded.claimPoints s walletDeps)
         (failingAt 0 error (failingAt 1 (plainError "fetch failed")
                               (funded 0))) s)
  = Thrown (plainError "fetch failed").
Proof.
  cbv zeta.
  exact (f_equal fst
           (guarded_failure_in_catch_escapes
              (render false (position 5000000000 700 0)) walletDeps
              (failingAt 0 {| message := Some "Simulation failed"%string;
                              hasGetLogs := true |}
                 (failingAt 1 (plainError "fetch failed") (funded 0)))
              (position 5000000000 700 0)
              {| message := Some "Simulation failed"%string; hasGetLogs := true |}
              (plainError "fetch failed")
              eq_refl eq_refl eq_refl eq_refl
              ltac:(discriminate) eq_refl eq_refl eq_refl)).
Defined.

(** X20: the balance check of the guarded [stake], for an account that
    exists and a whole number [a] of SOL with [a * 10^9 + 10000] below
    [2^53]: with fewer lamports in the wallet than the amount plus the fee
    buffer of 10000, the stake ends after the one [getBalance] request with
    the toast, and nothing is built or submitted. *)
Theorem guarded_stake_fee_buffer
  (s : State) (d : Deps) (env : Env) (a funds : Z) :
  loading s = false ->
  connected d = true -> sendTransaction d = true ->
  pdaExists s = true ->
  0 < a -> a * 10 ^ 9 + 10000 < 2 ^ 53 ->
  fails env 0%nat = None -> lamportsOf env 0%nat = JS.of_Z funds ->
  funds < a * 10 ^ 9 + 10000 ->
  run (StakingGuarded.stake s d (JS.of_Z a)) env s
  = (Done tt,
     {| state := s;
        events := [SetLoading true; Call getBalance;
                   Toast "Error"
                     [Str "Insufficient balance (including fee buffer)"] true;
                   SetLoading false];
        requests := 1 |}).
Proof.
  intros Hl Hc Hs Hpda Ha Hsafe H0 Hfunds Hshort.
  destruct s as [inFlight held account known].
  cbn [loading pdaExists] in Hl, Hpda. subst inFlight known.
  destruct (whole_sol a Ha ltac:(lia)) as [Hpos Hlam].
  unfold StakingGuarded.stake.
  cbn [stakeAccount balance pdaExists loading].
  rewrite Hc, Hs, Hpos, Hlam. cbn [andb negb]. cbv zeta.
  rewrite add_exact by lia. eval_hook. rewrite H0. eval_hook.
  rewrite Hfunds, lt_of_Z.
  destruct (Z.ltb_spec funds (a * 10 ^ 9 + 10000)) as [_ | Hge]; [| lia].
  reflexivity.
Qed.

Lemma guarded_stake_fee_buffer_witness :
  events (snd (run (StakingGuarded.stake (render false (position 0 0 0))
                      walletDeps (JS.of_Z 1))
                 (funded 1000009999) (render false (position 0 0 0))))
  = [SetLoading true; Call getBalance;
     Toast "Error" [Str "Insufficient balance (including fee buffer)"] true;
     SetLoading false].
Proof.
  exact (f_equal (fun r => events (snd r))
           (guarded_stake_fee_buffer (render false (position 0 0 0))
              walletDeps (funded 1000009999) 1 1000009999
              eq_refl eq_refl eq_refl eq_refl eq_refl eq_refl eq_refl eq_refl
              eq_refl)).
Defined.

(** X21: for an account that exists and a whole number [a] of SOL with
    [a * 10^9 + 10000] below [2^53]: with at least the amount plus the fee
    buffer in the wallet, exactly that included, the guarded [stake] has the
    wallet sign, and submits, one transaction of two instructions: a transfer
    of the lamports to the platform key and the stake of the same
    lamports. *)
Theorem guarded_stake_transfers_and_stakes
  (s : State) (d : Deps) (env : Env) (a funds : Z) :
  loading s = false ->
  connected d = true -> sendTransaction d = true ->
  signTransaction d = true -> platformKeypair d = true ->
  pdaExists s = true ->
  0 < a -> a * 10 ^ 9 + 10000 < 2 ^ 53 ->
  lamportsOf env 0%nat = JS.of_Z funds ->
  a * 10 ^ 9 + 10000 <= funds ->
  (forall k, (k < 3)%nat -> fails env k = None) ->
  let tx := [Anchor.transferToPlatformIx (JS.of_Z (a * 10 ^ 9));
             Anchor.stakeIx (a * 10 ^ 9)] in
  exists rest,
    events (snd (run (StakingGuarded.stake s d (JS.of_Z a)) env s))
    = [SetLoading true; Call getBalance;
       Built (Anchor.transferToPlatformIx (JS.of_Z (a * 10 ^ 9)));
       Built (Anchor.stakeIx (a * 10 ^ 9));
       Call getLatestBlockhash;
       Call (walletSignTransaction tx); Call (sendRawTransaction tx)]
      ++ rest.
Proof.
  intros Hl Hc Hs Hsign Hkey Hpda Ha Hsafe Hfunds Henough Hcalm.
  destruct (whole_sol a Ha ltac:(lia)) as [Hpos Hlam].
  destruct (BN_ofNumberString_lamports (a * 10 ^ 9) ltac:(lia))
    as (Hbn & Hfit & Htransfer).
  pose proof (Hcalm 0%nat ltac:(lia)) as H0.
  pose proof (Hcalm 1%nat ltac:(lia)) as H1.
  pose proof (Hcalm 2%nat ltac:(lia)) as H2.
  unfold StakingGuarded.stake, StakingGuarded.build,
    StakingGuarded.signSendConfirm, StakingGuarded.failure,
    fetchBalance, fetchStakeAccount, fetchStakeAccountWith.
  rewrite Hl, Hc, Hs, Hsign, Hkey, Hpda, Hpos, Hlam, Hbn, Hfit, Htransfer.
  cbn [andb negb]. cbv zeta.
  rewrite add_exact by lia. eval_hook. rewrite H0. eval_hook.
  rewrite Hfunds, lt_of_Z.
  destruct (Z.ltb_spec funds (a * 10 ^ 9 + 10000)) as [Hlt | _]; [lia |].
  eval_hook. rewrite H1. eval_hook. rewrite H2. eval_hook.
  both_ways env; eexists; reflexivity.
Qed.

Lemma guarded_stake_transfers_and_stakes_witness :
  let tx := [Anchor.transferToPlatformIx (JS.of_Z (1 * 10 ^ 9));
             Anchor.stakeIx (1 * 10 ^ 9)] in
  exists rest,
    events (snd (run (StakingGuarded.stake (render false (position 0 0 0))
                        walletDeps (JS.of_Z 1))
                   (funded 1000010000) (render false (position 0 0 0))))
    = [SetLoading true; Call getBalance;
       Built (Anchor.transferToPlatformIx (JS.of_Z (1 * 10 ^ 9)));
       Built (Anchor.stakeIx (1 * 10 ^ 9));
       Call getLatestBlockhash;
       Call (walletSignTransaction tx); Call (sendRawTransaction tx)]
      ++ rest.
Proof.
  apply (guarded_stake_transfers_and_stakes (render false (position 0 0 0))
           walletDeps (funded 1000010000) 1 1000010000);
    first [reflexivity | (intros; reflexivity)].
Defined.

(** Beyond that bound the two instructions part ways: the transfer carries
    the rounded product, the stake instruction the digits that
    [lamports.toString()] prints for it. *)
Example guarded_stake_beyond_safe_range :
  firstn 4
    (events (snd (run (StakingGuarded.stake (render false (position 0 0 0))
                         walletDeps (JS.of_Z 9007199255))
                    (funded (10 ^ 19)) (render false (position 0 0 0)))))
  = [SetLoading true; Call getBalance;
     Built (Anchor.transferToPlatformIx (JS.of_Z 9007199255000000512));
     Built (Anchor.stakeIx 9007199255000000000)].
Proof. vm_compute. reflexivity. Qed.

(** X22: the local check of the guarded [unstake], for a whole number [a] of
    SOL with [a * 10^9] below [2^53] and staked lamports below [2^53]: more
    than the staked lamports ends with the toast and nothing else; up to the
    staked lamports, these included, the unstake instruction is built for
    exactly the requested lamports and the submission begins. *)
Theorem guarded_unstake_up_to_stake
  (s : State) (d : Deps) (env : Env) (a : Z) (account : Anchor.StakeAccount) :
  loading s = false ->
  connected d = true -> sendTransaction d = true ->
  stakeAccount s = Some account ->
  0 < a -> a * 10 ^ 9 < 2 ^ 53 ->
  0 <= Anchor.stakedAmount account < 2 ^ 53 ->
  let w := snd (run (StakingGuarded.unstake s d (JS.of_Z a)) env s) in
  (Anchor.stakedAmount account < a * 10 ^ 9 ->
   w = {| state := s; events := [StakingGuarded.exceedsStakeToast];
          requests := 0 |}) /\
  (a * 10 ^ 9 <= Anchor.stakedAmount account ->
   exists rest,
     events w = [SetLoading true; Built (Anchor.unstakeIx (a * 10 ^ 9));
                 Call getLatestBlockhash] ++ rest).
Proof.
  intros Hl Hc Hs Hacc Ha Hsafe Hstaked.
  destruct (whole_sol a Ha Hsafe) as [Hpos Hlam].
  destruct (BN_ofNumberString_lamports (a * 10 ^ 9) ltac:(lia))
    as (Hbn & Hfit & _).
  cbv zeta.
  unfold StakingGuarded.unstake, StakingGuarded.build,
    StakingGuarded.signSendConfirm, StakingGuarded.failure,
    fetchBalance, fetchStakeAccount, fetchStakeAccountWith.
  rewrite Hl, Hc, Hs, Hacc, Hpos, Hlam, Hbn, Hfit,
    (BN_toNumber_safe _ Hstaked), gt_of_Z.
  cbn [andb negb].
  destruct (Z.ltb_spec (Anchor.stakedAmount account) (a * 10 ^ 9)).
  - split; [intros _; reflexivity | lia].
  - split; [lia | intros _].
    destruct (signTransaction d); eval_hook;
      in_order env; eexists; reflexivity.
Qed.

Lemma guarded_unstake_up_to_stake_witness :
  exists rest,
    events (snd (run (StakingGuarded.unstake
                        (render false (position 5000000000 0 0)) walletDeps
                        (JS.of_Z 5))
                   (funded 0) (render false (position 5000000000 0 0))))
    = [SetLoading true; Built (Anchor.unstakeIx (5 * 10 ^ 9));
       Call getLatestBlockhash] ++ rest.
Proof.
  refine (proj2 (guarded_unstake_up_to_stake
                   (render false (position 5000000000 0 0)) walletDeps
                   (funded 0) 5 (position 5000000000 0 0)
                   _ _ _ _ _ _ _) _);
    first [ reflexivity
          | split; [discriminate | reflexivity]
          | vm_compute; discriminate ].
Defined.

(** X23: a staked amount of [2^53] or more makes the guarded [unstake] throw
    where the amount is read, before its [try]: the rejection escapes, no
    toast is shown and nothing is written or requested. *)
Theorem guarded_unstake_unsafe_stake_escapes
  (s : State) (d : Deps) (env : Env) (amount : JS.number)
  (account : Anchor.StakeAccount) :
  loading s = false ->
  connected d = true -> sendTransaction d = true ->
  stakeAccount s = Some account ->
  JS.le amount (JS.of_Z 0) = false ->
  2 ^ 53 <= Anchor.stakedAmount account ->
  exists error,
    run (StakingGuarded.unstake s d amount) env s
    = (Thrown error, {| state := s; events := []; requests := 0 |}).
Proof.
  intros Hl Hc Hs Hacc Hpos Hbig.
  unfold StakingGuarded.unstake.
  rewrite Hl, Hc, Hs, Hacc, Hpos, (BN_toNumber_unsafe _ Hbig).
  cbn [andb negb]. eexists. reflexivity.
Qed.

Lemma guarded_unstake_unsafe_stake_escapes_witness :
  exists error,
    run (StakingGuarded.unstake
           (render false (position 9007199254740992 0 0)) walletDeps
           (JS.of_Z 1))
      (funded 0) (render false (position 9007199254740992 0 0))
    = (Thrown error,
       {| state := render false (position 9007199254740992 0 0);
          events := []; requests := 0 |}).
Proof.
  apply (guarded_unstake_unsafe_stake_escapes
           (render false (position 9007199254740992 0 0)) walletDeps
           (funded 0) (JS.of_Z 1) (position 9007199254740992 0 0));
    first [reflexivity | discriminate].
Defined.

(** X24: the guarded variant refuses to work without the wallet's
    [sendTransaction] and yet never calls it: no operation hands a
    transaction to it, whatever the state, the wallet and the cluster. *)
Theorem guarded_never_uses_wallet_send
  (s : State) (d : Deps) (env : Env) (amount : JS.number) :
  let unused := fun ev => negb (isWalletSend ev) in
  forallb unused
    (events (snd (run (StakingGuarded.createPdaAccount d) env s))) = true /\
  forallb unused
    (events (snd (run (StakingGuarded.stake s d amount) env s))) = true /\
  forallb unused
    (events (snd (run (StakingGuarded.unstake s d amount) env s))) = true /\
  forallb unused
    (events (snd (run (StakingGuarded.claimPoints s d) env s))) = true.
Proof.
  cbv zeta. repeat apply conj; apply emits_only_run;
    unfold StakingGuarded.createPdaAccount, StakingGuarded.stake,
      StakingGuarded.unstake, StakingGuarded.claimPoints;
    disciplined_with
      ltac:(unfold StakingGuarded.createPdaAccount, StakingGuarded.build,
              StakingGuarded.signSendConfirm, StakingGuarded.failure,
              StakingGuarded.pleaseWait, StakingGuarded.pleaseWaitToast,
              StakingGuarded.exceedsStakeToast, noPointsToClaim,
              fetchBalance, fetchStakeAccount, fetchStakeAccountWith,
              AnchorLib.checkPDAExists, AnchorLib.getStakeAccount,
              setLoading, setBalance, setStakeAccount, setPdaExists,
              toastError, toastSuccess; cbv zeta).
Qed.

(** *** The mock variant *)

(** X25: the mock variant builds no instruction and asks nothing of the
    wallet: every request of [createPdaAccount], [stake], [unstake] and
    [claimPoints] is a read of the cluster, whatever [solToLamports] does. *)
Theorem mock_operations_read_only
  (solToLamports : JS.number -> Outcome Z)
  (s : State) (d : Deps) (env : Env) (amount : JS.number) :
  forallb readsOnly
    (events (snd (run (StakingMockOps.createPdaAccount d) env s))) = true /\
  forallb readsOnly
    (events (snd (run (StakingMockOps.stake solToLamports s d amount)
                    env s))) = true /\
  forallb readsOnly
    (events (snd (run (StakingMockOps.unstake solToLamports s d amount)
                    env s))) = true /\
  forallb readsOnly
    (events (snd (run (StakingMock.claimPoints s d) env s))) = true.
Proof.
  repeat apply conj; apply emits_only_run;
    unfold StakingMockOps.createPdaAccount, StakingMockOps.stake,
      StakingMockOps.unstake, StakingMock.claimPoints;
    disciplined_with
      ltac:(unfold StakingMockOps.createPdaAccount,
              StakingMockOps.stakeFailure, StakingMockOps.unstakeFailure,
              StakingMockOps.fetchBalance, StakingMock.fetchStakeAccount,
              Staking.lamportsOfSol, fetchStakeAccountWith,
              AnchorLib.checkPDAExists, AnchorLib.getStakeAccount,
              setLoading, setBalance, setStakeAccount, setPdaExists,
              StakingMock.toastError, StakingMock.toastSuccess).
Qed.

End HookFacts.
